(** * TECA: the CF reader, the vorticity, vertical-integral and mesh-subset
      stages, the dataset diff and the [main] of teca_bayesian_ar_detect,
      embedded from the C++ sources.

    Conventions of the embedding.
    - [unsigned long] / [size_t] values are [Z] with the wrap-around modulo
      2^64 written out ([ulong]); [unsigned int] wraps modulo 2^32 ([uint]).
    - [double] is Rocq's primitive binary64 [float].
    - [std::vector] is [list]; [std::set<std::string>] is [gset string];
      a [teca_metadata] used as a dictionary is [gmap string variant_array].
    - A null [shared_ptr] result is [None].
    - [TECA_ERROR], [TECA_WARNING] and [TECA_STATUS] append a [log_record]
      to the log returned next to the result. *)

From Stdlib Require Import ZArith List String Ascii Bool Lia Floats.
From Stdlib Require Strings.Byte.
From stdpp Require Import base gmap strings list.

Import ListNotations.

(** ** Error records and effects

    [TECA_ERROR(msg)] and its siblings print a record of severity, origin
    and message; the NetCDF calls are the other effect of the reader.  Both
    are kept, in program order, in the event list a stage operation
    returns with its value.  Run-time values interpolated in a message
    (indices, counts) and the quotation marks around names are left out
    of the message text. *)

Inductive severity := ERROR | WARNING | STATUS.

Record log_record := LogRecord {
  log_severity : severity;
  log_origin : string;
  log_message : string
}.

Inductive event :=
| Log (r : log_record)
| NcOpen (path : string)
| NcGetVara (path : string) (varid : Z) (starts counts : list Z).

Definition is_error (e : event) : bool :=
  match e with
  | Log (LogRecord ERROR _ _) => true
  | _ => false
  end.

(** A computation that logs: its value and the events it emitted. *)
Definition W (A : Type) : Type := (A * list event)%type.

Definition w_ret {A} (a : A) : W A := (a, []).

Definition w_bind {A B} (m : W A) (k : A -> W B) : W B :=
  let '(a, l) := m in
  let '(b, l') := k a in
  (b, l ++ l').

Definition emit (e : event) : W unit := (tt, [e]).

Definition TECA_ERROR (origin msg : string) : W unit :=
  emit (Log (LogRecord ERROR origin msg)).
Definition TECA_WARNING (origin msg : string) : W unit :=
  emit (Log (LogRecord WARNING origin msg)).
Definition TECA_STATUS (origin msg : string) : W unit :=
  emit (Log (LogRecord STATUS origin msg)).

(** A stage operation that may give up: [None] is the null pointer (or the
    empty metadata) the operation returns after an early [return]. *)
Definition M (A : Type) : Type := W (option A).

Definition ret {A} (a : A) : M A := (Some a, []).

Definition bind {A B} (m : M A) (k : A -> M B) : M B :=
  match m with
  | (Some a, l) => let '(b, l') := k a in (b, l ++ l')
  | (None, l) => (None, l)
  end.

(** [TECA_ERROR(msg) return nullptr;] *)
Definition fail {A} (origin msg : string) : M A :=
  (None, [Log (LogRecord ERROR origin msg)]).

(** Run a logging step that cannot give up inside [M]. *)
Definition lift {A} (m : W A) : M A := (Some (fst m), snd m).

Declare Scope teca_scope.
Delimit Scope teca_scope with teca.
Notation "'let*' x ':=' m 'in' k" := (bind m (fun x => k))
  (at level 10, x name, m at level 100, k at level 200) : teca_scope.

(** ** Variant arrays and metadata

    [teca_variant_array] and [teca_metadata] are declared outside the files
    at hand; the embedding keeps what the stages use of them: a typed
    array, and a dictionary from names to arrays read with typed getters.
    A getter answers [None] where the C++ getter returns non-zero (the
    name is absent); a name holding another element type is treated as
    absent too. *)

Inductive variant_array :=
| StringArray (v : list string)
| ULongArray (v : list Z)
| DoubleArray (v : list float).

Abbreviation teca_metadata := (gmap string variant_array).

Definition md_has (md : teca_metadata) (name : string) : bool :=
  match md !! name with Some _ => true | None => false end.

(** [md.get(name, val)] for a scalar: element 0 of the array. *)
Definition md_get_string (md : teca_metadata) (name : string)
    : option string :=
  match md !! name with
  | Some (StringArray (s :: _)) => Some s
  | _ => None
  end.

Definition md_get_ulong (md : teca_metadata) (name : string) : option Z :=
  match md !! name with
  | Some (ULongArray (n :: _)) => Some n
  | _ => None
  end.

Definition md_get_double (md : teca_metadata) (name : string)
    : option float :=
  match md !! name with
  | Some (DoubleArray (x :: _)) => Some x
  | _ => None
  end.

(** [md.get(name, vals, n)]: the first [n] elements. *)
Definition md_get_ulongs (md : teca_metadata) (name : string) (n : nat)
    : option (list Z) :=
  match md !! name with
  | Some (ULongArray v) => Some (firstn n v)
  | _ => None
  end.

Definition md_get_doubles (md : teca_metadata) (name : string) (n : nat)
    : option (list float) :=
  match md !! name with
  | Some (DoubleArray v) => Some (firstn n v)
  | _ => None
  end.

(** [md.get(name, vec)] for a vector of strings. *)
Definition md_get_strings (md : teca_metadata) (name : string)
    : option (list string) :=
  match md !! name with
  | Some (StringArray v) => Some v
  | _ => None
  end.

(** [s.empty()] *)
Definition empty_string (s : string) : bool :=
  match s with EmptyString => true | _ => false end.

(** ** Machine integers *)

Definition ulong (z : Z) : Z := (z mod 2 ^ 64)%Z.
Definition uint (z : Z) : Z := (z mod 2 ^ 32)%Z.

(** The values an [unsigned long] can hold. *)
Definition is_ulong (z : Z) : Prop := (0 <= z < 2 ^ 64)%Z.

(** [v[i]] on a [std::vector<unsigned long>]; the source only indexes
    inside the vector, the default stands for what is out of range. *)
Definition at_ulong (v : list Z) (i : Z) : Z := nth (Z.to_nat i) v 0%Z.

Fixpoint sum_ulong (v : list Z) : Z :=
  match v with
  | [] => 0%Z
  | n :: rest => (n + sum_ulong rest)%Z
  end.

(** Number of time steps held by the first [f] files. *)
Definition steps_before (f : nat) (step_count : list Z) : Z :=
  sum_ulong (firstn f step_count).

Module CfReader.

Local Open Scope Z_scope.

(** *** teca_cf_reader::execute, "locate file with this time step"

<<
    unsigned long idx = 0;
    unsigned long count = 0;
    for (unsigned int i = 1;
        (i < step_count.size()) && ((count + step_count[i-1]) <= time_step);
        ++idx, ++i)
    {
        count += step_count[i-1];
    }
    unsigned long offs = time_step - count;
>> *)

Record locate_state := LocateState {
  ls_i : Z;
  ls_idx : Z;
  ls_count : Z
}.

Definition locate_cond (step_count : list Z) (time_step : Z)
    (s : locate_state) : bool :=
  (ls_i s <? Z.of_nat (length step_count))
  && (ulong (ls_count s + at_ulong step_count (ls_i s - 1)) <=? time_step).

Definition locate_body (step_count : list Z) (s : locate_state)
    : locate_state :=
  {| ls_i := uint (ls_i s + 1);
     ls_idx := ulong (ls_idx s + 1);
     ls_count := ulong (ls_count s + at_ulong step_count (ls_i s - 1)) |}.

Fixpoint locate_loop (fuel : nat) (step_count : list Z) (time_step : Z)
    (s : locate_state) : option locate_state :=
  match fuel with
  | O => if locate_cond step_count time_step s then None else Some s
  | S fuel' =>
      if locate_cond step_count time_step s
      then locate_loop fuel' step_count time_step (locate_body step_count s)
      else Some s
  end.

(** The pair [(idx, offs)] the loop leaves behind. *)
Definition locate_file (step_count : list Z) (time_step : Z)
    : option (Z * Z) :=
  match locate_loop (length step_count) step_count time_step
          {| ls_i := 1; ls_idx := 0; ls_count := 0 |} with
  | Some s => Some (ls_idx s, ulong (time_step - ls_count s))
  | None => None
  end.

(** *** The reader and the metadata it reported *)

(** Modelled from the spec: [PATH_SEP] is defined outside the files at
    hand; the cache path is written [<dir>/.<hex-hash>.<ext>]. *)
Definition PATH_SEP : string := "/".

(** The properties of the stage (the constructor's initialiser list). *)
Record teca_cf_reader := {
  file_names : list string;
  files_regex : string;
  metadata_cache_dir : string;
  x_axis_variable : string;
  y_axis_variable : string;
  z_axis_variable : string;
  t_axis_variable : string;
  t_calendar : string;
  t_units : string;
  filename_time_template : string;
  t_values : list float;
  periodic_in_x : Z;
  periodic_in_y : Z;
  periodic_in_z : Z;
  thread_pool_size : Z;
  cache_metadata : Z
}.

(** The per-variable attributes [read_variable_attributes] stores and
    [execute] reads back. *)
Record array_attributes := {
  cf_type_code : option Z;
  cf_id : option Z;
  cf_dims : option (list Z);
  cf_dim_names : option (list string);
  att_calendar : option string;
  att_units : option string
}.

(** The ["coordinates"] entry of the reported metadata. *)
Record coordinates := {
  x_variable : option string;
  y_variable : option string;
  z_variable : option string;
  t_variable : option string;
  coord_x : option (list float);
  coord_y : option (list float);
  coord_z : option (list float);
  coord_t : option (list float)
}.

(** [this->internals->metadata], by the keys [execute] asks for; a key
    that is absent is [None]. *)
Record reader_metadata := {
  md_coordinates : option coordinates;
  md_whole_extent : option (list Z);
  md_step_count : option (list Z);
  md_root : option string;
  md_files : option (list string);
  md_attributes : option (gmap string array_attributes)
}.

(** The mesh [execute] builds.  An array the NetCDF type dispatch did not
    fill is appended as a null array, [None]. *)
Record teca_cartesian_mesh := {
  x_coordinate_variable : string;
  y_coordinate_variable : string;
  z_coordinate_variable : string;
  x_coordinates : list float;
  y_coordinates : list float;
  z_coordinates : list float;
  time : float;
  time_step : Z;
  whole_extent : list Z;
  extent : list Z;
  bounds : list float;
  mesh_periodic_in_x : Z;
  mesh_periodic_in_y : Z;
  mesh_periodic_in_z : Z;
  calendar_and_units : option (string * string);
  point_arrays : list (string * option variant_array);
  information_arrays : list (string * option variant_array)
}.

Definition append_point_array (m : teca_cartesian_mesh) (name : string)
    (a : option variant_array) : teca_cartesian_mesh :=
  {| x_coordinate_variable := x_coordinate_variable m;
     y_coordinate_variable := y_coordinate_variable m;
     z_coordinate_variable := z_coordinate_variable m;
     x_coordinates := x_coordinates m;
     y_coordinates := y_coordinates m;
     z_coordinates := z_coordinates m;
     time := time m;
     time_step := time_step m;
     whole_extent := whole_extent m;
     extent := extent m;
     bounds := bounds m;
     mesh_periodic_in_x := mesh_periodic_in_x m;
     mesh_periodic_in_y := mesh_periodic_in_y m;
     mesh_periodic_in_z := mesh_periodic_in_z m;
     calendar_and_units := calendar_and_units m;
     point_arrays := point_arrays m ++ [(name, a)];
     information_arrays := information_arrays m |}.

Definition append_information_array (m : teca_cartesian_mesh)
    (name : string) (a : option variant_array) : teca_cartesian_mesh :=
  {| x_coordinate_variable := x_coordinate_variable m;
     y_coordinate_variable := y_coordinate_variable m;
     z_coordinate_variable := z_coordinate_variable m;
     x_coordinates := x_coordinates m;
     y_coordinates := y_coordinates m;
     z_coordinates := z_coordinates m;
     time := time m;
     time_step := time_step m;
     whole_extent := whole_extent m;
     extent := extent m;
     bounds := bounds m;
     mesh_periodic_in_x := mesh_periodic_in_x m;
     mesh_periodic_in_y := mesh_periodic_in_y m;
     mesh_periodic_in_z := mesh_periodic_in_z m;
     calendar_and_units := calendar_and_units m;
     point_arrays := point_arrays m;
     information_arrays := information_arrays m ++ [(name, a)] |}.

(** [a->get(i, val)] on a coordinate array and [a->new_copy(lo, hi)], the
    elements [lo..hi] inclusive. *)
Definition at_double (v : list float) (i : Z) : float :=
  nth (Z.to_nat i) v 0%float.

Definition new_copy (v : list float) (lo hi : Z) : list float :=
  firstn (Z.to_nat (hi - lo + 1)) (skipn (Z.to_nat lo) v).

(** The result of a loop run on fuel. *)
Inductive outcome (A : Type) :=
| Finished (a : A)
| OutOfFuel.
Arguments Finished {A} a.
Arguments OutOfFuel {A}.

(** *** teca_cf_reader::execute *)

Section Execute.

Local Open Scope teca_scope.

(** The collaborators of [execute] that live outside the files at hand:
    - [teca_coordinate_util::index_of], the index of a time value on the
      time axis ([None] where it returns non-zero);
    - [teca_coordinate_util::bounds_to_extent], the extent covering the
      requested bounds on the three axes ([None] where it returns
      non-zero);
    - the NetCDF library: which files open, what [nc_get_vara] reads
      ([None] for an error code), and the type codes [NC_DISPATCH] has a
      case for. *)
Variable index_of : list float -> float -> option Z.
Variable bounds_to_extent :
  list float -> list float -> list float -> list float -> option (list Z).
Variable nc_open : string -> bool.
Variable nc_get_vara :
  string -> Z -> Z -> list Z -> list Z -> option variant_array.
Variable nc_dispatch : Z -> bool.

Definition origin : string := "teca_cf_reader::execute".

(** "get request": the time step and its time value. *)
Definition request_time (request : teca_metadata) (in_t : list float)
    : M (Z * float) :=
  match md_get_double request "time" with
  | Some t =>
      match index_of in_t t with
      | None => fail origin "requested time not found"
      | Some time_step => ret (time_step, t)
      end
  | None =>
      let time_step := default 0 (md_get_ulong request "time_step") in
      if time_step <? Z.of_nat (length in_t)
      then ret (time_step, at_double in_t time_step)
      else if negb (Z.of_nat (length in_t) =? 1)
      then fail origin "Invalid time step requested"
      else ret (time_step, 0%float)
  end.

(** The extent to read and the bounds of the output mesh. *)
Definition request_extent (request : teca_metadata) (whole_extent : list Z)
    (in_x in_y in_z : list float) : M (list Z * list float) :=
  match md_get_doubles request "bounds" 6 with
  | None =>
      (* bounds key not present, check for extent key
         if not present use whole_extent *)
      let extent :=
        match md_get_ulongs request "extent" 6 with
        | None => whole_extent
        | Some e => e
        end in
      (* get bounds of the extent being read *)
      ret (extent,
           [ at_double in_x (at_ulong extent 0);
             at_double in_x (at_ulong extent 1);
             at_double in_y (at_ulong extent 2);
             at_double in_y (at_ulong extent 3);
             at_double in_z (at_ulong extent 4);
             at_double in_z (at_ulong extent 5) ])
  | Some bounds =>
      (* bounds key was present, convert the bounds to an
         an extent that covers them. *)
      match bounds_to_extent bounds in_x in_y in_z with
      | None => fail origin "invalid bounds requested."
      | Some extent => ret (extent, bounds)
      end
  end.

(** What [execute] knows when it reaches the file search. *)
Record request_plan := {
  plan_coords : coordinates;
  plan_time_step : Z;
  plan_time : float;
  plan_whole_extent : list Z;
  plan_extent : list Z;
  plan_bounds : list float;
  plan_arrays : list string;
  plan_out_x : list float;
  plan_out_y : list float;
  plan_out_z : list float;
  plan_step_count : list Z
}.

Definition execute_plan (md : reader_metadata) (request : teca_metadata)
    : M request_plan :=
  match md_coordinates md with
  | None => fail origin "metadata is missing coordinates"
  | Some coords =>
  match coord_x coords, coord_y coords, coord_z coords, coord_t coords with
  | Some in_x, Some in_y, Some in_z, Some in_t =>
      let* tt := request_time request in_t in
      match md_whole_extent md with
      | None => fail origin "metadata is missing whole_extent"
      | Some we =>
          let whole_extent := firstn 6 we in
          let* eb := request_extent request whole_extent in_x in_y in_z in
          let extent := fst eb in
          let arrays := default [] (md_get_strings request "arrays") in
          match md_step_count md with
          | None => fail origin "metadata is missing step_count"
          | Some step_count =>
              ret {| plan_coords := coords;
                     plan_time_step := fst tt;
                     plan_time := snd tt;
                     plan_whole_extent := whole_extent;
                     plan_extent := extent;
                     plan_bounds := snd eb;
                     plan_arrays := arrays;
                     plan_out_x :=
                       new_copy in_x (at_ulong extent 0) (at_ulong extent 1);
                     plan_out_y :=
                       new_copy in_y (at_ulong extent 2) (at_ulong extent 3);
                     plan_out_z :=
                       new_copy in_z (at_ulong extent 4) (at_ulong extent 5);
                     plan_step_count := step_count |}
          end
      end
  | _, _, _, _ => fail origin "metadata is missing coordinate arrays"
  end
  end.

(** "figure out the mapping between our extent and netcdf representation":
    the dimension names of a mesh variable, slowest first, with the start
    and the count of the hyperslab along each.  (The allocation sizes
    [mesh_size] and [n_vals] are the products of the counts; here
    [nc_get_vara] hands the array back, so they are not carried.) *)
Record mesh_layout := {
  mesh_dim_names : list string;
  starts : list Z;
  counts : list Z
}.

Definition push_dim (use : bool) (name : string) (start count : Z)
    (l : mesh_layout) : mesh_layout :=
  if use
  then {| mesh_dim_names := mesh_dim_names l ++ [name];
          starts := starts l ++ [start];
          counts := counts l ++ [count] |}
  else l.

Definition extent_count (extent : list Z) (lo hi : Z) : Z :=
  ulong (at_ulong extent hi - at_ulong extent lo + 1).

Definition execute_layout (r : teca_cf_reader) (extent : list Z) (offs : Z)
    : mesh_layout :=
  let l0 := {| mesh_dim_names := []; starts := []; counts := [] |} in
  let l1 := push_dim (negb (empty_string (t_axis_variable r)))
              (t_axis_variable r) offs 1 l0 in
  let l2 := push_dim (negb (empty_string (z_axis_variable r)))
              (z_axis_variable r) (at_ulong extent 4)
              (extent_count extent 4 5) l1 in
  let l3 := push_dim (negb (empty_string (y_axis_variable r)))
              (y_axis_variable r) (at_ulong extent 2)
              (extent_count extent 2 3) l2 in
  push_dim (negb (empty_string (x_axis_variable r)))
    (x_axis_variable r) (at_ulong extent 0)
    (extent_count extent 0 1) l3.

(** "get metadata": the type code, id, dimensions and dimension names of
    a requested array; [None] on the branch that reports a metadata issue. *)
Definition array_metadata (atrs : gmap string array_attributes)
    (name : string) : option (Z * Z * list Z * list string) :=
  match atrs !! name with
  | None => None
  | Some atts =>
      match cf_type_code atts, cf_id atts, cf_dims atts,
            cf_dim_names atts with
      | Some type, Some id, Some dims, Some dim_names =>
          Some (type, id, dims, dim_names)
      | _, _, _, _ => None
      end
  end.

(** The element-wise comparison of the dimension names. *)
Fixpoint same_names (a b : list string) : bool :=
  match a, b with
  | x :: a', y :: b' => if String.eqb x y then same_names a' b' else false
  | _, _ => true
  end.

Definition is_mesh_variable (dim_names mesh_dims : list string) : bool :=
  (length dim_names =? length mesh_dims)%nat && same_names dim_names mesh_dims.

(** The start and count of an information variable: the requested step
    when its first dimension is time, everything otherwise. *)
Definition information_starts (r : teca_cf_reader) (offs : Z)
    (dim_names : list string) : list Z :=
  let n_dims := length dim_names in
  if negb (empty_string (t_axis_variable r))
     && String.eqb (nth 0 dim_names "") (t_axis_variable r)
  then <[0%nat := offs]> (replicate n_dims 0)
  else replicate n_dims 0.

Definition information_counts (r : teca_cf_reader) (dims : list Z)
    (dim_names : list string) : list Z :=
  let n_dims := length dim_names in
  let rest := map (fun ii => if (ii =? 0)%nat then 0
                             else at_ulong dims (Z.of_nat ii))
                  (seq 0 n_dims) in
  if negb (empty_string (t_axis_variable r))
     && String.eqb (nth 0 dim_names "") (t_axis_variable r)
  then <[0%nat := 1]> rest
  else <[0%nat := at_ulong dims 0]> rest.

(** One round of "read requested arrays"; a [continue] leaves the mesh as
    it was. *)
Definition read_array (r : teca_cf_reader)
    (atrs : gmap string array_attributes) (file_path : string)
    (layout : mesh_layout) (offs : Z)
    (mesh : teca_cartesian_mesh) (name : string) : W teca_cartesian_mesh :=
  match array_metadata atrs name with
  | None =>
      w_bind (TECA_ERROR origin ("metadata issue can't read " ++ name)%string)
        (fun _ => w_ret mesh)
  | Some (type, id, dims, dim_names) =>
      if is_mesh_variable dim_names (mesh_dim_names layout)
      then
        (* read mesh based data *)
        if nc_dispatch type
        then
          w_bind (emit (NcGetVara file_path id (starts layout)
                          (counts layout)))
            (fun _ =>
               match nc_get_vara file_path id type (starts layout)
                       (counts layout) with
               | None =>
                   w_bind (TECA_ERROR origin
                             ("Failed to read variable " ++ name)%string)
                     (fun _ => w_ret mesh)
               | Some a => w_ret (append_point_array mesh name (Some a))
               end)
        else w_ret (append_point_array mesh name None)
      else
        (* read non-spatial data *)
        let starts := information_starts r offs dim_names in
        let counts := information_counts r dims dim_names in
        if nc_dispatch type
        then
          w_bind (emit (NcGetVara file_path id starts counts))
            (fun _ =>
               match nc_get_vara file_path id type starts counts with
               | None =>
                   w_bind (TECA_ERROR origin ("Failed to read " ++ name)%string)
                     (fun _ => w_ret mesh)
               | Some a =>
                   w_ret (append_information_array mesh name (Some a))
               end)
        else w_ret (append_information_array mesh name None)
  end.

Fixpoint read_arrays (r : teca_cf_reader)
    (atrs : gmap string array_attributes) (file_path : string)
    (layout : mesh_layout) (offs : Z)
    (mesh : teca_cartesian_mesh) (arrays : list string)
    : W teca_cartesian_mesh :=
  match arrays with
  | [] => w_ret mesh
  | name :: rest =>
      w_bind (read_array r atrs file_path layout offs mesh name)
        (fun mesh' => read_arrays r atrs file_path layout offs mesh' rest)
  end.

(** "pass time axis attributes" *)
Definition time_axis_attributes (atrs : gmap string array_attributes)
    (t_axis_var : string) : option (string * string) :=
  match atrs !! t_axis_var with
  | Some time_atts =>
      match att_calendar time_atts, att_units time_atts with
      | Some calendar, Some units => Some (calendar, units)
      | _, _ => None
      end
  | None => None
  end.

(** "create output dataset": the mesh before any array is read. *)
Definition execute_mesh (r : teca_cf_reader) (plan : request_plan)
    (atrs : gmap string array_attributes) : teca_cartesian_mesh :=
  let coords := plan_coords plan in
  {| x_coordinate_variable := default "" (x_variable coords);
     y_coordinate_variable := default "" (y_variable coords);
     z_coordinate_variable := default "" (z_variable coords);
     x_coordinates := plan_out_x plan;
     y_coordinates := plan_out_y plan;
     z_coordinates := plan_out_z plan;
     time := plan_time plan;
     time_step := plan_time_step plan;
     whole_extent := plan_whole_extent plan;
     extent := plan_extent plan;
     bounds := plan_bounds plan;
     mesh_periodic_in_x := periodic_in_x r;
     mesh_periodic_in_y := periodic_in_y r;
     mesh_periodic_in_z := periodic_in_z r;
     calendar_and_units :=
       time_axis_attributes atrs (default "" (t_variable coords));
     point_arrays := [];
     information_arrays := [] |}.

(** From the file search to the end, given what the search found.  The
    file is opened before the mesh is made and the attributes are looked
    up; the pass-through of the attributes into the mesh metadata is not
    carried. *)
Definition execute_read (r : teca_cf_reader) (md : reader_metadata)
    (plan : request_plan) (idx offs : Z) : M teca_cartesian_mesh :=
  match md_root md, md_files md with
  | Some path, Some files =>
  match files !! Z.to_nat idx with
  | None => fail origin "Failed to locate file for time step"
  | Some file =>
      (* get the file handle for this step *)
      let file_path := (path ++ PATH_SEP ++ file)%string in
      let* _ := lift (emit (NcOpen file_path)) in
      if negb (nc_open file_path)
      then fail origin "Failed to open file"
      else
        match md_attributes md with
        | None => fail origin "metadata missing attributes"
        | Some atrs =>
            let layout := execute_layout r (plan_extent plan) offs in
            lift (read_arrays r atrs file_path layout offs
                    (execute_mesh r plan atrs) (plan_arrays plan))
        end
  end
  | _, _ => fail origin "Failed to locate file for time step"
  end.

(** [execute]: the plan, the file search, the reads. *)
Definition execute (r : teca_cf_reader) (md : reader_metadata)
    (request : teca_metadata) : outcome (M teca_cartesian_mesh) :=
  match execute_plan md request with
  | (None, log) => Finished (None, log)
  | (Some plan, log) =>
      match locate_file (plan_step_count plan) (plan_time_step plan) with
      | None => OutOfFuel
      | Some (idx, offs) =>
          Finished (bind (Some plan, log)
                      (fun plan => execute_read r md plan idx offs))
      end
  end.

End Execute.

(** *** The metadata cache of teca_cf_reader::get_output_metadata *)

(** [oss << std::hex << std::setw(2) << static_cast<unsigned int>(key[i])]
    with fill ['0']: the hexadecimal text of a byte, padded to two
    characters. *)
Definition hex_digit (n : N) : ascii :=
  nth (N.to_nat n) (list_ascii_of_string "0123456789abcdef") "0"%char.

Definition hex_byte (b : Byte.byte) : string :=
  let n := Byte.to_N b in
  if (n <? 16)%N
  then String "0"%char (String (hex_digit n) EmptyString)
  else String (hex_digit (n / 16)%N)
         (String (hex_digit (n mod 16)%N) EmptyString).

Definition SHA_DIGEST_LENGTH : nat := 20.

Section MetadataCache.

(** Outside the files at hand: the version string of the build, OpenSSL's
    SHA-1, and the encoders of [teca_binary_stream::pack]. *)
Variable TECA_VERSION_DESCR : string.
Variable SHA1 : list Byte.byte -> list Byte.byte.
Variable pack_string : string -> list Byte.byte.
Variable pack_strings : list string -> list Byte.byte.
Variable pack_doubles : list float -> list Byte.byte.
Variable pack_int : Z -> list Byte.byte.

(** teca_cf_reader_internals::create_metadata_cache_key: the digest of
    the version followed by the stream, read from the zero-initialised
    [key[SHA_DIGEST_LENGTH]] and written in hexadecimal. *)
Definition create_metadata_cache_key (bs : list Byte.byte) : string :=
  let digest := SHA1 (list_byte_of_string TECA_VERSION_DESCR ++ bs) in
  fold_right (fun i oss => (hex_byte (nth i digest Byte.x00) ++ oss)%string)
    EmptyString (seq 0 SHA_DIGEST_LENGTH).

(** "the key should include runtime attributes that change the metadata":
    what [get_output_metadata] packs into [bs], in order. *)
Definition metadata_cache_stream (r : teca_cf_reader) (path : string)
    (files : list string) : list Byte.byte :=
  pack_string path
  ++ pack_strings files
  ++ pack_string (files_regex r)
  ++ pack_strings (file_names r)
  ++ pack_string (x_axis_variable r)
  ++ pack_string (y_axis_variable r)
  ++ pack_string (z_axis_variable r)
  ++ pack_string (t_axis_variable r)
  ++ pack_string (t_units r)
  ++ pack_string (t_calendar r)
  ++ pack_doubles (t_values r)
  ++ pack_string (filename_time_template r)
  ++ pack_int (periodic_in_x r)
  ++ pack_int (periodic_in_y r)
  ++ pack_int (periodic_in_z r).

Definition metadata_cache_key (r : teca_cf_reader) (path : string)
    (files : list string) : string :=
  create_metadata_cache_key (metadata_cache_stream r path files).

(** The file system, as the lookup sees it: whether a file exists, and the
    stream [read_stream] reads from it ([None] where it fails). *)
Variable file_exists : string -> bool.
Variable read_stream : string -> option (list Byte.byte).

(** [metadata_cache_path[4]] and the index the probe starts from; [home] is
    what [getenv("HOME")] answers. *)
Definition metadata_cache_path (home : option string) (r : teca_cf_reader)
    (path : string) : list string :=
  [default "." home; "."; path; metadata_cache_dir r].

Definition n_metadata_cache_paths (r : teca_cf_reader) : nat :=
  if empty_string (metadata_cache_dir r) then 2%nat else 3%nat.

Definition metadata_cache_file (dir key : string) : string :=
  (dir ++ PATH_SEP ++ "." ++ key ++ ".tmd")%string.

Definition cache_origin : string := "teca_cf_reader::get_output_metadata".

(** [for (int i = n_metadata_cache_paths; i >= 0; --i)]: the probe of
    directory [i], then of the directories below it; the first file that
    exists and reads ends the loop. *)
Fixpoint probe_metadata_cache (dirs : list string) (key : string) (i : nat)
    : W (option (string * list Byte.byte)) :=
  let metadata_cache_file := metadata_cache_file (nth i dirs "") key in
  let next :=
    match i with
    | O => w_ret None
    | S i' => probe_metadata_cache dirs key i'
    end in
  if file_exists metadata_cache_file
  then
    match read_stream metadata_cache_file with
    | None =>
        w_bind (TECA_WARNING cache_origin "Failed to read metadata cache")
          (fun _ => next)
    | Some stream =>
        w_bind (TECA_STATUS cache_origin "Found metadata cache")
          (fun _ => w_ret (Some (metadata_cache_file, stream)))
    end
  else next.

(** The cache file the reader loads, if any. *)
Definition find_metadata_cache (home : option string) (r : teca_cf_reader)
    (path : string) (files : list string)
    : W (option (string * list Byte.byte)) :=
  if (cache_metadata r =? 0)
  then w_ret None
  else probe_metadata_cache (metadata_cache_path home r path)
         (metadata_cache_key r path files) (n_metadata_cache_paths r).

(** The first file of a list of candidates that exists and reads. *)
Fixpoint first_readable (candidates : list string)
    : option (string * list Byte.byte) :=
  match candidates with
  | [] => None
  | f :: rest =>
      if file_exists f
      then match read_stream f with
           | Some stream => Some (f, stream)
           | None => first_readable rest
           end
      else first_readable rest
  end.

(** The lookup in the order the specification gives it,
    [HOME, cwd, data-root, user-dir]. *)
Definition spec_find_metadata_cache (home : option string)
    (r : teca_cf_reader) (path key : string)
    : option (string * list Byte.byte) :=
  first_readable
    (map (fun dir => metadata_cache_file dir key)
       [default "." home; "."; path; metadata_cache_dir r]).

End MetadataCache.

(** *** The time axis from files, in teca_cf_reader::get_output_metadata *)

(** A date as [calcalcs::date] returns it. *)
Record date_time := {
  YY : Z; MM : Z; DD : Z; hh : Z; mm : Z; ss : float
}.

(** What [read_variable_and_attributes] brought back for one file: the
    values of the time variable (a null array is [None]) and the
    [calendar] and [units] attributes of the variable in that file. *)
Record time_read := {
  tr_file : string;
  tr_values : option (list float);
  tr_calendar : option string;
  tr_units : option string
}.

(** The calendaring metadata of the base (the first file), after the
    run-time overrides. *)
Record time_base := {
  has_units : bool;
  has_calendar : bool;
  base_calendar : string;
  base_units : string
}.

(** The ways the time axis can fail, with the file (and value) at fault. *)
Inductive time_axis_error :=
| FailedToReadTimeAxis
| NoTimeValues (i : nat)
| CalendarMismatch (i : nat)
| UnitsRequired (i : nat)
| DateFailed (i j : nat)
| CoordinateFailed (i j : nat)
| WrongNumberOfValues.

Section TimeAxis.

(** calcalcs, outside the files at hand: [date] turns an offset in given
    units and calendar into a date, [coordinate] a date into an offset;
    [None] is a non-zero return. *)
Variable calcalcs_date : float -> string -> string -> option date_time.
Variable calcalcs_coordinate :
  date_time -> string -> string -> option float.

Definition time_origin : string := "teca_cf_reader::get_output_metadata".

(** [TECA_ERROR(...) return teca_metadata();] *)
Definition time_error {A} (e : time_axis_error) (msg : string)
    : W (time_axis_error + A) :=
  w_bind (TECA_ERROR time_origin msg) (fun _ => w_ret (inl e)).

Definition warn_when (b : bool) (msg : string) : W unit :=
  if b then TECA_WARNING time_origin msg else w_ret tt.

(** "validate the time axis calendaring metadata" up to "get the base
    calendar and units"; [time_atts] is the attribute metadata of the time
    variable, [None] when it is missing. *)
Definition time_axis_base (r : teca_cf_reader)
    (time_atts : option array_attributes) : W time_base :=
  w_bind (warn_when (negb (bool_decide (is_Some time_atts)))
            "Attribute metadata for time axis variable is missing")
  (fun _ =>
  let calendar0 := time_atts ≫= att_calendar in
  let units0 := time_atts ≫= att_units in
  (* override the calendar *)
  w_bind (warn_when (negb (empty_string (t_calendar r)))
            "Overriding the calendar with the runtime provided value")
  (fun _ =>
  let calendar1 :=
    if empty_string (t_calendar r) then calendar0
    else Some (t_calendar r) in
  (* override the units *)
  w_bind (warn_when (negb (empty_string (t_units r)))
            "Overriding the time units with the runtime provided value")
  (fun _ =>
  let units1 :=
    if empty_string (t_units r) then units0 else Some (t_units r) in
  (* check for units. units are necessary. *)
  let has_units := bool_decide (is_Some units1) in
  w_bind (warn_when (negb has_units)
            "The units attribute for the time axis variable is missing")
  (fun _ =>
  (* check for calendar. calendar, if missing will be set to "standard" *)
  let has_calendar := bool_decide (is_Some calendar1) in
  w_bind (warn_when (negb has_calendar)
            "The calendar attribute for the time axis variable is missing")
  (fun _ =>
  w_ret {| has_units := has_units;
           has_calendar := has_calendar;
           base_calendar := default "standard" calendar1;
           base_units := default "" units1 |}))))).

(** "it is an error for the files to have different calendars": the test
    of the reader. *)
Definition calendar_differs (base : time_base) (calendar_i : string)
    : bool :=
  (negb (has_calendar base) && negb (empty_string calendar_i))
  || (has_calendar base
      && negb (String.eqb calendar_i (base_calendar base))).

(** The conversion of the values of file [i], from index [j] on, to the
    base units. *)
Fixpoint convert_times (base : time_base) (units_i : string) (i j : nat)
    (p_ti : list float) : W (time_axis_error + list float) :=
  match p_ti with
  | [] => w_ret (inr [])
  | x :: rest =>
      (* convert offset from units_i to time *)
      match calcalcs_date x units_i (base_calendar base) with
      | None => time_error (DateFailed i j) "Failed to convert offset to time"
      | Some d =>
          (* convert time to offsets from base units *)
          match calcalcs_coordinate d (base_units base)
                  (base_calendar base) with
          | None =>
              time_error (CoordinateFailed i j)
                "Failed to convert time to offset"
          | Some offs =>
              w_bind (convert_times base units_i i (S j) rest)
                (fun r =>
                   match r with
                   | inl e => w_ret (inl e)
                   | inr rest' => w_ret (inr (offs :: rest'))
                   end)
          end
      end
  end.

(** One round of the loop over the files: the values file [i] adds to the
    time axis. *)
Definition file_times (base : time_base) (i : nat) (elem_i : time_read)
    : W (time_axis_error + list float) :=
  match tr_values elem_i with
  | None | Some [] =>
      time_error (NoTimeValues i)
        ("File " ++ tr_file elem_i ++ " had no time values")%string
  | Some tmp =>
      let calendar_i := default "" (tr_calendar elem_i) in
      if calendar_differs base calendar_i
      then time_error (CalendarMismatch i)
             ("The base calendar is " ++ base_calendar base
              ++ " but file " ++ tr_file elem_i ++ " has the "
              ++ calendar_i ++ " calendar")%string
      else
        let units_i := default "" (tr_units elem_i) in
        if String.eqb units_i (base_units base)
        then (* the files are in the same units copy the data *)
          w_ret (inr tmp)
        else if negb (has_units base)
        then time_error (UnitsRequired i)
               "Calendaring conversion requires time units"
        else
          w_bind (TECA_WARNING time_origin
                    ("File " ++ tr_file elem_i
                     ++ " units differs from base units"
                     ++ " a conversion will be made.")%string)
            (fun _ => convert_times base units_i i 0 tmp)
  end.

(** The loop: [step_count] and [t_axis] grow by each file in turn. *)
Fixpoint add_files (base : time_base) (i : nat) (elems : list time_read)
    (step_count : list Z) (t_axis : list float)
    : W (time_axis_error + (list Z * list float)) :=
  match elems with
  | [] => w_ret (inr (step_count, t_axis))
  | elem_i :: rest =>
      w_bind (file_times base i elem_i)
        (fun r =>
           match r with
           | inl e => w_ret (inl e)
           | inr values =>
               add_files base (S i) rest
                 (step_count ++ [Z.of_nat (length values)])
                 (t_axis ++ values)
           end)
  end.

(** The branch [!t_axis_variable.empty()] of [get_output_metadata]: the
    step counts and the time axis, or the error after which the reader
    returns empty metadata. *)
Definition time_axis_from_files (r : teca_cf_reader)
    (time_atts : option array_attributes) (elems : list time_read)
    : W (time_axis_error + (list Z * list float)) :=
  w_bind (time_axis_base r time_atts)
  (fun base =>
  match elems with
  | [] => time_error FailedToReadTimeAxis "Failed to read time axis"
  | elem_0 :: _ =>
      match tr_values elem_0 with
      | None => time_error FailedToReadTimeAxis "Failed to read time axis"
      | Some _ =>
          w_bind (add_files base 0 elems [] [])
            (fun res =>
               match res with
               | inl e => w_ret (inl e)
               | inr (step_count, t_axis) =>
                   (* override the time values read from disk with user
                      supplied set *)
                   match t_values r with
                   | [] => w_ret (inr (step_count, t_axis))
                   | _ :: _ =>
                       w_bind (TECA_WARNING time_origin
                                 "Overriding the time coordinates stored on disk with runtime provided values.")
                         (fun _ =>
                            if (length (t_values r) =? length t_axis)%nat
                            then w_ret (inr (step_count, t_values r))
                            else time_error WrongNumberOfValues
                                   "Number of timesteps detected doesn't match the number of time values provided")
                   end
               end)
      end
  end).

End TimeAxis.

(** *** The files of the data set, in teca_cf_reader::get_output_metadata *)

Section Files.

(** teca_file_util, outside the files at hand: the directory and the file
    part of a path, and the files of a directory that match a regular
    expression ([None] where [locate_files] returns non-zero). *)
Variable file_util_path : string -> string.
Variable file_util_filename : string -> string.
Variable file_util_locate_files : string -> string -> option (list string).

(** One round of the loop over [file_names]. *)
Definition use_file_name (acc : string * list string) (file_name : string)
    : string * list string :=
  (file_util_path file_name, snd acc ++ [file_util_filename file_name]).

(** [path] and [files] as the reader picks them: from [file_names] when
    there are any, from [files_regex] otherwise. *)
Definition select_files (r : teca_cf_reader) : M (string * list string) :=
  if negb (length (file_names r) =? 0)%nat
  then (* use file name *)
    ret (fold_left use_file_name (file_names r) (EmptyString, []))
  else
    (* use regex *)
    let regex := file_util_filename (files_regex r) in
    let path := file_util_path (files_regex r) in
    match file_util_locate_files path regex with
    | None => fail cache_origin "Failed to locate any files"
    | Some files => ret (path, files)
    end.

End Files.

(** *** Writing the metadata cache, in teca_cf_reader::get_output_metadata *)

Section CacheWrite.

Variable TECA_VERSION_DESCR : string.
Variable SHA1 : list Byte.byte -> list Byte.byte.
Variable pack_string : string -> list Byte.byte.
Variable pack_strings : list string -> list Byte.byte.
Variable pack_doubles : list float -> list Byte.byte.
Variable pack_int : Z -> list Byte.byte.

(** [teca_file_util::write_stream], outside the files at hand: whether the
    stream could be written to the file (it returns 0). *)
Variable write_stream : string -> list Byte.byte -> bool.

(** [for (int i = n_metadata_cache_paths; i >= 0; --i)] of "cache metadata
    on disk": the file written, if any; the first write that succeeds ends
    the loop. *)
Fixpoint write_metadata_cache (dirs : list string) (key : string)
    (stream : list Byte.byte) (i : nat) : W (option string) :=
  let metadata_cache_file := metadata_cache_file (nth i dirs "") key in
  if write_stream metadata_cache_file stream
  then w_bind (TECA_STATUS cache_origin "Wrote metadata cache")
         (fun _ => w_ret (Some metadata_cache_file))
  else
    match i with
    | O => w_ret None
    | S i' => write_metadata_cache dirs key stream i'
    end.

(** [if (this->cache_metadata) { ... }] after the metadata was generated:
    the cache file written, if any. *)
Definition cache_metadata_on_disk (home : option string)
    (r : teca_cf_reader) (path : string) (files : list string)
    (stream : list Byte.byte) : W (option string) :=
  if (cache_metadata r =? 0)
  then w_ret None
  else
    w_bind (write_metadata_cache (metadata_cache_path home r path)
              (metadata_cache_key TECA_VERSION_DESCR SHA1 pack_string
                 pack_strings pack_doubles pack_int r path files)
              stream (n_metadata_cache_paths r))
      (fun cached_metadata =>
         match cached_metadata with
         | Some f => w_ret (Some f)
         | None =>
             w_bind (TECA_ERROR cache_origin
                       "failed to create a metadata cache")
               (fun _ => w_ret None)
         end).

End CacheWrite.

(** *** The time axis of the reported metadata, whatever its source *)

(** [std::tm], by the fields the reader uses. *)
Record tm := {
  tm_year : Z; tm_mon : Z; tm_mday : Z; tm_hour : Z; tm_min : Z; tm_sec : Z
}.

(** The conversion of an [int] and of a [size_t] to [double]. *)
Definition double_of_size_t (n : Z) : float :=
  PrimFloat.of_uint63 (Uint63.of_Z n).

Definition double_of_int (z : Z) : float :=
  if z <? 0 then (- double_of_size_t (- z))%float else double_of_size_t z.

Section ReportTimeAxis.

Local Open Scope teca_scope.

(** Outside the files at hand: calcalcs; what
    [read_variable_and_attributes] reads of the time variable of a file
    (the values, the calendar and the units, from the data root, the file
    and the name of the variable); [std::get_time] on the name of a file
    with a template ([None] where the stream fails) and [strftime]
    ([None] where it returns 0). *)
Variable calcalcs_date : float -> string -> string -> option date_time.
Variable calcalcs_coordinate :
  date_time -> string -> string -> option float.
Variable read_variable_and_attributes :
  string -> string -> string
  -> option (list float) * option string * option string.
Variable get_time : string -> string -> option tm.
Variable strftime : string -> tm -> option string.

(** "if time axis is provided manually by the user" *)
Definition time_axis_from_values (r : teca_cf_reader) (files : list string)
    : M (list Z * list float) :=
  let* _ := lift (TECA_STATUS time_origin
                    "The t_axis_variable was unspecified, using the provided time values") in
  if empty_string (t_calendar r) || empty_string (t_units r)
  then fail time_origin
         "The calendar and units must to be specified when  providing time values"
  else
    let n_t_vals := length (t_values r) in
    if negb (n_t_vals =? length files)%nat
    then fail time_origin
           "Number of files choosen doesn't match the number of time values provided"
    else ret (replicate n_t_vals 1, t_values r).

(** "loop over all files and infer dates from names": the time units in
    force and the times of the files from the [i]th on. *)
Fixpoint infer_times (r : teca_cf_reader) (t_units t_calendar : string)
    (i : nat) (files : list string) : M (string * list float) :=
  match files with
  | [] => ret (t_units, [])
  | file :: rest =>
      (* attempt to convert the filename into a time *)
      match get_time file (filename_time_template r) with
      | None => fail time_origin "Failed to infer time from filename"
      | Some current_tm =>
          (* set the time units based on the first file date if we
             don't have time units *)
          let* t_units :=
            if (i =? 0)%nat && empty_string t_units
            then
              match strftime "days since %Y-%m-%d 00:00:00" current_tm with
              | None =>
                  fail time_origin "failed to convert the time as a string"
              | Some tmp => ret tmp
              end
            else ret t_units in
          (* convert the time to a double using calcalcs *)
          match calcalcs_coordinate
                  {| YY := tm_year current_tm + 1900;
                     MM := tm_mon current_tm + 1;
                     DD := tm_mday current_tm;
                     hh := tm_hour current_tm;
                     mm := tm_min current_tm;
                     ss := double_of_int (tm_sec current_tm) |}
                  t_units t_calendar with
          | None =>
              fail time_origin
                "conversion of date inferred from filename failed"
          | Some current_time =>
              let* more := infer_times r t_units t_calendar (S i) rest in
              ret (fst more, current_time :: snd more)
          end
      end
  end.

(** "infer the time from the filenames" *)
Definition time_axis_from_filenames (r : teca_cf_reader)
    (files : list string) : M (list Z * list float) :=
  let t_calendar :=
    if empty_string (t_calendar r) then "standard" else t_calendar r in
  let* inferred := infer_times r (t_units r) t_calendar 0 files in
  let t_values := snd inferred in
  let* _ := lift (TECA_STATUS time_origin
                    "The time axis will be infered from file names using the user provided template") in
  ret (replicate (length t_values) 1, t_values).

(** "make a dummy time axis": one step per file, numbered from 0. *)
Definition dummy_time_axis (files : list string) : M (list Z * list float) :=
  let n_files := length files in
  let t := map (fun i => double_of_size_t (Z.of_nat i)) (seq 0 n_files) in
  let* _ := lift (TECA_STATUS time_origin
                    "The time axis will be generated, with 1 step per file") in
  ret (replicate n_files 1, t).

(** The four ways to a time axis: [step_count], the time values and the
    name the axis is reported under ([t_axis_var]); [None] where the
    reader returns empty metadata. *)
Definition report_time_axis (r : teca_cf_reader)
    (time_atts : option array_attributes) (path : string)
    (files : list string) : M (list Z * list float * string) :=
  if negb (empty_string (t_axis_variable r))
  then
    let elems :=
      map (fun file =>
             let '(values, calendar, units) :=
               read_variable_and_attributes path file (t_axis_variable r) in
             {| tr_file := file; tr_values := values;
                tr_calendar := calendar; tr_units := units |}) files in
    match time_axis_from_files calcalcs_date calcalcs_coordinate r
            time_atts elems with
    | (inl _, log) => (None, log)
    | (inr (step_count, t_axis), log) =>
        (Some (step_count, t_axis, t_axis_variable r), log)
    end
  else if negb (length (t_values r) =? 0)%nat
  then
    let* st := time_axis_from_values r files in
    ret (fst st, snd st, "time")
  else if negb (empty_string (filename_time_template r))
  then
    (* infer the time from the filenames *)
    let* st := time_axis_from_filenames r files in
    ret (fst st, snd st, "time")
  else
    let* st := dummy_time_axis files in
    ret (fst st, snd st, "time").

End ReportTimeAxis.

End CfReader.

Module Vorticity.

(** *** The properties and the request translation of teca_vorticity *)

Record teca_vorticity := {
  component_0_variable : string;
  component_1_variable : string;
  vorticity_variable : string
}.

Definition origin : string := "teca_vorticity".

Definition get_component_0_variable (self : teca_vorticity)
    (request : teca_metadata) : string :=
  let comp_0_var := component_0_variable self in
  if empty_string comp_0_var
     && md_has request "teca_vorticity::component_0_variable"
  then default comp_0_var
         (md_get_string request "teca_vorticity::component_0_variable")
  else comp_0_var.

Definition get_component_1_variable (self : teca_vorticity)
    (request : teca_metadata) : string :=
  let comp_1_var := component_1_variable self in
  if empty_string comp_1_var
     && md_has request "teca_vorticity::component_1_variable"
  then default comp_1_var
         (md_get_string request "teca_vorticity::component_1_variable")
  else comp_1_var.

Definition get_vorticity_variable (self : teca_vorticity)
    (request : teca_metadata) : string :=
  let vort_var := vorticity_variable self in
  if empty_string vort_var
  then
    if md_has request "teca_vorticity::vorticity_variable"
    then default vort_var
           (md_get_string request "teca_vorticity::vorticity_variable")
    else "vorticity"
  else vort_var.

(** [req.get("arrays", arrays)] into a [std::set<std::string>]. *)
Definition request_arrays (req : teca_metadata) : gset string :=
  if md_has req "arrays"
  then list_to_set (default [] (md_get_strings req "arrays"))
  else ∅.

(** [req.insert("arrays", arrays)]: the set written back as an array,
    replacing what the key held, as teca_cartesian_mesh_subset relies on
    when it inserts [whole_extent] into a copy of its input metadata.
    ([std::set] iterates in lexicographic order, [elements] in an order
    of its own: only the membership of the array is meant.) *)
Definition insert_arrays (req : teca_metadata) (arrays : gset string)
    : teca_metadata :=
  <["arrays" := StringArray (elements arrays)]> req.

(** teca_vorticity::get_upstream_request: the requests sent upstream, none
    after an error. *)
Definition get_upstream_request (self : teca_vorticity)
    (request : teca_metadata) : W (list teca_metadata) :=
  (* get the name of the arrays we need to request *)
  let comp_0_var := get_component_0_variable self request in
  if empty_string comp_0_var
  then w_bind (TECA_ERROR origin "component 0 array was not specified")
         (fun _ => w_ret [])
  else
    let comp_1_var := get_component_1_variable self request in
    if empty_string comp_1_var
    then w_bind (TECA_ERROR origin "component 0 array was not specified")
           (fun _ => w_ret [])
    else
      (* copy the incoming request to preserve the downstream
         requirements and add the arrays we need *)
      let req := request in
      let arrays := request_arrays req in
      let arrays := arrays ∪ {[ component_0_variable self ]} in
      let arrays := arrays ∪ {[ component_1_variable self ]} in
      (* capture the array we produce *)
      let arrays := arrays ∖ {[ get_vorticity_variable self request ]} in
      (* update the request, send it up *)
      w_ret [insert_arrays req arrays].

(** *** The kernel *)

Section Kernel.

Local Open Scope float_scope.

(** [cos] of the C library. *)
Variable cos : float -> float.

(** [M_PI], 3.14159265358979323846 as a double. *)
Definition M_PI : float := 0x1.921fb54442d18p+1.

Definition deg_to_rad : float := M_PI / 180.
Definition earth_radius : float := 6371.0e3.

(** [a[i]] through a pointer into an array; the default stands for a read
    past the end, which the kernel does on [lat] when [nx > ny]. *)
Definition rd (a : list float) (i : nat) : float := nth i a 0.

(** "compute dx from degrees longitude" *)
Definition dlon (lon : list float) : float :=
  (rd lon 1 - rd lon 0) * deg_to_rad.

Definition compute_dx (lat lon : list float) (nx : nat) : list float :=
  map (fun i => earth_radius * cos (rd lat i * deg_to_rad) * dlon lon)
    (seq 0 nx).

(** "compute dy from degrees latitude": the interior entries, then the two
    ends copied from their neighbours.  The entries [malloc] leaves
    undefined start as 0. *)
Definition compute_dy (lat : list float) (ny : nat) : list float :=
  let max_j := (ny - 1)%nat in
  let dy :=
    fold_left
      (fun dy i =>
         <[i := 0.5 * earth_radius * deg_to_rad
                * (rd lat (i - 1) - rd lat (i + 1))]> dy)
      (seq 1 (max_j - 1)) (replicate ny 0) in
  let dy := <[0%nat := rd dy 1]> dy in
  <[max_j := rd dy (max_j - 1)]> dy.

(** The value the inner loop stores at [w[jj+i]]. *)
Definition vorticity_at (dx dy comp_0 comp_1 : list float) (nx j i : nat)
    : float :=
  let jj := (j * nx)%nat in
  let jj0 := (jj - nx)%nat in
  let jj1 := (jj + nx)%nat in
  0.5 * ((rd comp_1 (jj + i + 1) - rd comp_1 (jj + i - 1)) / rd dx i
         - (rd comp_0 (jj0 + i) - rd comp_0 (jj1 + i)) / rd dy j).

(** "compute vorticity": [w] after the [memset] and the two loops, with
    [num_t] and [pt_t] both double.  The sizes are naturals: the source's
    unsigned [ny - 1] and [nx - 1] wrap around on an empty axis, which the
    statements below leave out by asking for two points on each. *)
Definition vorticity (lat lon comp_0 comp_1 : list float) (nx ny : nat)
    : list float :=
  let dx := compute_dx lat lon nx in
  let dy := compute_dy lat ny in
  let max_j := (ny - 1)%nat in
  let max_i := (nx - 1)%nat in
  fold_left
    (fun w j =>
       fold_left
         (fun w i =>
            <[(j * nx + i)%nat :=
                vorticity_at dx dy comp_0 comp_1 nx j i]> w)
         (seq 1 (max_i - 1)) w)
    (seq 1 (max_j - 1)) (replicate (nx * ny) 0).

(** teca_vorticity::execute hands the kernel the coordinate and wind
    arrays of the mesh, with [nx] the number of longitudes and [ny] the
    number of latitudes: [::vorticity(p_vort, p_lat, p_lon, p_comp_0,
    p_comp_1, lon->size(), lat->size())]. *)
Definition execute_kernel (lon lat comp_0 comp_1 : list float)
    : list float :=
  vorticity lat lon comp_0 comp_1 (length lon) (length lat).

(** *** teca_vorticity::execute *)

(** The part of a cartesian mesh the stage touches; its arrays are arrays
    of doubles, and a coordinate array that is not set is [None]. *)
Record mesh := {
  x_coordinates : option (list float);
  y_coordinates : option (list float);
  point_arrays : list (string * list float)
}.

(** [collection->get(name)], null when there is no such array. *)
Fixpoint get_array (arrays : list (string * list float)) (name : string)
    : option (list float) :=
  match arrays with
  | [] => None
  | (n, a) :: rest => if String.eqb n name then Some a else get_array rest name
  end.

(** teca_vorticity::execute; [None] for the input is a dataset that is
    not a cartesian mesh.  The output array is resized to the size of
    component 0 (new elements of a [std::vector] are zero) and the kernel
    fills its first [nx * ny] elements; where component 0 is shorter than
    that the source writes past the array, which [resize] cuts off here. *)
Definition execute (self : teca_vorticity) (in_mesh : option mesh)
    (request : teca_metadata) : M mesh :=
  (* get the input mesh *)
  match in_mesh with
  | None => fail origin "teca_cartesian_mesh is required"
  | Some in_mesh =>
  (* get component 0 array *)
  let comp_0_var := get_component_0_variable self request in
  if empty_string comp_0_var
  then fail origin "component_0_variable was not specified"
  else
  match get_array (point_arrays in_mesh) comp_0_var with
  | None =>
      fail origin ("requested array " ++ comp_0_var ++ " not present.")%string
  | Some comp_0 =>
  (* get component 1 array *)
  let comp_1_var := get_component_1_variable self request in
  if empty_string comp_1_var
  then fail origin "component_1_variable was not specified"
  else
  match get_array (point_arrays in_mesh) comp_1_var with
  | None =>
      fail origin ("requested array " ++ comp_1_var ++ " not present.")%string
  | Some comp_1 =>
  (* get the input coordinate arrays *)
  match x_coordinates in_mesh, y_coordinates in_mesh with
  | Some lon, Some lat =>
      (* allocate the output array, compute vorticity *)
      let vort :=
        resize (length comp_0) 0
          (execute_kernel lon lat comp_0 comp_1) in
      (* create the output mesh, pass everything through, and
         add the vorticity array *)
      ret {| x_coordinates := x_coordinates in_mesh;
             y_coordinates := y_coordinates in_mesh;
             point_arrays :=
               point_arrays in_mesh
               ++ [(get_vorticity_variable self request, vort)] |}
  | _, _ => fail origin "lat lon mesh cooridinates not present."
  end
  end
  end
  end.

End Kernel.

End Vorticity.

Module VerticalIntegral.

Local Open Scope float_scope.

(** [neg_one_over_g<num_t>()], [-1.0/9.81]; 9.81 as a double. *)
Definition neg_one_over_g : float := (-1) / 0x1.39eb851eb851fp+3.

(** [a[i]] through a pointer into an array. *)
Definition rd (a : list float) (i : nat) : float := nth i a 0.

(** The pressure differential of level [k] over the column [n2d]. *)
Definition pressure_differential (csystem : Z)
    (a_or_sigma b ps : list float) (p_top : float) (n2d k : nat) : float :=
  if (csystem =? 1)%Z
  then
    (* calculate da and db *)
    let da := rd a_or_sigma (k + 1) - rd a_or_sigma k in
    let db := rd b (k + 1) - rd b k in
    (* calculate dp *)
    p_top * da + rd ps n2d * db
  else
    let dsigma := rd a_or_sigma (k + 1) - rd a_or_sigma k in
    (rd ps n2d - p_top) * dsigma.

(** "loop over the vertical dimension": [tmp_int] after the loop. *)
Definition column_integral (array : list float) (ny nz : nat)
    (csystem : Z) (a_or_sigma b ps : list float) (p_top : float)
    (i j : nat) : float :=
  let n2d := (j + ny * i)%nat in
  fold_left
    (fun tmp_int k =>
       let n3d := (k + nz * (j + ny * i))%nat in
       let dp := pressure_differential csystem a_or_sigma b ps p_top
                   n2d k in
       (* accumulate the integral *)
       tmp_int + neg_one_over_g * rd array n3d * dp)
    (seq 0 nz) 0.

(** [vertical_integral]: [array_int] after the loops over both horizontal
    dimensions, from the [nx * ny] zeros of the resized output array. *)
Definition vertical_integral (array : list float) (nx ny nz : nat)
    (csystem : Z) (a_or_sigma b ps : list float) (p_top : float)
    : list float :=
  fold_left
    (fun array_int i =>
       fold_left
         (fun array_int j =>
            <[(j + ny * i)%nat :=
                column_integral array ny nz csystem a_or_sigma b ps p_top
                  i j]> array_int)
         (seq 0 ny) array_int)
    (seq 0 nx) (replicate (nx * ny) 0).

(** *** The stage *)

Record teca_vertical_integral := {
  long_name : string;
  units : string;
  hybrid_a_variable : string;
  hybrid_b_variable : string;
  sigma_variable : string;
  surface_p_variable : string;
  p_top_variable : string;
  using_hybrid : Z;
  p_top_override_value : float;
  integration_variable : string;
  output_variable_name : string
}.

(** The part of a cartesian mesh the stage touches; its arrays are arrays
    of doubles. *)
Record mesh := {
  extent : list Z;
  whole_extent : list Z;
  bounds : list float;
  z_coordinates : list float;
  point_arrays : list (string * list float);
  information_arrays : list (string * list float)
}.

(** [collection->get(name)], null when there is no such array. *)
Fixpoint get_array (arrays : list (string * list float)) (name : string)
    : option (list float) :=
  match arrays with
  | [] => None
  | (n, a) :: rest => if String.eqb n name then Some a else get_array rest name
  end.

Definition origin : string := "teca_vertical_integral".

Definition get_mesh_variable (mesh_var expected_var : string)
    (in_mesh : mesh) : M (list float) :=
  (* check that both variables are specified *)
  if empty_string mesh_var
  then fail origin (expected_var ++ " not specified")%string
  else
    (* get the variable *)
    match get_array (point_arrays in_mesh) mesh_var with
    | None =>
        fail origin ("variable " ++ mesh_var ++ " is not in the input")%string
    | Some out_array => ret out_array
    end.

Definition get_info_variable (info_var expected_var : string)
    (in_info : mesh) : M (list float) :=
  if empty_string info_var
  then fail origin (expected_var ++ " not specified")%string
  else
    match get_array (information_arrays in_info) info_var with
    | None =>
        fail origin ("variable " ++ info_var ++ " is not in the input")%string
    | Some out_array => ret out_array
    end.

(** The extent with its two z entries set to zero, and likewise for the
    bounds. *)
Definition flatten_z {A} (zero : A) (v : list A) : list A :=
  <[5%nat := zero]> (<[4%nat := zero]> v).

Local Open Scope teca_scope.

(** teca_vertical_integral::execute on a cartesian mesh.  With sigma
    coordinates the source leaves [b_i] null and still takes its data
    pointer for the kernel, which never reads it when [csystem] is not 1;
    the empty array stands for that pointer.  The line the source prints
    to stderr with the name of the output variable is no error record and
    is left out. *)
Definition execute (self : teca_vertical_integral) (in_mesh : mesh)
    : M mesh :=
  (* set the dimension sizes *)
  let nx := ulong (at_ulong (extent in_mesh) 1
                   - at_ulong (extent in_mesh) 0 + 1) in
  let ny := ulong (at_ulong (extent in_mesh) 3
                   - at_ulong (extent in_mesh) 2 + 1) in
  let nz := ulong (at_ulong (extent in_mesh) 5
                   - at_ulong (extent in_mesh) 4 + 1) in
  let* ab :=
    if negb (using_hybrid self =? 0)%Z
    then
      (* get the a coordinate, get the b coordinate *)
      let* a := get_info_variable (hybrid_a_variable self)
                  "hybrid_a_variable" in_mesh in
      let* b := get_info_variable (hybrid_b_variable self)
                  "hybrid_b_variable" in_mesh in
      ret (a, b)
    else
      (* get the sigma coordinate *)
      let* sigma := get_info_variable (sigma_variable self)
                      "sigma_variable" in_mesh in
      ret (sigma, [])
  in
  (* get the surface pressure *)
  let* p_s := get_info_variable (surface_p_variable self)
                "surface_p_variable" in_mesh in
  let* p_top_array :=
    if (p_top_override_value self =? 0)%float
    then (* get the model top pressure *)
      get_mesh_variable (p_top_variable self) "p_top_variable" in_mesh
    else ret [p_top_override_value self]
  in
  (* get the input array *)
  let* input_array := get_mesh_variable (integration_variable self)
                        "integration_variable" in_mesh in
  (* call the vertical integration routine *)
  let integrated_array :=
    vertical_integral input_array (Z.to_nat nx) (Z.to_nat ny) (Z.to_nat nz)
      (using_hybrid self) (fst ab) (snd ab) p_s (rd p_top_array 0) in
  (* create the output mesh, set mesh dimensions; use a scalar Z
     dimension, add the output variable to the mesh *)
  ret {| extent := flatten_z 0%Z (extent in_mesh);
         whole_extent := flatten_z 0%Z (whole_extent in_mesh);
         bounds := flatten_z 0%float (bounds in_mesh);
         z_coordinates := [0%float];
         point_arrays :=
           point_arrays in_mesh
           ++ [(output_variable_name self, integrated_array)];
         information_arrays := information_arrays in_mesh |}.

(** *** The request sent upstream *)

(** [request_var]: the name added to the arrays to request, or the error
    for a name that is not set. *)
Definition request_var (mesh_var expected_var : string)
    (arrays : gset string) : M (gset string) :=
  (* check that both variables are specified *)
  if empty_string mesh_var
  then fail origin (expected_var ++ " not specified")%string
  else (* insert the request into the list *)
    ret (arrays ∪ {[ mesh_var ]}).

(** "create a list of requested arrays": the arrays the stage needs added
    to those of the incoming request, without the array it produces. *)
Definition requested_arrays (self : teca_vertical_integral)
    (req : teca_metadata) : M (gset string) :=
  (* pre-populate with existing requests, if available *)
  let arrays : gset string :=
    if md_has req "arrays"
    then list_to_set (default [] (md_get_strings req "arrays"))
    else ∅ in
  let* arrays :=
    if negb (using_hybrid self =? 0)%Z
    then
      (* get the a coordinate, get the b coordinate *)
      let* arrays := request_var (hybrid_a_variable self)
                       "hybrid_a_variable" arrays in
      request_var (hybrid_b_variable self) "hybrid_b_variable" arrays
    else
      (* get the sigma coordinate *)
      request_var (sigma_variable self) "sigma_variable" arrays
  in
  (* get the surface pressure *)
  let* arrays := request_var (surface_p_variable self)
                   "surface_p_variable" arrays in
  (* only request p_top if it isn't being overriden *)
  let* arrays :=
    if (p_top_override_value self =? 0)%float
    then request_var (p_top_variable self) "p_top_variable" arrays
    else ret arrays
  in
  (* get the input array *)
  let* arrays := request_var (integration_variable self)
                   "integration_variable" arrays in
  (* intercept request for our output *)
  ret (arrays ∖ {[ output_variable_name self ]}).

(** teca_vertical_integral::get_upstream_request: the requests sent
    upstream, none after an error.  ([std::set] iterates in lexicographic
    order, [elements] in an order of its own: only the membership of the
    array is meant.) *)
Definition get_upstream_request (self : teca_vertical_integral)
    (request : teca_metadata) : W (list teca_metadata) :=
  (* copy the incoming request *)
  let req := request in
  match requested_arrays self req with
  | (None, log) => ([], log)
  | (Some arrays, log) =>
      let req := delete "bounds" req in
      let req := delete "extent" req in
      let req := delete "whole_extent" req in
      (* overwrite the existing request with the augmented one *)
      let req := <["arrays" := StringArray (elements arrays)]> req in
      (* put the request into the outgoing metadata *)
      ([req], log)
  end.

End VerticalIntegral.

Module DatasetDiff.

(** *** The data teca_dataset_diff compares *)

(** An array as [compare_arrays] sees it: a numeric array is its element
    type code and its values cast to [double], an array of strings its
    strings; any other array has a type the dispatch has no case for. *)
Inductive diff_array :=
| Numbers (type_code : Z) (values : list float)
| Strings (values : list string)
| Opaque (size : nat).

Definition array_size (a : diff_array) : nat :=
  match a with
  | Numbers _ v => length v
  | Strings v => length v
  | Opaque n => n
  end.

(** An array collection, and a table as the collection of its columns. *)
Definition array_collection := list (string * diff_array).

Definition collection_has (c : array_collection) (name : string) : bool :=
  existsb (fun na => String.eqb (fst na) name) c.

Fixpoint collection_get (c : array_collection) (name : string)
    : option diff_array :=
  match c with
  | [] => None
  | (n, a) :: rest => if String.eqb n name then Some a
                      else collection_get rest name
  end.

Record teca_table := {
  columns : array_collection
}.

Definition get_number_of_columns (t : teca_table) : nat :=
  length (columns t).

Definition get_number_of_rows (t : teca_table) : nat :=
  match columns t with
  | [] => 0
  | (_, a) :: _ => array_size a
  end.

Record teca_mesh := {
  point_arrays : array_collection;
  cell_arrays : array_collection;
  x_edge_arrays : array_collection;
  y_edge_arrays : array_collection;
  z_edge_arrays : array_collection;
  x_face_arrays : array_collection;
  y_face_arrays : array_collection;
  z_face_arrays : array_collection;
  information_arrays : array_collection
}.

Record teca_cartesian_mesh := {
  cartesian_mesh : teca_mesh;
  x_coordinates : diff_array;
  y_coordinates : diff_array;
  z_coordinates : diff_array
}.

Record teca_curvilinear_mesh := {
  curvilinear_mesh : teca_mesh;
  cx_coordinates : diff_array;
  cy_coordinates : diff_array;
  cz_coordinates : diff_array
}.

Record teca_arakawa_c_grid := {
  arakawa_mesh : teca_mesh;
  m_x_coordinates : diff_array;
  m_y_coordinates : diff_array;
  u_x_coordinates : diff_array;
  u_y_coordinates : diff_array;
  v_x_coordinates : diff_array;
  v_y_coordinates : diff_array;
  m_z_coordinates : diff_array;
  w_z_coordinates : diff_array
}.

Inductive teca_dataset :=
| Table (t : teca_table)
| CartesianMesh (m : teca_cartesian_mesh)
| CurvilinearMesh (m : teca_curvilinear_mesh)
| ArakawaCGrid (m : teca_arakawa_c_grid)
| OtherDataset (class_name : string).

(** What a call does: it returns, or it dereferences a null pointer. *)
Inductive behaviour (A : Type) :=
| Returns (a : A)
| Undefined.
Arguments Returns {A} a.
Arguments Undefined {A}.

Section Diff.

Local Open Scope float_scope.

(** The properties of the stage, the rank of the process, and
    [teca_dataset::empty], which is declared outside the file. *)
Variable tolerance : float.
Variable verbose : Z.
Variable rank : Z.
Variable dataset_empty : teca_dataset -> bool.

Definition origin : string := "teca_dataset_diff".

(** [if (this->verbose && (rank == 0)) TEST_STATUS(msg)] *)
Definition status (enabled : bool) (msg : string) : W unit :=
  if negb (verbose =? 0)%Z && (rank =? 0)%Z && enabled
  then TECA_STATUS origin msg
  else w_ret tt.

(** [if (call) { TECA_ERROR(msg) return -1; }] followed by the rest. *)
Definition check (call : W Z) (msg : string) (rest : W Z) : W Z :=
  w_bind call
    (fun r => if negb (r =? 0)%Z
              then w_bind (TECA_ERROR origin msg) (fun _ => w_ret (-1)%Z)
              else rest).

(** The relative difference of a computed value to the reference. *)
Definition rel_diff (ref_val comp_val : float) : float :=
  if negb (ref_val =? 0)
  then abs (comp_val - ref_val) / abs ref_val
  else if negb (comp_val =? 0)
  then abs (comp_val - ref_val) / abs comp_val
  else 0.

Fixpoint compare_numbers (pa1 pa2 : list float) : W Z :=
  match pa1, pa2 with
  | ref_val :: pa1', comp_val :: pa2' =>
      if tolerance <? rel_diff ref_val comp_val
      then w_bind (TECA_ERROR origin "relative difference exceeds tolerance")
             (fun _ => w_ret (-1)%Z)
      else compare_numbers pa1' pa2'
  | _, _ => (* we are here, arrays are the same *) w_ret 0%Z
  end.

Fixpoint compare_strings (a1 a2 : list string) : W Z :=
  match a1, a2 with
  | v1 :: a1', v2 :: a2' =>
      if negb (String.eqb v1 v2)
      then w_bind (TECA_ERROR origin "string element not equal")
             (fun _ => w_ret (-1)%Z)
      else compare_strings a1' a2'
  | _, _ => w_ret 0%Z
  end.

Definition not_implemented : W Z :=
  w_bind (TECA_ERROR origin
            "diff for the element type of array1 is not implemented.")
    (fun _ => w_ret (-1)%Z).

Definition compare_arrays (array1 array2 : diff_array) : W Z :=
  (* Arrays of different sizes are different. *)
  if negb (array_size array1 =? array_size array2)%nat
  then w_bind (TECA_ERROR origin "arrays have different sizes")
         (fun _ => w_ret (-1)%Z)
  else
    match array1 with
    | Numbers t1 pa1 =>
        (* we know the type of array 1 now, check the type of array 2 *)
        match array2 with
        | Numbers t2 pa2 =>
            if (t1 =? t2)%Z then compare_numbers pa1 pa2
            else w_bind (TECA_ERROR origin
                           "arrays have different element types.")
                   (fun _ => w_ret (-1)%Z)
        | _ => w_bind (TECA_ERROR origin
                         "arrays have different element types.")
                 (fun _ => w_ret (-1)%Z)
        end
    | Strings a1 =>
        match array2 with
        | Strings a2 => compare_strings a1 a2
        | _ => not_implemented
        end
    | Opaque _ => not_implemented
    end.

(** The columns of both tables, one by one. *)
Fixpoint compare_columns (col : nat) (cols1 cols2 : array_collection)
    : W Z :=
  match cols1, cols2 with
  | (col_name, col1) :: cols1', (_, col2) :: cols2' =>
      w_bind (status true ("  comparing collumn " ++ col_name)%string)
        (fun _ =>
           check (compare_arrays col1 col2) "difference in column"
             (compare_columns (S col) cols1' cols2'))
  | _, _ => w_ret 0%Z
  end.

Definition compare_tables (table1 table2 : teca_table) : W Z :=
  w_bind (status true "comparing tables")
    (fun _ =>
       (* If the tables are different sizes, the datasets differ. *)
       if negb (get_number_of_columns table1
                =? get_number_of_columns table2)%nat
       then w_bind (TECA_ERROR origin
                      "The baseline and test table differ in their columns")
              (fun _ => w_ret (-1)%Z)
       else if negb (get_number_of_rows table1
                     =? get_number_of_rows table2)%nat
       then w_bind (TECA_ERROR origin
                      "The baseline and test table differ in their rows")
              (fun _ => w_ret (-1)%Z)
       else compare_columns 0 (columns table1) (columns table2)).

(** "The data arrays should contain all the data in the reference
    arrays." *)
Fixpoint has_all (reference_arrays data_arrays : array_collection) : W Z :=
  match reference_arrays with
  | [] => w_ret 0%Z
  | (name, _) :: rest =>
      if negb (collection_has data_arrays name)
      then w_bind (TECA_ERROR origin
                     ("data array collection does not have array " ++ name))
             (fun _ => w_ret (-1)%Z)
      else has_all rest data_arrays
  end.

(** "Now diff the contents."  An array the data collection has under the
    name is compared; the first loop has made sure there is one. *)
Fixpoint diff_contents (reference_arrays data_arrays : array_collection)
    : W Z :=
  match reference_arrays with
  | [] => w_ret 0%Z
  | (name, a1) :: rest =>
      match collection_get data_arrays name with
      | None => diff_contents rest data_arrays
      | Some a2 =>
          w_bind (status true ("    comparing array " ++ name)%string)
            (fun _ =>
               check (compare_arrays a1 a2) "difference in array"
                 (diff_contents rest data_arrays))
      end
  end.

Definition compare_array_collections
    (reference_arrays data_arrays : array_collection) : W Z :=
  w_bind (has_all reference_arrays data_arrays)
    (fun r => if negb (r =? 0)%Z then w_ret r
              else diff_contents reference_arrays data_arrays).

Definition non_empty (c : array_collection) : bool :=
  negb (length c =? 0)%nat.

Definition compare_meshes (reference_mesh data_mesh : teca_mesh) : W Z :=
  let part (get : teca_mesh -> array_collection) (what msg : string)
        (rest : W Z) : W Z :=
    w_bind (status (non_empty (get reference_mesh)) what)
      (fun _ =>
         check (compare_array_collections (get reference_mesh)
                  (get data_mesh)) msg rest) in
  part point_arrays "  comparing point arrays" "difference in point arrays"
  (part cell_arrays "  comparing cell arrays" "difference in cell arrays"
  (part x_edge_arrays "  comparing x-dege arrays"
     "difference in x-edge arrays"
  (part y_edge_arrays "  comparing y-edge arrays"
     "difference in y-edge arrays"
  (part z_edge_arrays "  comparing z-edge arrays"
     "difference in z-edge arrays"
  (part x_face_arrays "  comparing x-face arrays"
     "difference in x-face arrays"
  (part y_face_arrays "  comparing y-face arrays"
     "difference in y-face arrays"
  (part z_face_arrays "  comparing z-face arrays"
     "difference in z-face arrays"
  (part information_arrays "  comparing information arrays"
     "difference in information arrays"
  (w_ret 0%Z))))))))).

(** One coordinate array of the two meshes. *)
Definition compare_coordinates (enabled : bool) (what msg : string)
    (coord1 coord2 : diff_array) (rest : W Z) : W Z :=
  w_bind (status enabled what)
    (fun _ => check (compare_arrays coord1 coord2) msg rest).

Definition compare_cartesian_meshes
    (reference_mesh data_mesh : teca_cartesian_mesh) : W Z :=
  w_bind (status true "comparing cartesian meshes")
    (fun _ =>
  check (compare_meshes (cartesian_mesh reference_mesh)
           (cartesian_mesh data_mesh)) "Difference in mesh"
  (compare_coordinates
     (negb (array_size (x_coordinates reference_mesh) =? 0)%nat)
     "comparing x-coordinates" "difference in x coordinates"
     (x_coordinates reference_mesh) (x_coordinates data_mesh)
  (compare_coordinates
     (negb (array_size (y_coordinates reference_mesh) =? 0)%nat)
     "comparing y-coordinates" "difference in y coordinates"
     (y_coordinates reference_mesh) (y_coordinates data_mesh)
  (compare_coordinates
     (negb (array_size (z_coordinates reference_mesh) =? 0)%nat)
     "comparing z-coordinates" "difference in z coordinates"
     (z_coordinates reference_mesh) (z_coordinates data_mesh)
  (w_ret 0%Z))))).

Definition compare_curvilinear_meshes
    (reference_mesh data_mesh : teca_curvilinear_mesh) : W Z :=
  w_bind (status true "comparing curvilinear meshes")
    (fun _ =>
  check (compare_meshes (curvilinear_mesh reference_mesh)
           (curvilinear_mesh data_mesh)) "Difference in mesh"
  (compare_coordinates true
     "comparing x-coordinates" "difference in x coordinates"
     (cx_coordinates reference_mesh) (cx_coordinates data_mesh)
  (compare_coordinates true
     "comparing y-coordinates" "difference in y coordinates"
     (cy_coordinates reference_mesh) (cy_coordinates data_mesh)
  (compare_coordinates true
     "comparing z-coordinates" "difference in z coordinates"
     (cz_coordinates reference_mesh) (cz_coordinates data_mesh)
  (w_ret 0%Z))))).

Definition compare_arakawa_c_grids
    (reference_mesh data_mesh : teca_arakawa_c_grid) : W Z :=
  w_bind (status true "comparing arakawa c grids")
    (fun _ =>
  check (compare_meshes (arakawa_mesh reference_mesh)
           (arakawa_mesh data_mesh)) "Difference in mesh"
  (compare_coordinates true
     "comparing m x-coordinates" "difference in m_x coordinates"
     (m_x_coordinates reference_mesh) (m_x_coordinates data_mesh)
  (compare_coordinates true
     "comparing m y-coordinates" "difference in m_y coordinates"
     (m_y_coordinates reference_mesh) (m_y_coordinates data_mesh)
  (compare_coordinates true
     "comparing u x-coordinates" "difference in u_x coordinates"
     (u_x_coordinates reference_mesh) (u_x_coordinates data_mesh)
  (compare_coordinates true
     "comparing u x-coordinates" "difference in u_y coordinates"
     (u_y_coordinates reference_mesh) (u_y_coordinates data_mesh)
  (compare_coordinates true
     "comparing v x-coordinates" "difference in v_x coordinates"
     (v_x_coordinates reference_mesh) (v_x_coordinates data_mesh)
  (compare_coordinates true
     "comparing v y-coordinates" "difference in v_y coordinates"
     (v_y_coordinates reference_mesh) (v_y_coordinates data_mesh)
  (compare_coordinates true
     "comparing m z-coordinates" "difference in m_z coordinates"
     (m_z_coordinates reference_mesh) (m_z_coordinates data_mesh)
  (compare_coordinates true
     "comparing w z-coordinates" "difference in w_z coordinates"
     (w_z_coordinates reference_mesh) (w_z_coordinates data_mesh)
  (w_ret 0%Z)))))))))).

(** [if (this->compare_...(ds0, ds1)) { TECA_ERROR(msg) return nullptr; }]
    and the [return nullptr] at the end of [execute]. *)
Definition compared (call : W Z) (msg : string)
    : W (option teca_dataset) :=
  w_bind call
    (fun r => if negb (r =? 0)%Z
              then w_bind (TECA_ERROR origin msg) (fun _ => w_ret None)
              else w_ret None).

(** teca_dataset_diff::execute.  The second input is cast to the type of
    the first; where it is of another type the cast is null and the
    comparison dereferences it. *)
Definition execute (ds0 ds1 : option teca_dataset)
    : behaviour (W (option teca_dataset)) :=
  match ds0, ds1 with
  | None, None => Returns (w_ret None)
  | None, Some _ =>
      Returns (w_bind (TECA_ERROR origin "Input dataset 1 is NULL.")
                 (fun _ => w_ret None))
  | Some _, None =>
      Returns (w_bind (TECA_ERROR origin "Input dataset 2 is NULL.")
                 (fun _ => w_ret None))
  | Some d0, Some d1 =>
      (* If one dataset is empty but not the other, the datasets differ. *)
      if dataset_empty d0 && negb (dataset_empty d1)
      then Returns (w_bind (TECA_ERROR origin "dataset 1 is empty, 2 is not.")
                      (fun _ => w_ret None))
      else if negb (dataset_empty d0) && dataset_empty d1
      then Returns (w_bind (TECA_ERROR origin "dataset 2 is empty, 1 is not.")
                      (fun _ => w_ret None))
      else if dataset_empty d0 && dataset_empty d1
      then
        (* If the datasets are both empty, they are "equal." *)
        Returns (if (rank =? 0)%Z
                 then w_bind (TECA_ERROR origin
                                "Both the reference and test datasets are empty")
                        (fun _ => w_ret None)
                 else w_ret None)
      else
        (* compare the inputs. the type of data is inferred from the
           reference mesh. *)
        match d0, d1 with
        | Table t0, Table t1 =>
            Returns (compared (compare_tables t0 t1)
                       "Failed to compare tables.")
        | CartesianMesh m0, CartesianMesh m1 =>
            Returns (compared (compare_cartesian_meshes m0 m1)
                       "Failed to compare cartesian_meshes.")
        | CurvilinearMesh m0, CurvilinearMesh m1 =>
            Returns (compared (compare_curvilinear_meshes m0 m1)
                       "Failed to compare curvilinear_meshes.")
        | ArakawaCGrid m0, ArakawaCGrid m1 =>
            Returns (compared (compare_arakawa_c_grids m0 m1)
                       "Failed to compare arakawa_c_grids.")
        | OtherDataset class_name, _ =>
            Returns (w_bind (TECA_ERROR origin
                               ("Unsupported dataset type " ++ class_name))
                       (fun _ => w_ret None))
        | _, _ => Undefined
        end
  end.

End Diff.

(** *** The index of the tests *)

Definition emit_error {A} (msg : string) (a : A) : W A :=
  w_bind (TECA_ERROR origin msg) (fun _ => w_ret a).

(** teca_dataset_diff::get_output_metadata, on the metadata of input 0:
    one test for each index of the reference input. *)
Definition get_output_metadata (input_md_0 : teca_metadata)
    : M teca_metadata :=
  (* get input 0 initializer *)
  match md_get_string input_md_0 "index_initializer_key" with
  | None => fail origin "Input 0 metadata is missing index_initializer_key"
  | Some initializer_key =>
      match md_get_ulong input_md_0 initializer_key with
      | None => fail origin "Input 0 metadata is missing its intializer"
      | Some n_indices_0 =>
          (* prepare pieline executive metadata to run a test for each
             input dataset *)
          let omd := input_md_0 in
          let omd := <["index_initializer_key" :=
                         StringArray ["number_of_tests"]]> omd in
          let omd := <["index_request_key" := StringArray ["test_id"]]> omd in
          let omd := <["number_of_tests" := ULongArray [n_indices_0]]> omd in
          ret omd
      end
  end.

(** "make the request for input 0" (and 1): the test id under the key the
    input indexes its data with. *)
Definition make_request (request : teca_metadata) (request_key : string)
    (test_id : Z) : teca_metadata :=
  let req := request in
  let req := <["index_request_key" := StringArray [request_key]]> req in
  let req := <[request_key := ULongArray [test_id]]> req in
  delete "test_id" req.

(** teca_dataset_diff::get_upstream_request: the requests sent to the two
    inputs, none after an error. *)
Definition get_upstream_request (input_md_0 input_md_1 : teca_metadata)
    (request : teca_metadata) : W (list teca_metadata) :=
  (* get the current index *)
  match md_get_ulong request "test_id" with
  | None =>
      emit_error "Request is missing the index_request_key test_id" []
  | Some test_id =>
      (* get input 0 request key *)
      match md_get_string input_md_0 "index_request_key" with
      | None => emit_error "Input 0 metadata is missing index_request_key" []
      | Some request_key_0 =>
          let req_0 := make_request request request_key_0 test_id in
          (* get input 1 request key *)
          match md_get_string input_md_1 "index_request_key" with
          | None =>
              emit_error "Input 1 metadata is missing index_request_key" []
          | Some request_key_1 =>
              let req_1 := make_request request request_key_1 test_id in
              (* send them upstream *)
              w_ret [req_0; req_1]
          end
      end
  end.

End DatasetDiff.

(** ** teca_cartesian_mesh_subset *)

Module MeshSubset.

(** The stage: the bounds to subset on, whether the extent is to cover
    them, and the extent found when the metadata was last reported. *)
Record teca_cartesian_mesh_subset := {
  bounds : list float;
  cover_bounds : bool;
  extent : list Z
}.

(** The metadata of the input: its ["coordinates"] entry, itself a
    dictionary of arrays, beside the other entries. *)
Record metadata := {
  md_coordinates : option teca_metadata;
  md_entries : teca_metadata
}.

Definition origin : string := "teca_cartesian_mesh_subset".

Section Subset.

(** [teca_coordinate_util::bounds_to_extent], outside the files at hand:
    the extent for the six bounds on the three coordinate arrays, covering
    them or not; [None] where it returns non-zero. *)
Variable bounds_to_extent :
  list float -> list float -> list float -> list float -> bool
  -> option (list Z).

(** teca_cartesian_mesh_subset::get_output_metadata: the stage after the
    call (it stores the extent) and the metadata reported.  The y and z
    coordinates are cast to the type of the x coordinates without a
    check; where they are of another type the model is undefined. *)
Definition get_output_metadata (self : teca_cartesian_mesh_subset)
    (input_md_0 : metadata)
    : DatasetDiff.behaviour (teca_cartesian_mesh_subset * M metadata) :=
  let invalid :=
    DatasetDiff.Returns (self, fail origin "metadata has invalid coordinates") in
  match md_coordinates input_md_0 with
  | None => invalid
  | Some coords =>
      match coords !! "x", coords !! "y", coords !! "z" with
      | Some x, Some y, Some z =>
          match x with
          | DoubleArray p_x =>
              match y, z with
              | DoubleArray p_y, DoubleArray p_z =>
                  match bounds_to_extent (bounds self) p_x p_y p_z
                          (cover_bounds self) with
                  | None =>
                      DatasetDiff.Returns
                        (self,
                         fail origin
                           "requested bounds does not fall in the valid range")
                  | Some ext =>
                      DatasetDiff.Returns
                        ({| bounds := bounds self;
                            cover_bounds := cover_bounds self;
                            extent := ext |},
                         ret {| md_coordinates := md_coordinates input_md_0;
                                md_entries :=
                                  <["whole_extent" := ULongArray ext]>
                                    (md_entries input_md_0) |})
                  end
              | _, _ => DatasetDiff.Undefined
              end
          | _ =>
              DatasetDiff.Returns
                (self, fail origin "get_output_metadata failed")
          end
      | _, _, _ => invalid
      end
  end.

(** teca_cartesian_mesh_subset::get_upstream_request *)
Definition get_upstream_request (self : teca_cartesian_mesh_subset)
    (request : teca_metadata) : list teca_metadata :=
  [<["extent" := ULongArray (extent self)]> request].

End Subset.

End MeshSubset.

(** ** The metadata the vertical integral reports *)

Module VerticalIntegralReport.

Import VerticalIntegral.

(** The metadata of the input: its ["coordinates"] and ["attributes"]
    entries, themselves dictionaries (of arrays, and of the attributes of
    each array), beside the other entries. *)
Record metadata := {
  md_coordinates : option teca_metadata;
  md_attributes : option (gmap string teca_metadata);
  md_entries : teca_metadata
}.

(** [unsigned long vals[6] = {0ul}; md.get(name, vals, 6);]: the six
    values after the call, zeros where the name is absent. *)
Definition get_6_ulongs (md : teca_metadata) (name : string) : list Z :=
  let vals := default [] (md_get_ulongs md name 6) in
  map (fun i => nth i vals 0%Z) (seq 0 6).

Definition get_6_doubles (md : teca_metadata) (name : string) : list float :=
  let vals := default [] (md_get_doubles md name 6) in
  map (fun i => nth i vals 0%float) (seq 0 6).

(** [z->new_instance()], [resize(1)] and [set(0, 0.0)]: one zero of the
    element type of [z].  What [set] makes of 0.0 in an array of strings
    is outside the files at hand. *)
Definition new_z (z : variant_array) : option variant_array :=
  match z with
  | DoubleArray _ => Some (DoubleArray [0%float])
  | ULongArray _ => Some (ULongArray [0%Z])
  | StringArray _ => None
  end.

Section Report.

(** Outside the files at hand: [teca_variant_array::append] of a string,
    which [teca_metadata::append] calls on the array of the name; and the
    metadata a [teca_array_attributes] of the given type code, centering,
    size, units, long name and description converts to, with the type
    code of [double] and the code of the point centering. *)
Variable append : variant_array -> string -> variant_array.
Variable teca_array_attributes :
  Z -> Z -> Z -> string -> string -> string -> teca_metadata.
Variable double_code : Z.
Variable point_centering : Z.

(** teca_vertical_integral::get_output_metadata.  The z coordinate is
    used without a check: the model is undefined where the input has no
    z coordinate. *)
Definition get_output_metadata (self : teca_vertical_integral)
    (input_md_0 : metadata) : DatasetDiff.behaviour (W metadata) :=
  let report_md := input_md_0 in
  (* get the extents and bounds *)
  let whole_extent := get_6_ulongs (md_entries report_md) "whole_extent" in
  let extent := get_6_ulongs (md_entries report_md) "extent" in
  let bounds := get_6_doubles (md_entries report_md) "bounds" in
  (* get the coordinates *)
  let coords := default ∅ (md_coordinates report_md) in
  (* set a new z coordinate with no value *)
  match coords !! "z" ≫= new_z with
  | None => DatasetDiff.Undefined
  | Some new_z =>
      let coords := <["z" := new_z]> coords in
      (* determine dimension sizes *)
      let nz :=
        ulong (nth 5 whole_extent 0 - nth 4 whole_extent 0 + 1)%Z in
      (* check that the variable has a z dimension *)
      if (nz =? 1)%Z
      then
        DatasetDiff.Returns
          (w_bind
             (TECA_ERROR origin
                "This calculation requires 3D data. The current dataset whole_extents are [, , , , , ]")
             (fun _ => w_ret report_md))
      else
        (* force the output data to have no z dimension *)
        let extent := flatten_z 0%Z extent in
        let whole_extent := flatten_z 0%Z whole_extent in
        let bounds := flatten_z 0%float bounds in
        let entries := md_entries report_md in
        let entries :=
          match entries !! "variables" with
          | Some variables =>
              <["variables" := append variables (output_variable_name self)]>
                entries
          | None =>
              <["variables" := StringArray [output_variable_name self]]>
                entries
          end in
        (* add attributes to enable CF I/O *)
        let atts := default ∅ (md_attributes report_md) in
        let output_atts :=
          teca_array_attributes double_code point_centering 0%Z
            "unset" "unset" "unset" in
        let atts := <[output_variable_name self := output_atts]> atts in
        (* write the updated bounds/extent/coordinates *)
        let entries := <["whole_extent" := ULongArray whole_extent]> entries in
        let entries :=
          if md_has entries "extent"
          then <["extent" := ULongArray extent]> entries else entries in
        let entries :=
          if md_has entries "bounds"
          then <["bounds" := DoubleArray bounds]> entries else entries in
        DatasetDiff.Returns
          (w_ret {| md_coordinates := Some coords;
                    md_attributes := Some atts;
                    md_entries := entries |})
  end.

End Report.

End VerticalIntegralReport.

(** ** The teca_bayesian_ar_detect application *)

Module ArDetect.

(** The basic command line options, as [opt_vals] holds them after the
    parse: a value where [opt_vals.count(name)] is not zero, a flag that
    is present.  (An option declared with a [default_value] is always
    present.) *)
Record options := {
  input_file : option string;
  input_regex : option string;
  ivt : option string;
  compute_ivt_magnitude : bool;
  ivt_u : option string;
  ivt_v : option string;
  write_ivt_magnitude : bool;
  compute_ivt : bool;
  specific_humidity : option string;
  wind_u : option string;
  wind_v : option string;
  write_ivt : bool;
  x_axis : option string;
  y_axis : option string;
  z_axis : option string;
  binary_ar_threshold : option float;
  output_file : option string;
  first_step : option Z;
  last_step : option Z;
  steps_per_file : option Z;
  start_date : option string;
  end_date : option string;
  n_threads : option Z;
  periodic_in_x : option Z;
  verbose : bool;
  help : bool;
  advanced_help : bool;
  full_help : bool
}.

(** The stages of the pipeline, each by the properties [main] sets. *)
Record reader := {
  input : string;
  r_periodic_in_x : Z;
  x_axis_variable : string;
  y_axis_variable : string;
  z_axis_variable : string
}.

Record teca_l2_norm := {
  component_0_variable : string;
  component_1_variable : string;
  l2_norm_variable : string
}.

(** teca_integrated_vapor_transport, the properties of its header. *)
Record teca_integrated_vapor_transport := {
  wind_u_variable : string;
  wind_v_variable : string;
  specific_humidity_variable : string;
  ivt_u_variable : string;
  ivt_v_variable : string
}.

Record teca_bayesian_ar_detect := {
  ivt_variable : string;
  ar_verbose : Z;
  ar_thread_pool_size : Z
}.

Record teca_binary_segmentation := {
  threshold_variable : string;
  segmentation_variable : string;
  low_threshold_value : float;
  segmentation_variable_attributes : list (string * string)
}.

Record teca_cf_writer := {
  w_thread_pool_size : Z;
  w_verbose : Z;
  w_information_arrays : list string;
  w_point_arrays : list string;
  w_file_name : string;
  w_steps_per_file : Z;
  w_first_step : Z;
  w_last_step : Z
}.

Inductive stage :=
| cf_reader_stage | mcf_reader_stage | ivt_int_stage | l2_norm_stage
| norm_coords_stage | params_stage | ar_detect_stage | ar_tag_stage
| cf_writer_stage.

(** The pipeline: the stages and their input connections, each the
    consumer, its port and the producer. *)
Record pipeline := {
  cf_reader : reader;
  mcf_reader : reader;
  l2_norm : teca_l2_norm;
  ivt_int : teca_integrated_vapor_transport;
  ar_detect : teca_bayesian_ar_detect;
  ar_tag : teca_binary_segmentation;
  cf_writer : teca_cf_writer;
  exec_verbose : Z;
  connections : list (stage * nat * stage)
}.

(** How [main] ends: it returns a code, leaving the pipeline as
    configured (run, when the code is 0); it calls a member of the null
    [head]; or [as<double>()] throws on an option that is not there. *)
Inductive ending :=
| Exit (code : Z) (p : pipeline)
| NullHead
| BadCast.

Definition origin : string := "teca_bayesian_ar_detect".

Definition set_connection (p : pipeline) (consumer : stage) (port : nat)
    (producer : stage) : pipeline :=
  {| cf_reader := cf_reader p; mcf_reader := mcf_reader p;
     l2_norm := l2_norm p; ivt_int := ivt_int p; ar_detect := ar_detect p;
     ar_tag := ar_tag p; cf_writer := cf_writer p;
     exec_verbose := exec_verbose p;
     connections := connections p ++ [(consumer, port, producer)] |}.

Definition with_readers (p : pipeline) (f : reader -> reader) : pipeline :=
  {| cf_reader := f (cf_reader p); mcf_reader := f (mcf_reader p);
     l2_norm := l2_norm p; ivt_int := ivt_int p; ar_detect := ar_detect p;
     ar_tag := ar_tag p; cf_writer := cf_writer p;
     exec_verbose := exec_verbose p; connections := connections p |}.

Definition with_cf_reader (p : pipeline) (f : reader -> reader) : pipeline :=
  {| cf_reader := f (cf_reader p); mcf_reader := mcf_reader p;
     l2_norm := l2_norm p; ivt_int := ivt_int p; ar_detect := ar_detect p;
     ar_tag := ar_tag p; cf_writer := cf_writer p;
     exec_verbose := exec_verbose p; connections := connections p |}.

Definition with_mcf_reader (p : pipeline) (f : reader -> reader) : pipeline :=
  {| cf_reader := cf_reader p; mcf_reader := f (mcf_reader p);
     l2_norm := l2_norm p; ivt_int := ivt_int p; ar_detect := ar_detect p;
     ar_tag := ar_tag p; cf_writer := cf_writer p;
     exec_verbose := exec_verbose p; connections := connections p |}.

Definition with_l2_norm (p : pipeline) (f : teca_l2_norm -> teca_l2_norm)
    : pipeline :=
  {| cf_reader := cf_reader p; mcf_reader := mcf_reader p;
     l2_norm := f (l2_norm p); ivt_int := ivt_int p;
     ar_detect := ar_detect p; ar_tag := ar_tag p; cf_writer := cf_writer p;
     exec_verbose := exec_verbose p; connections := connections p |}.

Definition with_ivt_int (p : pipeline)
    (f : teca_integrated_vapor_transport -> teca_integrated_vapor_transport)
    : pipeline :=
  {| cf_reader := cf_reader p; mcf_reader := mcf_reader p;
     l2_norm := l2_norm p; ivt_int := f (ivt_int p);
     ar_detect := ar_detect p; ar_tag := ar_tag p; cf_writer := cf_writer p;
     exec_verbose := exec_verbose p; connections := connections p |}.

Definition with_ar_detect (p : pipeline)
    (f : teca_bayesian_ar_detect -> teca_bayesian_ar_detect) : pipeline :=
  {| cf_reader := cf_reader p; mcf_reader := mcf_reader p;
     l2_norm := l2_norm p; ivt_int := ivt_int p;
     ar_detect := f (ar_detect p); ar_tag := ar_tag p;
     cf_writer := cf_writer p;
     exec_verbose := exec_verbose p; connections := connections p |}.

Definition with_ar_tag (p : pipeline)
    (f : teca_binary_segmentation -> teca_binary_segmentation) : pipeline :=
  {| cf_reader := cf_reader p; mcf_reader := mcf_reader p;
     l2_norm := l2_norm p; ivt_int := ivt_int p; ar_detect := ar_detect p;
     ar_tag := f (ar_tag p); cf_writer := cf_writer p;
     exec_verbose := exec_verbose p; connections := connections p |}.

Definition with_cf_writer (p : pipeline)
    (f : teca_cf_writer -> teca_cf_writer) : pipeline :=
  {| cf_reader := cf_reader p; mcf_reader := mcf_reader p;
     l2_norm := l2_norm p; ivt_int := ivt_int p; ar_detect := ar_detect p;
     ar_tag := ar_tag p; cf_writer := f (cf_writer p);
     exec_verbose := exec_verbose p; connections := connections p |}.

Definition with_exec_verbose (p : pipeline) (v : Z) : pipeline :=
  {| cf_reader := cf_reader p; mcf_reader := mcf_reader p;
     l2_norm := l2_norm p; ivt_int := ivt_int p; ar_detect := ar_detect p;
     ar_tag := ar_tag p; cf_writer := cf_writer p;
     exec_verbose := v; connections := connections p |}.

(** The setters [main] calls. *)
Definition set_input (v : string) (r : reader) : reader :=
  {| input := v; r_periodic_in_x := r_periodic_in_x r;
     x_axis_variable := x_axis_variable r;
     y_axis_variable := y_axis_variable r;
     z_axis_variable := z_axis_variable r |}.

Definition set_periodic_in_x (v : Z) (r : reader) : reader :=
  {| input := input r; r_periodic_in_x := v;
     x_axis_variable := x_axis_variable r;
     y_axis_variable := y_axis_variable r;
     z_axis_variable := z_axis_variable r |}.

Definition set_x_axis_variable (v : string) (r : reader) : reader :=
  {| input := input r; r_periodic_in_x := r_periodic_in_x r;
     x_axis_variable := v;
     y_axis_variable := y_axis_variable r;
     z_axis_variable := z_axis_variable r |}.

Definition set_y_axis_variable (v : string) (r : reader) : reader :=
  {| input := input r; r_periodic_in_x := r_periodic_in_x r;
     x_axis_variable := x_axis_variable r;
     y_axis_variable := v;
     z_axis_variable := z_axis_variable r |}.

Definition set_z_axis_variable (v : string) (r : reader) : reader :=
  {| input := input r; r_periodic_in_x := r_periodic_in_x r;
     x_axis_variable := x_axis_variable r;
     y_axis_variable := y_axis_variable r;
     z_axis_variable := v |}.

Definition set_component_0_variable (v : string) (n : teca_l2_norm)
    : teca_l2_norm :=
  {| component_0_variable := v;
     component_1_variable := component_1_variable n;
     l2_norm_variable := l2_norm_variable n |}.

Definition set_component_1_variable (v : string) (n : teca_l2_norm)
    : teca_l2_norm :=
  {| component_0_variable := component_0_variable n;
     component_1_variable := v;
     l2_norm_variable := l2_norm_variable n |}.

Definition set_l2_norm_variable (v : string) (n : teca_l2_norm)
    : teca_l2_norm :=
  {| component_0_variable := component_0_variable n;
     component_1_variable := component_1_variable n;
     l2_norm_variable := v |}.

Definition set_wind_u_variable (v : string)
    (i : teca_integrated_vapor_transport) : teca_integrated_vapor_transport :=
  {| wind_u_variable := v; wind_v_variable := wind_v_variable i;
     specific_humidity_variable := specific_humidity_variable i;
     ivt_u_variable := ivt_u_variable i;
     ivt_v_variable := ivt_v_variable i |}.

Definition set_wind_v_variable (v : string)
    (i : teca_integrated_vapor_transport) : teca_integrated_vapor_transport :=
  {| wind_u_variable := wind_u_variable i; wind_v_variable := v;
     specific_humidity_variable := specific_humidity_variable i;
     ivt_u_variable := ivt_u_variable i;
     ivt_v_variable := ivt_v_variable i |}.

Definition set_specific_humidity_variable (v : string)
    (i : teca_integrated_vapor_transport) : teca_integrated_vapor_transport :=
  {| wind_u_variable := wind_u_variable i;
     wind_v_variable := wind_v_variable i;
     specific_humidity_variable := v;
     ivt_u_variable := ivt_u_variable i;
     ivt_v_variable := ivt_v_variable i |}.

Definition set_ivt_u_variable (v : string)
    (i : teca_integrated_vapor_transport) : teca_integrated_vapor_transport :=
  {| wind_u_variable := wind_u_variable i;
     wind_v_variable := wind_v_variable i;
     specific_humidity_variable := specific_humidity_variable i;
     ivt_u_variable := v;
     ivt_v_variable := ivt_v_variable i |}.

Definition set_ivt_v_variable (v : string)
    (i : teca_integrated_vapor_transport) : teca_integrated_vapor_transport :=
  {| wind_u_variable := wind_u_variable i;
     wind_v_variable := wind_v_variable i;
     specific_humidity_variable := specific_humidity_variable i;
     ivt_u_variable := ivt_u_variable i;
     ivt_v_variable := v |}.

Definition set_ivt_variable (v : string) (a : teca_bayesian_ar_detect)
    : teca_bayesian_ar_detect :=
  {| ivt_variable := v; ar_verbose := ar_verbose a;
     ar_thread_pool_size := ar_thread_pool_size a |}.

Definition set_ar_verbose (v : Z) (a : teca_bayesian_ar_detect)
    : teca_bayesian_ar_detect :=
  {| ivt_variable := ivt_variable a; ar_verbose := v;
     ar_thread_pool_size := ar_thread_pool_size a |}.

Definition set_ar_thread_pool_size (v : Z) (a : teca_bayesian_ar_detect)
    : teca_bayesian_ar_detect :=
  {| ivt_variable := ivt_variable a; ar_verbose := ar_verbose a;
     ar_thread_pool_size := v |}.

Definition set_threshold (threshold : float)
    (attributes : list (string * string)) (t : teca_binary_segmentation)
    : teca_binary_segmentation :=
  {| threshold_variable := threshold_variable t;
     segmentation_variable := segmentation_variable t;
     low_threshold_value := threshold;
     segmentation_variable_attributes := attributes |}.

Definition set_writer_arrays (information point : list string)
    (w : teca_cf_writer) : teca_cf_writer :=
  {| w_thread_pool_size := w_thread_pool_size w; w_verbose := w_verbose w;
     w_information_arrays := information; w_point_arrays := point;
     w_file_name := w_file_name w; w_steps_per_file := w_steps_per_file w;
     w_first_step := w_first_step w; w_last_step := w_last_step w |}.

Definition set_file_name (v : string) (w : teca_cf_writer) : teca_cf_writer :=
  {| w_thread_pool_size := w_thread_pool_size w; w_verbose := w_verbose w;
     w_information_arrays := w_information_arrays w;
     w_point_arrays := w_point_arrays w;
     w_file_name := v; w_steps_per_file := w_steps_per_file w;
     w_first_step := w_first_step w; w_last_step := w_last_step w |}.

Definition set_steps_per_file (v : Z) (w : teca_cf_writer) : teca_cf_writer :=
  {| w_thread_pool_size := w_thread_pool_size w; w_verbose := w_verbose w;
     w_information_arrays := w_information_arrays w;
     w_point_arrays := w_point_arrays w;
     w_file_name := w_file_name w; w_steps_per_file := v;
     w_first_step := w_first_step w; w_last_step := w_last_step w |}.

Definition set_first_step (v : Z) (w : teca_cf_writer) : teca_cf_writer :=
  {| w_thread_pool_size := w_thread_pool_size w; w_verbose := w_verbose w;
     w_information_arrays := w_information_arrays w;
     w_point_arrays := w_point_arrays w;
     w_file_name := w_file_name w; w_steps_per_file := w_steps_per_file w;
     w_first_step := v; w_last_step := w_last_step w |}.

Definition set_last_step (v : Z) (w : teca_cf_writer) : teca_cf_writer :=
  {| w_thread_pool_size := w_thread_pool_size w; w_verbose := w_verbose w;
     w_information_arrays := w_information_arrays w;
     w_point_arrays := w_point_arrays w;
     w_file_name := w_file_name w; w_steps_per_file := w_steps_per_file w;
     w_first_step := w_first_step w; w_last_step := v |}.

Definition set_writer_verbose (v : Z) (w : teca_cf_writer) : teca_cf_writer :=
  {| w_thread_pool_size := w_thread_pool_size w; w_verbose := v;
     w_information_arrays := w_information_arrays w;
     w_point_arrays := w_point_arrays w;
     w_file_name := w_file_name w; w_steps_per_file := w_steps_per_file w;
     w_first_step := w_first_step w; w_last_step := w_last_step w |}.

Definition set_writer_thread_pool_size (v : Z) (w : teca_cf_writer)
    : teca_cf_writer :=
  {| w_thread_pool_size := v; w_verbose := w_verbose w;
     w_information_arrays := w_information_arrays w;
     w_point_arrays := w_point_arrays w;
     w_file_name := w_file_name w; w_steps_per_file := w_steps_per_file w;
     w_first_step := w_first_step w; w_last_step := w_last_step w |}.

(** [if (opt_vals.count(name)) ...] *)
Definition when_given {A} (o : option A) (f : A -> pipeline -> pipeline)
    (p : pipeline) : pipeline :=
  match o with
  | Some a => f a p
  | None => p
  end.

Section Main.

(** Outside the files at hand: the rank of the process; the stages as
    their constructors leave them; what [set_properties] does to a stage
    for the advanced options; the metadata the reader reports;
    [teca_coordinate_util::time_step_of] ([None] where it returns
    non-zero); [std::to_string]. *)
Variable rank : Z.
Variable cf_reader_new : reader.
Variable mcf_reader_new : reader.
Variable ar_detect_new : teca_bayesian_ar_detect.
Variable ar_tag_new : teca_binary_segmentation.
Variable cf_writer_new : teca_cf_writer.
Variable exec_new_verbose : Z.
Variable cf_reader_set_properties : reader -> reader.
Variable mcf_reader_set_properties : reader -> reader.
Variable l2_norm_set_properties : teca_l2_norm -> teca_l2_norm.
Variable ivt_int_set_properties :
  teca_integrated_vapor_transport -> teca_integrated_vapor_transport.
Variable ar_detect_set_properties :
  teca_bayesian_ar_detect -> teca_bayesian_ar_detect.
Variable cf_writer_set_properties : teca_cf_writer -> teca_cf_writer.
Variable update_metadata : stage -> pipeline -> CfReader.reader_metadata.
Variable time_step_of :
  list float -> bool -> bool -> string -> string -> string -> option Z.
Variable to_string : float -> string.

(** "create the pipeline stages here": the stages after their
    construction and the defaults [main] sets. *)
Definition construct : pipeline :=
  {| cf_reader := cf_reader_new;
     mcf_reader := mcf_reader_new;
     l2_norm := {| component_0_variable := "IVT_U";
                   component_1_variable := "IVT_V";
                   l2_norm_variable := "IVT" |};
     ivt_int := {| wind_u_variable := "U"; wind_v_variable := "V";
                   specific_humidity_variable := "Q";
                   ivt_u_variable := "IVT_U"; ivt_v_variable := "IVT_V" |};
     ar_detect := set_ivt_variable "IVT" ar_detect_new;
     ar_tag := {| threshold_variable := "ar_probability";
                  segmentation_variable := "ar_binary_tag";
                  low_threshold_value := low_threshold_value ar_tag_new;
                  segmentation_variable_attributes :=
                    segmentation_variable_attributes ar_tag_new |};
     cf_writer := set_writer_verbose 0
                    (set_writer_thread_pool_size 1 cf_writer_new);
     exec_verbose := exec_new_verbose;
     connections := [] |}.

(** "pass command line arguments into the pipeline objects" *)
Definition set_properties (p : pipeline) : pipeline :=
  let p := with_cf_reader p cf_reader_set_properties in
  let p := with_mcf_reader p mcf_reader_set_properties in
  let p := with_l2_norm p l2_norm_set_properties in
  let p := with_ivt_int p ivt_int_set_properties in
  let p := with_ar_detect p ar_detect_set_properties in
  with_cf_writer p cf_writer_set_properties.

(** "configure the reader": the pipeline and its [head]. *)
Definition configure_reader (opts : options) (p : pipeline)
    : pipeline * option stage :=
  match input_file opts, input_regex opts with
  | Some file, _ => (with_mcf_reader p (set_input file), Some mcf_reader_stage)
  | None, Some regex =>
      (with_cf_reader p (set_input regex), Some cf_reader_stage)
  | None, None => (p, None)
  end.

(** From [periodic_in_x] to [ivt]: the names passed to the stages. *)
Definition configure_names (opts : options) (p : pipeline) : pipeline :=
  let p := when_given (periodic_in_x opts)
             (fun v p => with_readers p (set_periodic_in_x v)) p in
  let p := when_given (x_axis opts)
             (fun v p => with_readers p (set_x_axis_variable v)) p in
  let p := when_given (y_axis opts)
             (fun v p => with_readers p (set_y_axis_variable v)) p in
  (* set the inputs to the integrator *)
  let p := when_given (wind_u opts)
             (fun v p => with_ivt_int p (set_wind_u_variable v)) p in
  let p := when_given (wind_v opts)
             (fun v p => with_ivt_int p (set_wind_v_variable v)) p in
  let p := when_given (specific_humidity opts)
             (fun v p => with_ivt_int p (set_specific_humidity_variable v))
             p in
  (* set all that use or produce ivt *)
  let p := when_given (ivt_u opts)
             (fun v p => with_l2_norm (with_ivt_int p (set_ivt_u_variable v))
                           (set_component_0_variable v)) p in
  let p := when_given (ivt_v opts)
             (fun v p => with_l2_norm (with_ivt_int p (set_ivt_v_variable v))
                           (set_component_1_variable v)) p in
  when_given (ivt opts)
    (fun v p => with_ar_detect (with_l2_norm p (set_l2_norm_variable v))
                  (set_ivt_variable v)) p.

(** "add the ivt caluation stages if needed": the pipeline and its new
    [head], or nothing where a member of the null [head] is called. *)
Definition add_ivt_stages (opts : options) (p : pipeline)
    (head : option stage) : option (pipeline * option stage) :=
  if compute_ivt opts
  then
    let z_var := default "plev" (z_axis opts) in
    let p := with_readers p (set_z_axis_variable z_var) in
    match head with
    | None => None
    | Some h =>
        let p := set_connection p ivt_int_stage 0 h in
        let p := set_connection p l2_norm_stage 0 ivt_int_stage in
        Some (p, Some l2_norm_stage)
    end
  else if compute_ivt_magnitude opts
  then
    match head with
    | None => None
    | Some h => Some (set_connection p l2_norm_stage 0 h, Some l2_norm_stage)
    end
  else Some (p, head).

(** "tell the writer to write ivt if needed" *)
Definition written_point_arrays (opts : options) (p : pipeline)
    : list string :=
  let do_ivt := compute_ivt opts in
  let do_ivt_magnitude := compute_ivt_magnitude opts in
  let point_arrays := ["ar_probability"; "ar_binary_tag"] in
  let point_arrays :=
    if (do_ivt || do_ivt_magnitude) && write_ivt_magnitude opts
    then point_arrays ++ [l2_norm_variable (l2_norm p)]
    else point_arrays in
  if do_ivt && write_ivt opts
  then point_arrays ++ [ivt_u_variable (ivt_int p); ivt_v_variable (ivt_int p)]
  else point_arrays.

(** From the arrays of the writer to the size of the thread pool. *)
Definition configure_writer (opts : options) (p : pipeline) : pipeline :=
  let p := with_cf_writer p
             (set_writer_arrays ["ar_count"; "parameter_table_row"]
                (written_point_arrays opts p)) in
  let p := when_given (output_file opts)
             (fun v p => with_cf_writer p (set_file_name v)) p in
  let p := when_given (steps_per_file opts)
             (fun v p => with_cf_writer p (set_steps_per_file v)) p in
  let p := when_given (first_step opts)
             (fun v p => with_cf_writer p (set_first_step v)) p in
  let p := when_given (last_step opts)
             (fun v p => with_cf_writer p (set_last_step v)) p in
  let p :=
    if verbose opts
    then with_exec_verbose
           (with_cf_writer (with_ar_detect p (set_ar_verbose 1))
              (set_writer_verbose 1)) 1
    else p in
  match n_threads opts with
  | Some n => with_ar_detect p (set_ar_thread_pool_size n)
  | None => with_ar_detect p (set_ar_thread_pool_size (-1))
  end.

(** [if (mpi_man.get_comm_rank() == 0) { TECA_ERROR(msg) } return -1;] *)
Definition usage_error (msg : string) (p : pipeline) : W ending :=
  w_bind (if (rank =? 0)%Z then TECA_ERROR origin msg else w_ret tt)
    (fun _ => w_ret (Exit (-1) p)).

Definition error (msg : string) (p : pipeline) : W ending :=
  w_bind (TECA_ERROR origin msg) (fun _ => w_ret (Exit (-1) p)).

(** "connect the fixed stages of the pipeline" *)
Definition connect_fixed_stages (p : pipeline) (head : stage) : pipeline :=
  let p := set_connection p norm_coords_stage 0 head in
  let p := set_connection p ar_detect_stage 0 params_stage in
  let p := set_connection p ar_detect_stage 1 norm_coords_stage in
  let p := set_connection p ar_tag_stage 0 ar_detect_stage in
  set_connection p cf_writer_stage 0 ar_tag_stage.

(** "set the threshold for calculating ar_binary_tag" to the end. *)
Definition run (opts : options) (p : pipeline) : W ending :=
  match binary_ar_threshold opts with
  | None => w_ret BadCast
  | Some ar_tag_threshold =>
      (* add metadata for ar_binary_tag *)
      let seg_atts :=
        [("long_name", "binary indicator of atmospheric river");
         ("description", "binary indicator of atmospheric river");
         ("scheme", "cascade_bard");
         ("version", "1.0");
         ("note", ("derived by thresholding ar_probability >= "
                   ++ to_string ar_tag_threshold)%string)] in
      (* run the pipeline *)
      w_ret (Exit 0 (with_ar_tag p (set_threshold ar_tag_threshold seg_atts)))
  end.

(** "look for requested time step range, start" *)
Definition requested_dates (opts : options) (p : pipeline) (reader : stage)
    : W ending :=
  match start_date opts, end_date opts with
  | None, None => run opts p
  | _, _ =>
      (* run the reporting phase of the pipeline *)
      let md := update_metadata reader p in
      match CfReader.md_attributes md with
      | None => error "metadata missing attributes" p
      | Some atrs =>
          match atrs !! "time" with
          | Some {| CfReader.att_calendar := Some calendar;
                    CfReader.att_units := Some units |} =>
              match CfReader.md_coordinates md with
              | Some {| CfReader.coord_t := Some time |} =>
                  (* and end date *)
                  let to_end_date (p : pipeline) : W ending :=
                    match end_date opts with
                    | None => run opts p
                    | Some end_date =>
                        match time_step_of time false true calendar units
                                end_date with
                        | None =>
                            error
                              ("Failed to locate time step for end date "
                               ++ end_date)%string p
                        | Some last_step =>
                            run opts
                              (with_cf_writer p (set_last_step last_step))
                        end
                    end in
                  (* convert date string to step, start date *)
                  match start_date opts with
                  | None => to_end_date p
                  | Some start_date =>
                      match time_step_of time true true calendar units
                              start_date with
                      | None =>
                          error
                            ("Failed to locate time step for start date "
                             ++ start_date)%string p
                      | Some first_step =>
                          to_end_date
                            (with_cf_writer p (set_first_step first_step))
                      end
                  end
              | _ => error "failed to determine time coordinate" p
              end
          | _ => error "failed to determine the calendaring parameters" p
          end
      end
  end.

(** [main] after the parse of the command line. *)
Definition configure (opts : options) (p : pipeline) : W ending :=
  let p := set_properties p in
  (* configure the reader *)
  let have_file := bool_decide (is_Some (input_file opts)) in
  let have_regex := bool_decide (is_Some (input_regex opts)) in
  let '(p, head) := configure_reader opts p in
  let reader := head in
  let p := configure_names opts p in
  (* add the ivt caluation stages if needed *)
  let do_ivt := compute_ivt opts in
  let do_ivt_magnitude := compute_ivt_magnitude opts in
  match add_ivt_stages opts p head with
  | None => w_ret NullHead
  | Some (p, head) =>
      let p := configure_writer opts p in
      (* some minimal check for missing options *)
      if (have_file && have_regex) || negb (have_file || have_regex)
      then usage_error
             "Extacly one of --input_file or --input_regex can be specified. Use --input_file to activate the multi_cf_reader (HighResMIP datasets) and --input_regex to activate the cf_reader (CAM like datasets)"
             p
      else if do_ivt && do_ivt_magnitude
      then usage_error
             "Only one of --compute_ivt and compute_ivt_magnitude can be specified. --compute_ivt implies --compute_ivt_magnitude"
             p
      else if empty_string (w_file_name (cf_writer p))
      then usage_error
             "missing file name pattern for netcdf writer. See --help for a list of command line options."
             p
      else
        match head, reader with
        | Some head, Some reader =>
            (* connect the fixed stages of the pipeline *)
            let p := connect_fixed_stages p head in
            requested_dates opts p reader
        | _, _ => w_ret NullHead
        end
  end.

(** [main], from the parse of the command line: [None] where
    [boost::program_options::store] or [notify] throws (the text of the
    exception is left out of the message), the options otherwise.  The
    help texts go to [cerr] and are not kept. *)
Definition main (parsed : option options) : W ending :=
  let p := construct in
  match parsed with
  | None =>
      error "Error parsing command line options. See --help for a list of supported options. "
        p
  | Some opts =>
      if (rank =? 0)%Z
         && (help opts || advanced_help opts || full_help opts)
      then w_ret (Exit (-1) p)
      else configure opts p
  end.

End Main.

End ArDetect.

(** * Proofs *)

(** ** The logging monad *)

Lemma w_bind_fst {A B} (m : W A) (k : A -> W B) :
  fst (w_bind m k) = fst (k (fst m)).
Proof. destruct m as [a l]. simpl. now destruct (k a). Qed.

Lemma w_bind_snd {A B} (m : W A) (k : A -> W B) :
  snd (w_bind m k) = snd m ++ snd (k (fst m)).
Proof. destruct m as [a l]. simpl. now destruct (k a). Qed.

Module CfReaderLocate.
Import CfReader.
Local Open Scope Z_scope.

Lemma sum_ulong_app (u v : list Z) :
  sum_ulong (u ++ v) = sum_ulong u + sum_ulong v.
Proof. induction u as [|a u IH]; simpl; lia. Qed.

Lemma steps_before_S (k : nat) (sc : list Z) :
  (k < length sc)%nat ->
  steps_before (S k) sc = steps_before k sc + nth k sc 0.
Proof.
  revert k. induction sc as [|a sc IH]; intros k Hk; simpl in Hk; [lia|].
  destruct k as [|k]; unfold steps_before in *; simpl.
  - destruct sc; simpl; lia.
  - specialize (IH k ltac:(lia)). simpl in IH. rewrite IH. lia.
Qed.

Lemma steps_before_all (sc : list Z) :
  steps_before (length sc) sc = sum_ulong sc.
Proof. unfold steps_before. now rewrite firstn_all. Qed.

Lemma nth_nonneg (sc : list Z) (k : nat) :
  Forall is_ulong sc -> 0 <= nth k sc 0.
Proof.
  intros Hpos. destruct (Nat.lt_ge_cases k (length sc)) as [H|H].
  - rewrite Forall_forall in Hpos. apply Hpos.
    apply list_elem_of_In. now apply nth_In.
  - rewrite nth_overflow by lia. lia.
Qed.

Lemma steps_before_mono (sc : list Z) (f g : nat) :
  Forall is_ulong sc -> (f <= g)%nat ->
  steps_before f sc <= steps_before g sc.
Proof.
  intros Hpos Hfg. induction Hfg as [|g Hfg IH]; [lia|].
  destruct (Nat.lt_ge_cases g (length sc)) as [H|H].
  - rewrite (steps_before_S g sc H). pose proof (nth_nonneg sc g Hpos).
    clear Hfg H. lia.
  - unfold steps_before in *.
    rewrite (firstn_all2 (n := S g)) by lia.
    rewrite (firstn_all2 (n := g)) in IH by lia. exact IH.
Qed.

Lemma steps_before_le_sum (sc : list Z) (f : nat) :
  Forall is_ulong sc -> steps_before f sc <= sum_ulong sc.
Proof.
  intros Hpos. destruct (Nat.le_gt_cases f (length sc)) as [H|H].
  - rewrite <- steps_before_all. now apply steps_before_mono.
  - unfold steps_before. rewrite firstn_all2 by lia. lia.
Qed.

(** The loop invariant: after [k] rounds, [i = k+1], [idx = k] and [count]
    is the number of steps in the first [k] files, none of them wrapped. *)
Lemma locate_loop_inv (sc : list Z) (ts : Z) :
  Forall is_ulong sc ->
  Z.of_nat (length sc) < 2 ^ 32 ->
  sum_ulong sc < 2 ^ 64 ->
  forall (fuel k : nat),
    (k < length sc)%nat -> (length sc <= fuel + k + 1)%nat ->
    steps_before k sc <= ts < sum_ulong sc ->
    exists f : nat,
      locate_loop fuel sc ts
        {| ls_i := Z.of_nat k + 1; ls_idx := Z.of_nat k;
           ls_count := steps_before k sc |}
      = Some {| ls_i := Z.of_nat f + 1; ls_idx := Z.of_nat f;
                ls_count := steps_before f sc |}
      /\ (f < length sc)%nat
      /\ steps_before f sc <= ts < steps_before (S f) sc.
Proof.
  intros Hpos Hlen Hsum. induction fuel as [|fuel IH]; intros k Hk Hfuel Hts.
  - assert (S k = length sc) as Hlast by lia.
    exists k. simpl. unfold locate_cond. simpl.
    replace (Z.of_nat k + 1 <? Z.of_nat (length sc)) with false
      by (symmetry; apply Z.ltb_ge; lia).
    simpl. rewrite Hlast, steps_before_all. repeat split; try lia.
  - simpl. unfold locate_cond. simpl.
    unfold at_ulong. replace (Z.to_nat (Z.of_nat k + 1 - 1)) with k by lia.
    pose proof (nth_nonneg sc k Hpos) as Hnth.
    pose proof (steps_before_S k sc Hk) as HS.
    pose proof (steps_before_le_sum sc (S k) Hpos) as Hle.
    pose proof (steps_before_mono sc 0 k Hpos ltac:(lia)) as H0.
    unfold steps_before at 1 in H0. simpl in H0.
    assert (ulong (steps_before k sc + nth k sc 0) = steps_before (S k) sc)
      as Hwrap by (unfold ulong; rewrite Z.mod_small; lia).
    rewrite Hwrap.
    destruct (Z.ltb_spec (Z.of_nat k + 1) (Z.of_nat (length sc))) as [Hi|Hi];
      simpl.
    + destruct (Z.leb_spec (steps_before (S k) sc) ts) as [Hc|Hc].
      * unfold locate_body. simpl. unfold at_ulong.
        replace (Z.to_nat (Z.of_nat k + 1 - 1)) with k by lia.
        rewrite Hwrap.
        replace (uint (Z.of_nat k + 1 + 1)) with (Z.of_nat (S k) + 1)
          by (unfold uint; rewrite Z.mod_small; lia).
        replace (ulong (Z.of_nat k + 1)) with (Z.of_nat (S k))
          by (unfold ulong; rewrite Z.mod_small; lia).
        apply IH; lia.
      * exists k. repeat split; try lia.
    + exists k. assert (S k = length sc) as Hlast by lia.
      rewrite Hlast, steps_before_all. repeat split; lia.
Qed.

End CfReaderLocate.

Module CfReaderExecute.
Import CfReader CfReaderLocate.
Local Open Scope Z_scope.

Section Reads.

Variable nc_get_vara :
  string -> Z -> Z -> list Z -> list Z -> option variant_array.
Variable nc_dispatch : Z -> bool.

Variable r : teca_cf_reader.
Variable atrs : gmap string array_attributes.
Variable file_path : string.
Variable layout : mesh_layout.
Variable offs : Z.

Let read1 := read_array nc_get_vara nc_dispatch r atrs file_path layout offs.
Let readn := read_arrays nc_get_vara nc_dispatch r atrs file_path layout offs.

(** Every NetCDF read of one round goes to the file at hand. *)
Lemma read_array_path mesh name p id st ct :
  In (NcGetVara p id st ct) (snd (read1 mesh name)) -> p = file_path.
Proof.
  unfold read1, read_array.
  destruct (array_metadata atrs name) as [[[[type vid] dims] dim_names]|];
    simpl; [|intuition discriminate].
  destruct (is_mesh_variable _ _), (nc_dispatch type); simpl;
    try tauto;
    match goal with
    | |- context [nc_get_vara ?a ?b ?c ?d ?e] =>
        destruct (nc_get_vara a b c d e); simpl
    end; intuition congruence.
Qed.

Lemma read_arrays_path arrays : forall mesh p id st ct,
  In (NcGetVara p id st ct) (snd (readn mesh arrays)) -> p = file_path.
Proof.
  induction arrays as [|name rest IH]; intros mesh p id st ct; simpl.
  - tauto.
  - unfold readn in *. simpl. rewrite w_bind_snd. rewrite in_app_iff.
    intros [H|H].
    + eapply read_array_path; exact H.
    + eapply IH; exact H.
Qed.

(** A requested mesh variable is read as the hyperslab of the layout. *)
Lemma read_array_mesh_variable mesh name type id dims dim_names :
  array_metadata atrs name = Some (type, id, dims, dim_names) ->
  is_mesh_variable dim_names (mesh_dim_names layout) = true ->
  nc_dispatch type = true ->
  In (NcGetVara file_path id (starts layout) (counts layout))
     (snd (read1 mesh name)).
Proof.
  intros Hmd Hmesh Htype. unfold read1, read_array.
  rewrite Hmd, Hmesh, Htype. rewrite w_bind_snd. simpl. now left.
Qed.

Lemma read_arrays_mesh_variable arrays : forall mesh name type id dims dim_names,
  In name arrays ->
  array_metadata atrs name = Some (type, id, dims, dim_names) ->
  is_mesh_variable dim_names (mesh_dim_names layout) = true ->
  nc_dispatch type = true ->
  In (NcGetVara file_path id (starts layout) (counts layout))
     (snd (readn mesh arrays)).
Proof.
  induction arrays as [|a rest IH]; intros mesh name type id dims dim_names Hin;
    simpl in Hin; [tauto|].
  intros Hmd Hmesh Htype. unfold readn in *. simpl.
  rewrite w_bind_snd, in_app_iff. destruct Hin as [->|Hin].
  - left. eapply read_array_mesh_variable; eauto.
  - right. eapply IH; eauto.
Qed.

(** What one round does to the mesh: nothing, or one array appended, and
    an array is only appended when its metadata resolved. *)
Lemma read_array_cases mesh name :
  fst (read1 mesh name) = mesh
  \/ (array_metadata atrs name <> None
      /\ exists a, fst (read1 mesh name) = append_point_array mesh name a)
  \/ (array_metadata atrs name <> None
      /\ exists a,
           fst (read1 mesh name) = append_information_array mesh name a).
Proof.
  unfold read1, read_array.
  destruct (array_metadata atrs name) as [[[[type vid] dims] dim_names]|];
    [|now left].
  destruct (is_mesh_variable _ _), (nc_dispatch type);
    try (right; left; split; [discriminate|eexists; reflexivity]);
    try (right; right; split; [discriminate|eexists; reflexivity]);
    rewrite w_bind_fst;
    match goal with
    | |- context [nc_get_vara ?a ?b ?c ?d ?e] =>
        destruct (nc_get_vara a b c d e)
    end;
    try (now left);
    try (right; left; split; [discriminate|eexists; reflexivity]);
    try (right; right; split; [discriminate|eexists; reflexivity]).
Qed.


(** An array whose metadata does not resolve is reported. *)
Lemma read_arrays_reports arrays : forall mesh name,
  In name arrays ->
  array_metadata atrs name = None ->
  In (Log (LogRecord ERROR origin
             ("metadata issue can't read " ++ name)%string))
     (snd (readn mesh arrays)).
Proof.
  induction arrays as [|a rest IH]; intros mesh name Hin Hmd;
    simpl in Hin; [tauto|].
  unfold readn in *. simpl. rewrite w_bind_snd, in_app_iff.
  destruct Hin as [->|Hin].
  - left. unfold read_array. rewrite Hmd. simpl. now left.
  - right. now apply IH.
Qed.

(** ... and is in neither array collection of the result. *)
Lemma read_arrays_skips arrays : forall mesh name,
  array_metadata atrs name = None ->
  (In name (map fst (point_arrays (fst (readn mesh arrays))))
   -> In name (map fst (point_arrays mesh)))
  /\ (In name (map fst (information_arrays (fst (readn mesh arrays))))
      -> In name (map fst (information_arrays mesh))).
Proof.
  induction arrays as [|a rest IH]; intros mesh name Hmd; [now simpl|].
  unfold readn in *. simpl. rewrite w_bind_fst.
  destruct (IH (fst (read1 mesh a)) name Hmd) as [Hp Hi].
  unfold read1 in *.
  destruct (read_array_cases mesh a) as [H|[[Ha [x H]]|[Ha [x H]]]];
    unfold read1 in H; rewrite H in Hp, Hi |- *; simpl in Hp, Hi.
  - now split.
  - split; [|exact Hi]. intros Hin. specialize (Hp Hin).
    rewrite map_app, in_app_iff in Hp. simpl in Hp.
    destruct Hp as [Hp|[Hp|[]]]; [exact Hp|]. congruence.
  - split; [exact Hp|]. intros Hin. specialize (Hi Hin).
    rewrite map_app, in_app_iff in Hi. simpl in Hi.
    destruct Hi as [Hi|[Hi|[]]]; [exact Hi|]. congruence.
Qed.

End Reads.

Lemma steps_interval_unique (sc : list Z) (i : Z) (f g : nat) :
  Forall is_ulong sc ->
  steps_before f sc <= i < steps_before (S f) sc ->
  steps_before g sc <= i < steps_before (S g) sc ->
  g = f.
Proof.
  intros Hpos Hf Hg.
  destruct (Nat.lt_trichotomy f g) as [H|[H|H]]; [|congruence|].
  - pose proof (steps_before_mono sc (S f) g Hpos ltac:(lia)). lia.
  - pose proof (steps_before_mono sc (S g) f Hpos ltac:(lia)). lia.
Qed.

Lemma empty_string_false (s : string) : s <> "" -> empty_string s = false.
Proof. destruct s; simpl; congruence. Qed.

Lemma execute_layout_time_first (r : teca_cf_reader) (extent : list Z)
    (offs : Z) :
  t_axis_variable r <> "" ->
  exists st, starts (execute_layout r extent offs) = offs :: st.
Proof.
  intros Ht. unfold execute_layout, push_dim.
  rewrite (empty_string_false _ Ht). simpl.
  destruct (empty_string (z_axis_variable r)),
           (empty_string (y_axis_variable r)),
           (empty_string (x_axis_variable r)); simpl; eauto.
Qed.

Lemma locate_file_finds (sc : list Z) (i : Z) :
  Forall is_ulong sc ->
  Z.of_nat (length sc) < 2 ^ 32 ->
  sum_ulong sc < 2 ^ 64 ->
  0 <= i < sum_ulong sc ->
  exists f : nat,
    locate_file sc i = Some (Z.of_nat f, i - steps_before f sc)
    /\ (f < length sc)%nat
    /\ steps_before f sc <= i < steps_before (S f) sc.
Proof.
  intros Hpos Hlen Hsum Hi.
  assert (0 < length sc)%nat as Hne.
  { destruct sc; simpl in *; lia. }
  destruct (locate_loop_inv sc i Hpos Hlen Hsum (length sc) 0%nat)
    as (f & Hloop & Hf & Hint); [lia|lia|unfold steps_before; simpl; lia|].
  exists f. unfold locate_file.
  change (Z.of_nat 0 + 1) with 1 in Hloop. change (Z.of_nat 0) with 0 in Hloop.
  change (steps_before 0 sc) with 0 in Hloop.
  rewrite Hloop. simpl. repeat split; try lia.
  f_equal. f_equal. unfold ulong. apply Z.mod_small.
  pose proof (steps_before_mono sc 0 f Hpos ltac:(lia)) as H0.
  change (steps_before 0 sc) with 0 in H0. lia.
Qed.

Section ExecuteLocated.

Variable index_of : list float -> float -> option Z.
Variable bounds_to_extent :
  list float -> list float -> list float -> list float -> option (list Z).
Variable nc_open : string -> bool.
Variable nc_get_vara :
  string -> Z -> Z -> list Z -> list Z -> option variant_array.
Variable nc_dispatch : Z -> bool.

(** A plan that succeeds has logged nothing. *)
Lemma execute_plan_quiet (md : reader_metadata) (request : teca_metadata)
    (plan : request_plan) (plog : list event) :
  execute_plan index_of bounds_to_extent md request = (Some plan, plog) ->
  plog = [].
Proof.
  unfold execute_plan.
  destruct (md_coordinates md) as [coords|]; [|discriminate].
  destruct (coord_x coords), (coord_y coords), (coord_z coords),
           (coord_t coords); try discriminate.
  unfold bind at 1.
  destruct (request_time index_of request l2) as [[tt|] tlog] eqn:Ht;
    [|discriminate].
  assert (tlog = []) as ->.
  { revert Ht. unfold request_time.
    destruct (md_get_double request "time").
    - destruct (index_of l2 f); [|discriminate]. now intros [= _ <-].
    - repeat match goal with
             | |- context [if ?b then _ else _] => destruct b
             end; try discriminate; now intros [= _ <-]. }
  destruct (md_whole_extent md); [|discriminate].
  unfold bind.
  match goal with
  | |- context [request_extent ?a ?b ?c ?d ?e ?f] =>
      destruct (request_extent a b c d e f) as [[eb|] elog] eqn:He
  end; [|discriminate].
  assert (elog = []) as ->.
  { revert He. unfold request_extent.
    destruct (md_get_doubles request "bounds" 6).
    - destruct (bounds_to_extent _ _ _ _); [|discriminate].
      now intros [= _ <-].
    - now intros [= _ <-]. }
  destruct (md_step_count md); [|discriminate].
  now intros [= _ <-].
Qed.

(** C1.  A request whose time step [i] lies below the total number of
    steps is served from the file [f] whose cumulative step range contains
    [i] (there is exactly one such file), at the local offset
    [o = i - steps_before f]: every NetCDF read of [execute] goes to that
    file, each requested mesh variable is read as the hyperslab of the
    mesh layout, and with a time axis variable that hyperslab starts at
    [o] along time. *)
Theorem execute_reads_step_from_its_file
    (r : teca_cf_reader) (md : reader_metadata) (request : teca_metadata)
    (plan : request_plan) (plog : list event)
    (root : string) (files : list string)
    (atrs : gmap string array_attributes) :
  execute_plan index_of bounds_to_extent md request = (Some plan, plog) ->
  let sc := plan_step_count plan in
  let i := plan_time_step plan in
  Forall is_ulong sc ->
  Z.of_nat (length sc) < 2 ^ 32 ->
  sum_ulong sc < 2 ^ 64 ->
  0 <= i < sum_ulong sc ->
  md_root md = Some root ->
  md_files md = Some files ->
  length files = length sc ->
  md_attributes md = Some atrs ->
  exists (f : nat) (file : string),
    (f < length sc)%nat
    /\ steps_before f sc <= i < steps_before (S f) sc
    /\ (forall g : nat,
          steps_before g sc <= i < steps_before (S g) sc -> g = f)
    /\ files !! f = Some file
    /\ locate_file sc i = Some (Z.of_nat f, i - steps_before f sc)
    /\ let o := i - steps_before f sc in
       let path := (root ++ PATH_SEP ++ file)%string in
       let layout := execute_layout r (plan_extent plan) o in
       (t_axis_variable r <> "" -> exists st, starts layout = o :: st)
       /\ (nc_open path = true ->
           exists mesh elog,
             execute index_of bounds_to_extent nc_open nc_get_vara
               nc_dispatch r md request = Finished (Some mesh, elog)
             /\ (forall p id st ct,
                   In (NcGetVara p id st ct) elog -> p = path)
             /\ (forall name type id dims dim_names,
                   In name (plan_arrays plan) ->
                   array_metadata atrs name
                     = Some (type, id, dims, dim_names) ->
                   is_mesh_variable dim_names (mesh_dim_names layout)
                     = true ->
                   nc_dispatch type = true ->
                   In (NcGetVara path id (starts layout) (counts layout))
                      elog)).
Proof.
  intros Hplan sc i Hpos Hlen Hsum Hi Hroot Hfiles Hnfiles Hatrs.
  destruct (locate_file_finds sc i Hpos Hlen Hsum Hi) as (f & Hloc & Hf & Hint).
  destruct (lookup_lt_is_Some_2 files f ltac:(lia)) as [file Hfile].
  exists f, file. repeat split; try lia; try assumption.
  - intros g Hg. eapply steps_interval_unique; eauto.
  - apply execute_layout_time_first.
  - intros Hopen.
    unfold execute. rewrite Hplan. fold sc i. rewrite Hloc.
    unfold bind, execute_read. rewrite Hroot, Hfiles.
    rewrite Nat2Z.id, Hfile. unfold lift, bind. simpl fst. simpl snd.
    rewrite Hopen. simpl negb. cbv iota. rewrite Hatrs.
    match goal with
    | |- context [read_arrays ?a ?b ?c ?d ?e ?f ?g ?h ?i] =>
        set (rd := read_arrays a b c d e f g h i)
    end.
    exists (fst rd), (plog ++ [NcOpen (root ++ PATH_SEP ++ file)%string]
                        ++ snd rd).
    split; [reflexivity|]. split.
    + intros p id st ct. rewrite !in_app_iff. simpl.
      intros [Hin|[[Hin|[]]|Hin]]; try discriminate.
      * rewrite (execute_plan_quiet _ _ _ _ Hplan) in Hin. destruct Hin.
      * eapply read_arrays_path, Hin.
    + intros name type id dims dim_names Hin Hmd Hmesh Htype.
      rewrite !in_app_iff. right. right.
      eapply read_arrays_mesh_variable; eauto.
Qed.

(** [execute] once the plan is made, the file is found and opens. *)
Lemma execute_served
    (r : teca_cf_reader) (md : reader_metadata) (request : teca_metadata)
    (plan : request_plan) (plog : list event) (idx offs : Z)
    (root file : string) (files : list string)
    (atrs : gmap string array_attributes) :
  execute_plan index_of bounds_to_extent md request = (Some plan, plog) ->
  locate_file (plan_step_count plan) (plan_time_step plan)
    = Some (idx, offs) ->
  md_root md = Some root ->
  md_files md = Some files ->
  files !! Z.to_nat idx = Some file ->
  nc_open (root ++ PATH_SEP ++ file)%string = true ->
  md_attributes md = Some atrs ->
  let rd := read_arrays nc_get_vara nc_dispatch r atrs
              (root ++ PATH_SEP ++ file)%string
              (execute_layout r (plan_extent plan) offs) offs
              (execute_mesh r plan atrs) (plan_arrays plan) in
  execute index_of bounds_to_extent nc_open nc_get_vara nc_dispatch
    r md request
  = Finished (Some (fst rd),
              NcOpen (root ++ PATH_SEP ++ file)%string :: snd rd).
Proof.
  intros Hplan Hloc Hroot Hfiles Hfile Hopen Hatrs rd.
  unfold execute. rewrite Hplan, Hloc.
  rewrite (execute_plan_quiet _ _ _ _ Hplan).
  unfold bind, execute_read. rewrite Hroot, Hfiles, Hfile.
  unfold lift, bind. simpl fst. simpl snd.
  rewrite Hopen. simpl negb. cbv iota. rewrite Hatrs. reflexivity.
Qed.



(** C6, as the code has it.  A requested array whose attribute metadata
    does not resolve (the array is not among the reported attributes, or
    its type code, id, dimensions or dimension names are missing) is
    reported with an error record and skipped: once the request is
    planned and the file of the step opens, [execute] returns a mesh, not
    null, and the mesh holds no array of that name. *)
Theorem execute_skips_unresolved_array
    (r : teca_cf_reader) (md : reader_metadata) (request : teca_metadata)
    (plan : request_plan) (plog : list event) (idx offs : Z)
    (root file : string) (files : list string)
    (atrs : gmap string array_attributes) (name : string) :
  execute_plan index_of bounds_to_extent md request = (Some plan, plog) ->
  locate_file (plan_step_count plan) (plan_time_step plan)
    = Some (idx, offs) ->
  md_root md = Some root ->
  md_files md = Some files ->
  files !! Z.to_nat idx = Some file ->
  nc_open (root ++ PATH_SEP ++ file)%string = true ->
  md_attributes md = Some atrs ->
  In name (plan_arrays plan) ->
  array_metadata atrs name = None ->
  exists mesh log,
    execute index_of bounds_to_extent nc_open nc_get_vara nc_dispatch
      r md request = Finished (Some mesh, log)
    /\ In (Log (LogRecord ERROR origin
                  ("metadata issue can't read " ++ name)%string)) log
    /\ ~ In name (map fst (point_arrays mesh))
    /\ ~ In name (map fst (information_arrays mesh)).
Proof.
  intros Hplan Hloc Hroot Hfiles Hfile Hopen Hatrs Hin Hmd.
  pose proof (execute_served r md request plan plog idx offs root file
                files atrs Hplan Hloc Hroot Hfiles Hfile Hopen Hatrs)
    as Hrun.
  simpl in Hrun.
  eexists. eexists. split; [exact Hrun|]. split; [|split].
  - right. now apply read_arrays_reports.
  - intros Hp.
    now apply (read_arrays_skips nc_get_vara nc_dispatch r atrs _ _ offs
                 (plan_arrays plan) (execute_mesh r plan atrs) name Hmd)
      in Hp.
  - intros Hi.
    now apply (read_arrays_skips nc_get_vara nc_dispatch r atrs _ _ offs
                 (plan_arrays plan) (execute_mesh r plan atrs) name Hmd)
      in Hi.
Qed.

End ExecuteLocated.

(** A data set of two files, [a.nc] with two time steps and [b.nc] with
    three, holding the variable [T(time, lat, lon)] on a 2 x 2 mesh. *)
Module TwoFiles.

Definition reader : teca_cf_reader :=
  {| file_names := []; files_regex := "data/.*\.nc";
     metadata_cache_dir := "";
     x_axis_variable := "lon"; y_axis_variable := "lat";
     z_axis_variable := ""; t_axis_variable := "time";
     t_calendar := ""; t_units := ""; filename_time_template := "";
     t_values := [];
     periodic_in_x := 0; periodic_in_y := 0; periodic_in_z := 0;
     thread_pool_size := -1; cache_metadata := 1 |}.

Definition T_attributes : array_attributes :=
  {| cf_type_code := Some 6; cf_id := Some 3;
     cf_dims := Some [5; 2; 2];
     cf_dim_names := Some ["time"; "lat"; "lon"];
     att_calendar := None; att_units := None |}.

Definition attributes : gmap string array_attributes :=
  {[ "T" := T_attributes ]}.

Definition metadata : reader_metadata :=
  {| md_coordinates :=
       Some {| x_variable := Some "lon"; y_variable := Some "lat";
               z_variable := Some "z"; t_variable := Some "time";
               coord_x := Some [0; 1]%float; coord_y := Some [0; 1]%float;
               coord_z := Some [0]%float;
               coord_t := Some [0; 1; 2; 3; 4]%float |};
     md_whole_extent := Some [0; 1; 0; 1; 0; 0];
     md_step_count := Some [2; 3];
     md_root := Some "data";
     md_files := Some ["a.nc"; "b.nc"];
     md_attributes := Some attributes |}.

Definition request (i : Z) : teca_metadata :=
  {[ "time_step" := ULongArray [i]; "arrays" := StringArray ["T"] ]}.

Definition index_of (t : list float) (x : float) : option Z := None.
Definition bounds_to_extent (b x y z : list float) : option (list Z) := None.
Definition nc_open (path : string) : bool := true.
Definition nc_get_vara (path : string) (id type : Z) (starts counts : list Z)
    : option variant_array :=
  Some (DoubleArray [10; 11; 20; 21]%float).
Definition nc_dispatch (type : Z) : bool := true.

Definition plan : request_plan :=
  {| plan_coords := {| x_variable := Some "lon"; y_variable := Some "lat";
               z_variable := Some "z"; t_variable := Some "time";
               coord_x := Some [0; 1]%float; coord_y := Some [0; 1]%float;
               coord_z := Some [0]%float;
               coord_t := Some [0; 1; 2; 3; 4]%float |};
     plan_time_step := 3;
     plan_time := 3%float;
     plan_whole_extent := [0; 1; 0; 1; 0; 0];
     plan_extent := [0; 1; 0; 1; 0; 0];
     plan_bounds := [0; 1; 0; 1; 0; 0]%float;
     plan_arrays := ["T"];
     plan_out_x := [0; 1]%float;
     plan_out_y := [0; 1]%float;
     plan_out_z := [0]%float;
     plan_step_count := [2; 3] |}.

End TwoFiles.

(** Step 3 of the two files is step 1 of [b.nc]. *)
Lemma execute_reads_step_from_its_file_witness :
  exists mesh elog,
    execute TwoFiles.index_of TwoFiles.bounds_to_extent TwoFiles.nc_open
      TwoFiles.nc_get_vara TwoFiles.nc_dispatch
      TwoFiles.reader TwoFiles.metadata (TwoFiles.request 3)
    = Finished (Some mesh, elog)
    /\ In (NcGetVara "data/b.nc" 3 [1; 0; 0] [1; 2; 2]) elog.
Proof.
  destruct (execute_reads_step_from_its_file
              TwoFiles.index_of TwoFiles.bounds_to_extent TwoFiles.nc_open
              TwoFiles.nc_get_vara TwoFiles.nc_dispatch
              TwoFiles.reader TwoFiles.metadata (TwoFiles.request 3)
              TwoFiles.plan [] "data" ["a.nc"; "b.nc"] TwoFiles.attributes)
    as (f & file & Hf & Hint & Huniq & Hfile & Hloc & Hstart & Hread).
  - vm_compute. reflexivity.
  - repeat constructor; unfold is_ulong; simpl; lia.
  - simpl. lia.
  - simpl. lia.
  - simpl. lia.
  - reflexivity.
  - reflexivity.
  - reflexivity.
  - reflexivity.
  - assert (f = 1%nat) as ->.
    { change (locate_file _ _) with (Some (1, 1)) in Hloc. 
      injection Hloc as Hf1 _. lia. }
    injection Hfile as <-.
    destruct (Hread eq_refl) as (mesh & elog & Hexec & _ & Hmesh).
    exists mesh, elog. split; [exact Hexec|].
    apply (Hmesh "T" 6 3 [5; 2; 2] ["time"; "lat"; "lon"]); reflexivity || (simpl; tauto).
Defined.


(** A request for [Q], a variable the two files do not hold. *)
Definition request_Q : teca_metadata :=
  {[ "time_step" := ULongArray [3]; "arrays" := StringArray ["Q"; "T"] ]}.

(** C6 fails as stated: the request for the absent [Q] is answered with a
    mesh, which holds [T] alone. *)
Lemma execute_absent_array_returns_mesh :
  TwoFiles.attributes !! "Q" = None
  /\ exists mesh,
       execute TwoFiles.index_of TwoFiles.bounds_to_extent TwoFiles.nc_open
         TwoFiles.nc_get_vara TwoFiles.nc_dispatch
         TwoFiles.reader TwoFiles.metadata request_Q
       = Finished
           (Some mesh,
            [ NcOpen "data/b.nc";
              Log (LogRecord ERROR origin "metadata issue can't read Q");
              NcGetVara "data/b.nc" 3 [1; 0; 0] [1; 2; 2] ])
       /\ map fst (point_arrays mesh) = ["T"]
       /\ information_arrays mesh = [].
Proof.
  split; [vm_compute; reflexivity|].
  eexists. split; [vm_compute; reflexivity|]. split; reflexivity.
Qed.

Lemma execute_skips_unresolved_array_witness :
  exists mesh log,
    execute TwoFiles.index_of TwoFiles.bounds_to_extent TwoFiles.nc_open
      TwoFiles.nc_get_vara TwoFiles.nc_dispatch
      TwoFiles.reader TwoFiles.metadata request_Q
    = Finished (Some mesh, log)
    /\ In (Log (LogRecord ERROR origin "metadata issue can't read Q")) log
    /\ ~ In "Q" (map fst (point_arrays mesh))
    /\ ~ In "Q" (map fst (information_arrays mesh)).
Proof.
  refine (execute_skips_unresolved_array
            TwoFiles.index_of TwoFiles.bounds_to_extent TwoFiles.nc_open
            TwoFiles.nc_get_vara TwoFiles.nc_dispatch
            TwoFiles.reader TwoFiles.metadata request_Q
            _ [] 1 1 "data" "b.nc" ["a.nc"; "b.nc"] TwoFiles.attributes "Q"
            _ _ _ _ _ _ _ _ _);
    try (vm_compute; reflexivity).
  vm_compute. tauto.
Defined.

End CfReaderExecute.

Module CfReaderCache.
Import CfReader.
Local Open Scope Z_scope.

(** The characters [std::hex] writes. *)
Definition is_hex_digit (c : ascii) : bool :=
  existsb (Ascii.eqb c) (list_ascii_of_string "0123456789abcdef").

Lemma hex_byte_length (b : Byte.byte) : String.length (hex_byte b) = 2%nat.
Proof. destruct b; reflexivity. Qed.

Lemma hex_byte_digits (b : Byte.byte) :
  forallb is_hex_digit (list_ascii_of_string (hex_byte b)) = true.
Proof. destruct b; vm_compute; reflexivity. Qed.

Lemma string_length_append (a b : string) :
  String.length (a ++ b) = (String.length a + String.length b)%nat.
Proof.
  induction a as [|c a IH]; [reflexivity|].
  change (String c a ++ b)%string with (String c (a ++ b)).
  simpl. now rewrite IH.
Qed.

Lemma list_ascii_append (a b : string) :
  list_ascii_of_string (a ++ b)
  = (list_ascii_of_string a ++ list_ascii_of_string b)%list.
Proof.
  induction a as [|c a IH]; [reflexivity|].
  change (String c a ++ b)%string with (String c (a ++ b)).
  simpl. now rewrite IH.
Qed.

Section Key.

Variable TECA_VERSION_DESCR : string.
Variable SHA1 : list Byte.byte -> list Byte.byte.

Lemma hex_fold_length (digest : list Byte.byte) (idx : list nat) :
  String.length
    (fold_right
       (fun i oss => (hex_byte (nth i digest Byte.x00) ++ oss)%string)
       EmptyString idx)
  = (2 * length idx)%nat.
Proof.
  induction idx as [|i idx IH]; simpl; [reflexivity|].
  rewrite string_length_append, hex_byte_length, IH. lia.
Qed.

Lemma hex_fold_digits (digest : list Byte.byte) (idx : list nat) :
  forallb is_hex_digit
    (list_ascii_of_string
       (fold_right
          (fun i oss => (hex_byte (nth i digest Byte.x00) ++ oss)%string)
          EmptyString idx)) = true.
Proof.
  induction idx as [|i idx IH]; simpl; [reflexivity|].
  rewrite list_ascii_append, forallb_app, IH, hex_byte_digits. reflexivity.
Qed.

(** The key is 40 hexadecimal digits, whatever the digest function. *)
Lemma create_metadata_cache_key_format (bs : list Byte.byte) :
  let key := create_metadata_cache_key TECA_VERSION_DESCR SHA1 bs in
  String.length key = 40%nat
  /\ forallb is_hex_digit (list_ascii_of_string key) = true.
Proof.
  unfold create_metadata_cache_key. split.
  - now rewrite hex_fold_length.
  - apply hex_fold_digits.
Qed.

End Key.

Section Probe.

Variable file_exists : string -> bool.
Variable read_stream : string -> option (list Byte.byte).

(** The directories the loop visits from index [i] down to 0. *)
Fixpoint probed (dirs : list string) (i : nat) : list string :=
  match i with
  | O => [nth 0 dirs ""]
  | S i' => nth i dirs "" :: probed dirs i'
  end.

Lemma probe_metadata_cache_first (dirs : list string) (key : string)
    (i : nat) :
  fst (probe_metadata_cache file_exists read_stream dirs key i)
  = first_readable file_exists read_stream
      (map (fun dir => metadata_cache_file dir key) (probed dirs i)).
Proof.
  induction i as [|i IH].
  - simpl. destruct (file_exists _); [|reflexivity].
    destruct (read_stream _); reflexivity.
  - cbn [probe_metadata_cache probed map first_readable].
    destruct (file_exists _); [|exact IH].
    destruct (read_stream _); [reflexivity|].
    rewrite w_bind_fst. exact IH.
Qed.

End Probe.

Section Lookup.

Variable TECA_VERSION_DESCR : string.
Variable SHA1 : list Byte.byte -> list Byte.byte.
Variable pack_string : string -> list Byte.byte.
Variable pack_strings : list string -> list Byte.byte.
Variable pack_doubles : list float -> list Byte.byte.
Variable pack_int : Z -> list Byte.byte.
Variable file_exists : string -> bool.
Variable read_stream : string -> option (list Byte.byte).

(** C2, as the code has it.  With metadata caching enabled the reader
    loads the first cache file that exists and reads among
    [<dir>/.<key>.tmd] for the directories, in this order: the user's
    cache directory (only when one is set), the data root, the current
    directory, HOME.  The key is 40 hexadecimal digits. *)
Theorem find_metadata_cache_order
    (home : option string) (r : teca_cf_reader) (path : string)
    (files : list string) :
  cache_metadata r <> 0 ->
  let key := metadata_cache_key TECA_VERSION_DESCR SHA1 pack_string
               pack_strings pack_doubles pack_int r path files in
  let dirs :=
    if empty_string (metadata_cache_dir r)
    then [path; "."; default "." home]
    else [metadata_cache_dir r; path; "."; default "." home] in
  String.length key = 40%nat
  /\ forallb is_hex_digit (list_ascii_of_string key) = true
  /\ fst (find_metadata_cache TECA_VERSION_DESCR SHA1 pack_string
            pack_strings pack_doubles pack_int file_exists read_stream
            home r path files)
     = first_readable file_exists read_stream
         (map (fun dir => (dir ++ "/." ++ key ++ ".tmd")%string) dirs).
Proof.
  intros Hon key dirs.
  destruct (create_metadata_cache_key_format TECA_VERSION_DESCR SHA1
              (metadata_cache_stream pack_string pack_strings pack_doubles
                 pack_int r path files)) as [Hlen Hhex].
  split; [exact Hlen|]. split; [exact Hhex|].
  unfold find_metadata_cache.
  destruct (Z.eqb_spec (cache_metadata r) 0) as [H0|_]; [contradiction|].
  rewrite probe_metadata_cache_first. fold key.
  unfold n_metadata_cache_paths, metadata_cache_path, dirs.
  destruct (empty_string (metadata_cache_dir r)); reflexivity.
Qed.


End Lookup.

(** A build with toy stand-ins for the digest and the encoders, and a file
    system that holds a cache file of the two-file data set in HOME and
    another one next to the data, each with its own contents. *)
Module CachedTwice.

Definition version : string := "teca-test".
Definition digest (data : list Byte.byte) : list Byte.byte :=
  firstn 20 (data ++ repeat Byte.x00 20).
Definition pack_string (s : string) : list Byte.byte :=
  list_byte_of_string s.
Definition pack_strings (l : list string) : list Byte.byte :=
  concat (map list_byte_of_string l).
Definition pack_doubles (l : list float) : list Byte.byte := [].
Definition pack_int (z : Z) : list Byte.byte := [].

Definition key : string :=
  Eval vm_compute in
    metadata_cache_key version digest pack_string pack_strings pack_doubles
      pack_int CfReaderExecute.TwoFiles.reader "data" ["a.nc"; "b.nc"].

Definition home_cache : string :=
  Eval vm_compute in ("/home/u/." ++ key ++ ".tmd")%string.
Definition data_cache : string :=
  Eval vm_compute in ("data/." ++ key ++ ".tmd")%string.

Definition file_exists (f : string) : bool :=
  String.eqb f home_cache || String.eqb f data_cache.

Definition read_stream (f : string) : option (list Byte.byte) :=
  Some (list_byte_of_string f).


End CachedTwice.

(** C2 fails as stated: with a cache file in HOME and one in the data
    root, probing [HOME, cwd, data-root, user-dir] in that order would load
    the one in HOME; the reader loads the one in the data root. *)
Lemma probe_prefers_data_root_to_home :
  spec_find_metadata_cache CachedTwice.file_exists CachedTwice.read_stream
    (Some "/home/u") CfReaderExecute.TwoFiles.reader "data" CachedTwice.key
  = Some (CachedTwice.home_cache,
          list_byte_of_string CachedTwice.home_cache)
  /\ fst (find_metadata_cache CachedTwice.version CachedTwice.digest
            CachedTwice.pack_string CachedTwice.pack_strings
            CachedTwice.pack_doubles CachedTwice.pack_int
            CachedTwice.file_exists CachedTwice.read_stream
            (Some "/home/u") CfReaderExecute.TwoFiles.reader "data"
            ["a.nc"; "b.nc"])
     = Some (CachedTwice.data_cache,
             list_byte_of_string CachedTwice.data_cache).
Proof. split; vm_compute; reflexivity. Qed.

(** The search of the reader, told by the order of its directories. *)
Lemma find_metadata_cache_order_witness :
  fst (find_metadata_cache CachedTwice.version CachedTwice.digest
         CachedTwice.pack_string CachedTwice.pack_strings
         CachedTwice.pack_doubles CachedTwice.pack_int
         CachedTwice.file_exists CachedTwice.read_stream
         (Some "/home/u") CfReaderExecute.TwoFiles.reader "data"
         ["a.nc"; "b.nc"])
  = first_readable CachedTwice.file_exists CachedTwice.read_stream
      [CachedTwice.data_cache;
       ("./." ++ CachedTwice.key ++ ".tmd")%string;
       CachedTwice.home_cache].
Proof.
  destruct (find_metadata_cache_order CachedTwice.version CachedTwice.digest
              CachedTwice.pack_string CachedTwice.pack_strings
              CachedTwice.pack_doubles CachedTwice.pack_int
              CachedTwice.file_exists CachedTwice.read_stream
              (Some "/home/u") CfReaderExecute.TwoFiles.reader "data"
              ["a.nc"; "b.nc"]) as (_ & _ & Hfind).
  - simpl. lia.
  - rewrite Hfind. reflexivity.
Defined.



End CfReaderCache.

Module CfReaderTimeAxis.
Import CfReader.

Lemma calendar_differs_spec (base : time_base) (c : string) :
  calendar_differs base c = true
  <-> (has_calendar base = false /\ c <> "")
      \/ (has_calendar base = true /\ c <> base_calendar base).
Proof.
  unfold calendar_differs.
  destruct (has_calendar base); simpl.
  - destruct (String.eqb_spec c (base_calendar base)); simpl;
      intuition congruence.
  - rewrite orb_false_r. destruct c; simpl; intuition congruence.
Qed.

Section Loop.

Variable calcalcs_date : float -> string -> string -> option date_time.
Variable calcalcs_coordinate :
  date_time -> string -> string -> option float.

Let file_times := file_times calcalcs_date calcalcs_coordinate.
Let add_files := add_files calcalcs_date calcalcs_coordinate.
Let convert_times := convert_times calcalcs_date calcalcs_coordinate.

Lemma time_error_fst {A} (e : time_axis_error) (msg : string) :
  fst (@time_error A e msg) = inl e.
Proof. reflexivity. Qed.

(** A conversion only fails on a value. *)
Lemma convert_times_error (base : time_base) (units_i : string) (i : nat)
    (p_ti : list float) : forall (j : nat) (e : time_axis_error),
  fst (convert_times base units_i i j p_ti) = inl e ->
  exists j', e = DateFailed i j' \/ e = CoordinateFailed i j'.
Proof.
  induction p_ti as [|x rest IH]; intros j e; unfold convert_times in *;
    simpl; [discriminate|].
  destruct (calcalcs_date _ _ _) as [d|].
  - destruct (calcalcs_coordinate _ _ _) as [offs|].
    + rewrite w_bind_fst.
      destruct (fst (CfReader.convert_times _ _ _ _ _ _ _)) eqn:Hrest;
        simpl; [|discriminate].
      intros [= <-]. eapply IH, Hrest.
    + rewrite time_error_fst. intros [= <-]. eauto.
  - rewrite time_error_fst. intros [= <-]. eauto.
Qed.

(** When a round reports a calendar error. *)
Lemma file_times_calendar_error (base : time_base) (i k : nat)
    (e : time_read) :
  fst (file_times base i e) = inl (CalendarMismatch k)
  <-> k = i
      /\ (exists vals, tr_values e = Some vals /\ vals <> [])
      /\ calendar_differs base (default "" (tr_calendar e)) = true.
Proof.
  unfold file_times, CfReader.file_times.
  destruct (tr_values e) as [[|x vals]|].
  - rewrite time_error_fst. split; [discriminate|].
    intros (_ & (v & [= <-] & Hv) & _). congruence.
  - destruct (calendar_differs base _) eqn:Hcal.
    + rewrite time_error_fst. split.
      * intros [= ->]. split; [reflexivity|]. split; [|reflexivity].
        eexists; split; [reflexivity|discriminate].
      * intros (-> & _). reflexivity.
    + split; [|intros (_ & _ & ?); discriminate].
      destruct (String.eqb _ _); [discriminate|].
      destruct (has_units base); cbn [negb].
      * rewrite w_bind_fst. intros H.
        apply convert_times_error in H. destruct H as [j [H|H]]; discriminate.
      * rewrite time_error_fst. discriminate.
  - rewrite time_error_fst. split; [discriminate|].
    intros (_ & (v & [= ] & _) & _).
Qed.

(** The loop fails at the first file that a round rejects, with the error
    of that round. *)
Lemma add_files_error (base : time_base) (elems : list time_read) :
  forall (k : nat) (step_count : list Z) (t_axis : list float)
         (err : time_axis_error),
  fst (add_files base k elems step_count t_axis) = inl err
  <-> exists (i : nat) (e : time_read),
        elems !! i = Some e
        /\ (forall j e', j < i -> elems !! j = Some e' ->
              exists vs, fst (file_times base (k + j) e') = inr vs)
        /\ fst (file_times base (k + i) e) = inl err.
Proof.
  induction elems as [|e0 rest IH]; intros k step_count t_axis err;
    unfold add_files in *; simpl.
  - split; [discriminate|]. intros (i & e & H & _). now rewrite lookup_nil in H.
  - rewrite w_bind_fst.
    destruct (fst (CfReader.file_times _ _ base k e0)) as [err0|vals] eqn:H0.
    + simpl. split.
      * intros [= <-]. exists 0, e0. rewrite Nat.add_0_r.
        repeat split; [|exact H0]. intros j e' Hj. lia.
      * intros (i & e & Hi & Hbefore & Herr). destruct i as [|i].
        -- injection Hi as <-. rewrite Nat.add_0_r in Herr.
           unfold file_times in Herr. congruence.
        -- destruct (Hbefore 0 e0 ltac:(lia) eq_refl) as [vs Hvs].
           rewrite Nat.add_0_r in Hvs. unfold file_times in Hvs. congruence.
    + rewrite IH. split.
      * intros (i & e & Hi & Hbefore & Herr). exists (S i), e.
        split; [exact Hi|]. split.
        -- intros [|j] e' Hj He'.
           ++ injection He' as <-. rewrite Nat.add_0_r. eauto.
           ++ replace (k + S j) with (S k + j) by lia.
              apply Hbefore; [lia|exact He'].
        -- replace (k + S i) with (S k + i) by lia. exact Herr.
      * intros (i & e & Hi & Hbefore & Herr). destruct i as [|i].
        -- injection Hi as <-. rewrite Nat.add_0_r in Herr.
           unfold file_times in Herr. congruence.
        -- exists i, e. split; [exact Hi|]. split.
           ++ intros j e' Hj He'.
              replace (S k + j) with (k + S j) by lia.
              apply Hbefore; [lia|exact He'].
           ++ replace (S k + i) with (k + S i) by lia. exact Herr.
Qed.

(** The value of file [i] in base units. *)
Definition convert_value (base : time_base) (units_i : string) (x : float)
    : option float :=
  match calcalcs_date x units_i (base_calendar base) with
  | Some d => calcalcs_coordinate d (base_units base) (base_calendar base)
  | None => None
  end.

Fixpoint convert_values (base : time_base) (units_i : string)
    (p_ti : list float) : option (list float) :=
  match p_ti with
  | [] => Some []
  | x :: rest =>
      match convert_value base units_i x,
            convert_values base units_i rest with
      | Some y, Some ys => Some (y :: ys)
      | _, _ => None
      end
  end.

Lemma convert_times_values (base : time_base) (units_i : string) (i : nat)
    (p_ti : list float) : forall (j : nat) (out : list float),
  convert_values base units_i p_ti = Some out ->
  fst (convert_times base units_i i j p_ti) = inr out.
Proof.
  induction p_ti as [|x rest IH]; intros j out; unfold convert_times in *;
    simpl.
  - now intros [= <-].
  - unfold convert_value.
    destruct (calcalcs_date _ _ _) as [d|]; [|discriminate].
    destruct (calcalcs_coordinate _ _ _) as [offs|]; [|discriminate].
    destruct (convert_values _ _ rest) as [out'|] eqn:Hrest; [|discriminate].
    intros [= <-]. rewrite w_bind_fst, (IH (S j) out' eq_refl). reflexivity.
Qed.

(** C4, as the code has it.  Building the time axis from files fails with
    the calendar error at file [i] exactly when every earlier file was
    accepted, file [i] has time values and either the base time variable
    has a calendar (its attribute or the [t_calendar] override) and the
    calendar of file [i] is another one (none counts as another one), or
    the base has no calendar and file [i] names one, whichever it is.  A
    file that passes the calendar test with units other than the base
    units is converted value by value when the base has units, and is an
    error when it has none. *)
Theorem time_axis_calendar_error
    (r : teca_cf_reader) (time_atts : option array_attributes)
    (elems : list time_read) :
  let base := fst (time_axis_base r time_atts) in
  (forall i : nat,
     fst (time_axis_from_files calcalcs_date calcalcs_coordinate
            r time_atts elems) = inl (CalendarMismatch i)
     <-> exists (e : time_read) (vals : list float),
           elems !! i = Some e
           /\ (forall j e', j < i -> elems !! j = Some e' ->
                 exists vs, fst (file_times base j e') = inr vs)
           /\ tr_values e = Some vals /\ vals <> []
           /\ ((has_calendar base = false
                /\ default "" (tr_calendar e) <> "")
               \/ (has_calendar base = true
                   /\ default "" (tr_calendar e) <> base_calendar base)))
  /\ (forall (i : nat) (e : time_read) (x : float) (vals : list float),
        tr_values e = Some (x :: vals) ->
        calendar_differs base (default "" (tr_calendar e)) = false ->
        default "" (tr_units e) <> base_units base ->
        (has_units base = false ->
         fst (file_times base i e) = inl (UnitsRequired i))
        /\ (has_units base = true ->
            forall out,
              convert_values base (default "" (tr_units e)) (x :: vals)
                = Some out ->
              fst (file_times base i e) = inr out)).
Proof.
  intros base. split.
  - intros i.
    assert (forall e,
              fst (file_times base i e) = inl (CalendarMismatch i)
              <-> exists vals,
                    tr_values e = Some vals /\ vals <> []
                    /\ ((has_calendar base = false
                         /\ default "" (tr_calendar e) <> "")
                        \/ (has_calendar base = true
                            /\ default "" (tr_calendar e)
                               <> base_calendar base)))
      as Hfile.
    { intros e. rewrite file_times_calendar_error, calendar_differs_spec.
      split.
      - intros (_ & (v & Hv & Hne) & Hcal). eauto.
      - intros (v & Hv & Hne & Hcal). eauto. }
    assert (fst (add_files base 0 elems [] []) = inl (CalendarMismatch i)
            <-> exists (e : time_read) (vals : list float),
                  elems !! i = Some e
                  /\ (forall j e', j < i -> elems !! j = Some e' ->
                        exists vs, fst (file_times base j e') = inr vs)
                  /\ tr_values e = Some vals /\ vals <> []
                  /\ ((has_calendar base = false
                       /\ default "" (tr_calendar e) <> "")
                      \/ (has_calendar base = true
                          /\ default "" (tr_calendar e)
                             <> base_calendar base)))
      as Hloop.
    { rewrite add_files_error. simpl. split.
      - intros (i' & e & Hi & Hbefore & Herr).
        assert (i' = i) as ->.
        { apply file_times_calendar_error in Herr. now destruct Herr. }
        apply Hfile in Herr. destruct Herr as (vals & Hv & Hne & Hcal).
        exists e, vals. eauto.
      - intros (e & vals & Hi & Hbefore & Hv & Hne & Hcal).
        exists i, e. split; [exact Hi|]. split; [exact Hbefore|].
        apply Hfile. eauto. }
    rewrite <- Hloop.
    unfold time_axis_from_files. rewrite w_bind_fst. fold base.
    destruct elems as [|e0 rest].
    + rewrite time_error_fst. simpl. split; discriminate.
    + destruct (tr_values e0) as [v0|] eqn:Hv0.
      * rewrite w_bind_fst. unfold add_files.
        destruct (fst (CfReader.add_files _ _ base 0 (e0 :: rest) [] []))
          as [err|[step_count t_axis]]; [reflexivity|].
        destruct (t_values r); [split; discriminate|].
        rewrite w_bind_fst.
        destruct (_ =? _)%nat; [split; discriminate|].
        rewrite time_error_fst. split; discriminate.
      * rewrite time_error_fst. split; [discriminate|].
        unfold add_files. simpl. rewrite w_bind_fst.
        unfold CfReader.file_times at 1. rewrite Hv0, time_error_fst.
        simpl. discriminate.
  - intros i e x vals Hv Hcal Hunits.
    unfold file_times, CfReader.file_times. rewrite Hv, Hcal.
    destruct (String.eqb_spec (default "" (tr_units e)) (base_units base))
      as [Heq|_]; [contradiction|].
    split; intros Hhas; rewrite Hhas; cbn [negb].
    + apply time_error_fst.
    + intros out Hout. rewrite w_bind_fst.
      now apply convert_times_values.
Qed.

End Loop.

(** Two files in the same units; the first has no calendar attribute
    and the second names the standard calendar. *)
Module MixedCalendars.

Definition time_atts : array_attributes :=
  {| cf_type_code := Some 6%Z; cf_id := Some 0%Z;
     cf_dims := Some [2%Z]; cf_dim_names := Some ["time"];
     att_calendar := None;
     att_units := Some "days since 2000-01-01" |}.

Definition a_nc : time_read :=
  {| tr_file := "a.nc"; tr_values := Some [0; 1]%float;
     tr_calendar := None;
     tr_units := Some "days since 2000-01-01" |}.

Definition b_nc : time_read :=
  {| tr_file := "b.nc"; tr_values := Some [2; 3]%float;
     tr_calendar := Some "standard";
     tr_units := Some "days since 2000-01-01" |}.

Definition no_date (x : float) (units calendar : string)
    : option date_time := None.
Definition no_coordinate (d : date_time) (units calendar : string)
    : option float := None.

End MixedCalendars.

(** C4 fails as stated: the base calendar is [standard], the calendar of
    the second file is [standard], and the reader reports a calendar
    error at that file. *)
Lemma agreeing_calendar_is_rejected :
  base_calendar
    (fst (time_axis_base CfReaderExecute.TwoFiles.reader
            (Some MixedCalendars.time_atts))) = "standard"
  /\ tr_calendar MixedCalendars.b_nc = Some "standard"
  /\ fst (time_axis_from_files MixedCalendars.no_date
            MixedCalendars.no_coordinate CfReaderExecute.TwoFiles.reader
            (Some MixedCalendars.time_atts)
            [MixedCalendars.a_nc; MixedCalendars.b_nc])
     = inl (CalendarMismatch 1).
Proof. repeat split; vm_compute; reflexivity. Qed.

End CfReaderTimeAxis.

Module VorticityRequest.
Import Vorticity.

(** The request translation leaves every key but [arrays] as it was. *)
Lemma get_upstream_request_other_keys (self : teca_vorticity)
    (request up : teca_metadata) (key : string) :
  In up (fst (get_upstream_request self request)) ->
  key <> "arrays" ->
  up !! key = request !! key.
Proof.
  unfold get_upstream_request.
  destruct (empty_string (get_component_0_variable self request));
    [intros []|].
  destruct (empty_string (get_component_1_variable self request));
    [intros []|].
  simpl. intros [<-|[]] Hkey. unfold insert_arrays.
  now rewrite lookup_insert_ne.
Qed.

(** With both component properties set, the upstream request asks for
    them, and never for the vorticity variable. *)
Lemma get_upstream_request_properties (self : teca_vorticity)
    (request : teca_metadata) :
  component_0_variable self <> "" ->
  component_1_variable self <> "" ->
  exists up arrays,
    get_upstream_request self request = ([up], [])
    /\ md_get_strings up "arrays" = Some arrays
    /\ (component_0_variable self <> get_vorticity_variable self request ->
        In (component_0_variable self) arrays)
    /\ (component_1_variable self <> get_vorticity_variable self request ->
        In (component_1_variable self) arrays)
    /\ ~ In (get_vorticity_variable self request) arrays.
Proof.
  intros H0 H1. unfold get_upstream_request.
  assert (get_component_0_variable self request = component_0_variable self)
    as ->.
  { unfold get_component_0_variable.
    destruct (component_0_variable self); [contradiction|reflexivity]. }
  assert (get_component_1_variable self request = component_1_variable self)
    as ->.
  { unfold get_component_1_variable.
    destruct (component_1_variable self); [contradiction|reflexivity]. }
  destruct (component_0_variable self) eqn:E0; [contradiction|].
  destruct (component_1_variable self) eqn:E1; [contradiction|].
  simpl empty_string. cbv iota.
  eexists. eexists. split; [reflexivity|].
  unfold insert_arrays, md_get_strings. rewrite lookup_insert_eq.
  split; [reflexivity|].
  split; [|split].
  - intros Hne. rewrite <- list_elem_of_In, elem_of_elements. set_solver.
  - intros Hne. rewrite <- list_elem_of_In, elem_of_elements. set_solver.
  - intros Hin. apply list_elem_of_In, elem_of_elements in Hin.
    apply elem_of_difference in Hin. destruct Hin as [_ Hin].
    apply Hin. now apply elem_of_singleton.
Qed.

(** The stage with its default properties, asked for the vorticity of the
    wind named in the request. *)
Definition by_request : teca_vorticity :=
  {| component_0_variable := "";
     component_1_variable := "";
     vorticity_variable := "vorticity" |}.

Definition wind_request : teca_metadata :=
  {[ "teca_vorticity::component_0_variable" := StringArray ["U"];
     "teca_vorticity::component_1_variable" := StringArray ["V"];
     "arrays" := StringArray ["vorticity"];
     "time_step" := ULongArray [0%Z] ]}.

(** C5 at the failing input: the components resolve to [U] and [V] from
    the request, and the upstream request asks for the empty name the
    properties hold, not for [U] or [V]. *)
Theorem get_upstream_request_drops_requested_components :
  get_component_0_variable by_request wind_request = "U"
  /\ get_component_1_variable by_request wind_request = "V"
  /\ exists up,
       get_upstream_request by_request wind_request = ([up], [])
       /\ md_get_strings up "arrays" = Some [""]
       /\ up !! "time_step" = wind_request !! "time_step".
Proof.
  split; [vm_compute; reflexivity|]. split; [vm_compute; reflexivity|].
  eexists. split; [reflexivity|]. split; vm_compute; reflexivity.
Qed.

End VorticityRequest.

(** ** Binary64 facts the kernels rest on *)

Module FloatFacts.

Local Open Scope float_scope.

(** A number that is neither a NaN nor a zero: what a division of zero
    needs below it to give zero. *)
Definition regular (d : float) : Prop :=
  is_nan d = false /\ is_zero d = false.

(** Plus or minus zero. *)
Definition zero_valued (x : float) : Prop := x = 0 \/ x = -0.

Lemma Prim2SF_zero : Prim2SF 0 = S754_zero false.
Proof. reflexivity. Qed.

Lemma Prim2SF_neg_zero : Prim2SF (-0) = S754_zero true.
Proof. reflexivity. Qed.

Lemma Prim2SF_infinity : Prim2SF infinity = S754_infinity false.
Proof. reflexivity. Qed.

Lemma zero_valued_spec (x : float) (s : bool) :
  Prim2SF x = S754_zero s -> zero_valued x.
Proof.
  intros H. destruct s; [right|left]; apply Prim2SF_inj; rewrite H;
    reflexivity.
Qed.

Lemma is_nan_spec (x : float) :
  is_nan x = false -> Prim2SF x <> S754_nan.
Proof.
  unfold is_nan. rewrite FloatAxioms.eqb_spec. intros H E. rewrite E in H. discriminate.
Qed.

Lemma is_zero_spec (x : float) (s : bool) :
  is_zero x = false -> Prim2SF x <> S754_zero s.
Proof.
  unfold is_zero. rewrite FloatAxioms.eqb_spec. intros H E. rewrite E in H.
  discriminate.
Qed.

Lemma is_finite_spec (x : float) :
  is_finite x = true ->
  (exists s, Prim2SF x = S754_zero s)
  \/ (exists s m e, Prim2SF x = S754_finite s m e).
Proof.
  unfold is_finite, is_nan, is_infinity.
  rewrite !FloatAxioms.eqb_spec, FloatAxioms.abs_spec, Prim2SF_infinity.
  destruct (Prim2SF x) as [s| s | |s m e]; simpl; try discriminate; eauto.
  destruct s; discriminate.
Qed.

(** [x - x] is [+0] for every finite [x]. *)
Lemma sub_diag (x : float) : is_finite x = true -> x - x = 0.
Proof.
  intros H. apply Prim2SF_inj. rewrite FloatAxioms.sub_spec, Prim2SF_zero.
  destruct (is_finite_spec x H) as [[s E]|(s & m & e & E)]; rewrite E.
  - destruct s; reflexivity.
  - unfold SF64sub, SFsub. rewrite Z.sub_diag. reflexivity.
Qed.

(** Zero divided by a regular number is a zero. *)
Lemma zero_div_regular (x d : float) :
  zero_valued x -> regular d -> zero_valued (x / d).
Proof.
  intros Hx [Hnan Hzero].
  assert (exists s, Prim2SF x = S754_zero s) as [sx Ex].
  { destruct Hx as [->| ->]; eexists; reflexivity. }
  pose proof (is_nan_spec d Hnan) as Hn.
  destruct (Prim2SF d) as [s| s | |s m e] eqn:Ed.
  - exfalso. eapply is_zero_spec; eauto.
  - apply (zero_valued_spec _ (xorb sx s)). now rewrite FloatAxioms.div_spec, Ex, Ed.
  - congruence.
  - apply (zero_valued_spec _ (xorb sx s)). now rewrite FloatAxioms.div_spec, Ex, Ed.
Qed.

Lemma zero_sub_zero (x y : float) :
  zero_valued x -> zero_valued y -> zero_valued (x - y).
Proof.
  intros [->| ->] [->| ->]; vm_compute; auto.
Qed.

Lemma half_of_zero (x : float) : zero_valued x -> zero_valued (0.5 * x).
Proof. intros [->| ->]; vm_compute; auto. Qed.

(** A zero is 0 to any tolerance. *)
Lemma zero_valued_within (x : float) :
  zero_valued x ->
  (x =? 0) = true /\ (abs x <=? 0x1.19799812dea11p-40) = true.
Proof. intros [->| ->]; split; reflexivity. Qed.

(** A NaN poisons what is computed from it. *)
Lemma sub_nan (x : float) : x - nan = nan.
Proof.
  apply Prim2SF_inj. rewrite FloatAxioms.sub_spec.
  change (Prim2SF nan) with S754_nan.
  unfold SF64sub, SFsub. now destruct (Prim2SF x).
Qed.

(** A finite number times zero is a zero. *)
Lemma finite_mul_zero (x : float) :
  is_finite x = true -> zero_valued (x * 0).
Proof.
  intros H.
  destruct (is_finite_spec x H) as [[s E]|(s & m & e & E)];
    apply (zero_valued_spec _ (xorb s false));
    rewrite FloatAxioms.mul_spec, E; reflexivity.
Qed.

End FloatFacts.

Module VorticityKernel.
Import Vorticity FloatFacts.

(** *** Arrays filled by loops *)

Lemma fold_insert_length {A} (g : nat -> nat) (f : nat -> A)
    (idx : list nat) : forall w : list A,
  length (fold_left (fun w i => <[g i := f i]> w) idx w) = length w.
Proof.
  induction idx as [|i idx IH]; intros w; simpl; [reflexivity|].
  now rewrite IH, length_insert.
Qed.

(** A loop that stores [f i] at [base + i] for [i] from [a] to
    [a + n - 1]. *)
Lemma row_lookup {A} (f : nat -> A) (base : nat) :
  forall (n a : nat) (w : list A) (k : nat),
    k < length w ->
    fold_left (fun w i => <[base + i := f i]> w) (seq a n) w !! k
    = if decide (base + a <= k < base + a + n)
      then Some (f (k - base))
      else w !! k.
Proof.
  induction n as [|n IH]; intros a w k Hk; simpl.
  - destruct (decide _); [lia|reflexivity].
  - rewrite IH by now rewrite length_insert.
    destruct (decide (base + S a <= k < base + S a + n)) as [H|H].
    + destruct (decide _); [reflexivity|lia].
    + destruct (decide (k = base + a)) as [->|Hne].
      * rewrite list_lookup_insert_eq by exact Hk.
        destruct (decide _); [|lia]. f_equal. f_equal. lia.
      * rewrite list_lookup_insert_ne by lia.
        destruct (decide _); [lia|reflexivity].
Qed.

(** The two nested loops of the kernel, over rows [b .. b + m - 1] and
    columns [1 .. max_i - 1] of an array of row length [nx]. *)
Lemma rows_lookup {A} (cell : nat -> nat -> A) (nx max_i : nat) :
  max_i <= nx ->
  forall (m b : nat) (w : list A) (j i : nat),
    i < nx -> j * nx + i < length w ->
    fold_left
      (fun w j =>
         fold_left (fun w i => <[j * nx + i := cell j i]> w)
           (seq 1 (max_i - 1)) w)
      (seq b m) w !! (j * nx + i)
    = if decide (b <= j < b + m /\ 1 <= i < max_i)
      then Some (cell j i)
      else w !! (j * nx + i).
Proof.
  intros Hmax. induction m as [|m IH]; intros b w j i Hi Hk; simpl.
  - destruct (decide _); [lia|reflexivity].
  - rewrite IH; [|exact Hi|now rewrite fold_insert_length].
    destruct (decide (S b <= j < S b + m /\ 1 <= i < max_i)) as [H|H].
    + destruct (decide _); [reflexivity|lia].
    + rewrite (row_lookup (cell b) (b * nx)) by exact Hk.
      destruct (Nat.lt_trichotomy j b) as [Hjb|[->|Hjb]].
      * assert (S j * nx <= b * nx) by (apply Nat.mul_le_mono_r; lia).
        rewrite Nat.mul_succ_l in *.
        destruct (decide (b * nx + 1 <= _ < _)); [lia|].
        destruct (decide _); [lia|reflexivity].
      * destruct (decide (b * nx + 1 <= _ < _)) as [Hin|Hin];
          destruct (decide _) as [Hc|Hc]; try lia; [|reflexivity].
        f_equal. f_equal. lia.
      * assert (S b * nx <= j * nx) by (apply Nat.mul_le_mono_r; lia).
        rewrite Nat.mul_succ_l in *.
        destruct (decide (b * nx + 1 <= _ < _)); [lia|].
        destruct (decide _); [lia|reflexivity].
Qed.

Section Constant.

Local Open Scope float_scope.

Variable cos : float -> float.

(** The tolerance of the specification, 1e-12 as a double. *)
Definition tolerance : float := 0x1.19799812dea11p-40.

(** Interior points get the finite-difference value, the others keep the
    zero of the [memset]. *)
Lemma vorticity_lookup (lat lon comp_0 comp_1 : list float)
    (nx ny j i : nat) :
  (j < ny)%nat -> (i < nx)%nat ->
  rd (vorticity cos lat lon comp_0 comp_1 nx ny) (j * nx + i)
  = if decide (1 <= j < ny - 1 /\ 1 <= i < nx - 1)%nat
    then vorticity_at (compute_dx cos lat lon nx) (compute_dy lat ny)
           comp_0 comp_1 nx j i
    else 0.
Proof.
  intros Hj Hi. unfold rd at 1, vorticity. rewrite nth_lookup.
  assert (j * nx + i < nx * ny)%nat as Hk.
  { assert (S j * nx <= ny * nx)%nat by (apply Nat.mul_le_mono_r; lia).
    rewrite Nat.mul_succ_l in *. lia. }
  rewrite (rows_lookup
             (vorticity_at (compute_dx cos lat lon nx) (compute_dy lat ny)
                comp_0 comp_1 nx) nx (nx - 1));
    [|lia|exact Hi|now rewrite length_replicate].
  destruct (decide (1 <= j < 1 + (ny - 1 - 1) /\ 1 <= i < nx - 1)%nat)
    as [H|H]; destruct (decide (1 <= j < ny - 1 /\ 1 <= i < nx - 1)%nat)
    as [H'|H']; try lia; [reflexivity|].
  now rewrite lookup_replicate_2.
Qed.

(** On constant finite winds every interior value is a zero, provided the
    grid spacings under the two differences are regular. *)
Lemma vorticity_at_constant (dx dy comp_0 comp_1 : list float)
    (nx ny j i : nat) (c0 c1 : float) :
  (forall k, k < nx * ny -> rd comp_0 k = c0)%nat ->
  (forall k, k < nx * ny -> rd comp_1 k = c1)%nat ->
  is_finite c0 = true -> is_finite c1 = true ->
  (1 <= j < ny - 1)%nat -> (1 <= i < nx - 1)%nat ->
  regular (rd dx i) -> regular (rd dy j) ->
  zero_valued (vorticity_at dx dy comp_0 comp_1 nx j i).
Proof.
  intros H0 H1 Hc0 Hc1 Hj Hi Hdx Hdy. unfold vorticity_at.
  assert (S (S j) * nx <= ny * nx)%nat as Hrows
    by (apply Nat.mul_le_mono_r; lia).
  rewrite !Nat.mul_succ_l in Hrows.
  rewrite !H1, !H0 by lia.
  rewrite (sub_diag c1 Hc1), (sub_diag c0 Hc0).
  apply half_of_zero, zero_sub_zero; apply zero_div_regular;
    solve [now left | assumption].
Qed.

(** C7, as the code has it.  On a mesh of [nx] longitudes and [ny]
    latitudes with [2 <= nx <= ny] (so that the latitude reads of the
    longitude loop stay in the array), for wind components that are
    constant finite numbers and grid spacings [dx[i]], [dy[j]] that are
    neither zero nor NaN at the interior indices, the kernel stores a zero
    at every interior point, hence 0 within 1e-12, and leaves 0 at the
    boundary points.  On the 3 x 3 mesh of the specification, with
    [cos 0 = 1], all nine values are 0. *)
Theorem vorticity_of_constant_wind :
  (forall (lon lat comp_0 comp_1 : list float) (c0 c1 : float),
     let nx := length lon in
     let ny := length lat in
     (2 <= nx)%nat -> (nx <= ny)%nat ->
     length comp_0 = (nx * ny)%nat -> length comp_1 = (nx * ny)%nat ->
     (forall k, k < nx * ny -> rd comp_0 k = c0)%nat ->
     (forall k, k < nx * ny -> rd comp_1 k = c1)%nat ->
     is_finite c0 = true -> is_finite c1 = true ->
     (forall i, 1 <= i < nx - 1 ->
        regular (rd (compute_dx cos lat lon nx) i))%nat ->
     (forall j, 1 <= j < ny - 1 ->
        regular (rd (compute_dy lat ny) j))%nat ->
     forall j i : nat, (j < ny)%nat -> (i < nx)%nat ->
       let w := rd (execute_kernel cos lon lat comp_0 comp_1)
                  (j * nx + i) in
       if decide (1 <= j < ny - 1 /\ 1 <= i < nx - 1)%nat
       then (w =? 0) = true /\ (abs w <=? tolerance) = true
       else w = 0)
  /\ (cos 0 = 1 ->
      execute_kernel cos [0; 10; 20] [10; 0; -10]
        (replicate 9 1) (replicate 9 1)
      = replicate 9 0).
Proof.
  split.
  - intros lon lat comp_0 comp_1 c0 c1 nx ny Hnx Hny Hl0 Hl1 H0 H1 Hc0 Hc1
      Hdx Hdy j i Hj Hi w.
    unfold w, execute_kernel. fold nx ny. rewrite vorticity_lookup by assumption.
    destruct (decide _) as [[Hjj Hii]|_]; [|reflexivity].
    apply zero_valued_within.
    eapply (vorticity_at_constant _ _ comp_0 comp_1 nx ny); eauto.
  - intros Hcos. unfold execute_kernel, vorticity, compute_dx.
    simpl length. cbn [seq map Nat.sub].
    change (rd [10; 0; -10] 1 * deg_to_rad) with 0.
    rewrite Hcos. vm_compute. reflexivity.
Qed.

End Constant.

(** A polynomial stand-in for the cosine of the C library, exact at 0. *)
Definition cos_taylor (x : float) : float :=
  (1 - x * x / 2 + x * x * x * x / 24)%float.

Lemma constant_nine (k : nat) : k < 3 * 3 -> rd (replicate 9 1%float) k = 1%float.
Proof.
  intros Hk. do 9 (destruct k as [|k]; [reflexivity|]). lia.
Qed.

(** The interior point of the 3 x 3 mesh of the specification. *)
Lemma vorticity_of_constant_wind_witness :
  let w := rd (execute_kernel cos_taylor [0; 10; 20]%float
                 [10; 0; -10]%float (replicate 9 1%float)
                 (replicate 9 1%float)) 4 in
  (w =? 0)%float = true /\ (abs w <=? tolerance)%float = true.
Proof.
  refine (proj1 (vorticity_of_constant_wind cos_taylor)
            [0; 10; 20]%float [10; 0; -10]%float
            (replicate 9 1%float) (replicate 9 1%float) 1%float 1%float
            _ _ _ _ constant_nine constant_nine _ _ _ _ 1 1 _ _);
    try (simpl; lia); try reflexivity.
  - intros i Hi. simpl in Hi. assert (i = 1) as -> by lia.
    split; vm_compute; reflexivity.
  - intros j Hj. simpl in Hj. assert (j = 1) as -> by lia.
    split; vm_compute; reflexivity.
Defined.

(** C7 fails as stated: on a 3 x 3 mesh whose three latitudes coincide,
    [dy] is zero, and the kernel stores a NaN at the interior point for
    the constant wind 1, whatever the cosine. *)
Lemma vorticity_nan_on_repeated_latitudes :
  ~ exists cos : float -> float,
      (abs (rd (execute_kernel cos [0; 10; 20]%float [0; 0; 0]%float
                  (replicate 9 1%float) (replicate 9 1%float)) 4)
       <=? tolerance)%float = true.
Proof.
  intros [cos H]. revert H. unfold execute_kernel. simpl length.
  change 4 with (1 * 3 + 1).
  rewrite vorticity_lookup by lia.
  destruct (decide _) as [_|Hn]; [|simpl in Hn; lia].
  unfold vorticity_at.
  replace ((rd (replicate 9 1) (1 * 3 - 3 + 1)
            - rd (replicate 9 1) (1 * 3 + 3 + 1))
           / rd (compute_dy [0; 0; 0] 3) 1)%float
    with nan by (vm_compute; reflexivity).
  rewrite sub_nan. vm_compute. discriminate.
Qed.

End VorticityKernel.

Module VerticalIntegralColumn.
Import VerticalIntegral FloatFacts.

Local Open Scope float_scope.

(** The stage of scenario S4: hybrid coordinates, the model top pressure
    given by the override, [q] integrated into [q_int]. *)
Definition stage : teca_vertical_integral :=
  {| long_name := "integrated_var"; units := "unknown";
     hybrid_a_variable := "a_bnds"; hybrid_b_variable := "b_bnds";
     sigma_variable := "sigma_bnds"; surface_p_variable := "ps";
     p_top_variable := "ptop";
     using_hybrid := 1;
     p_top_override_value := 100;
     integration_variable := "q";
     output_variable_name := "q_int" |}.

(** The same stage reading the model top pressure from the mesh. *)
Definition stage_p_top_from_mesh : teca_vertical_integral :=
  {| long_name := "integrated_var"; units := "unknown";
     hybrid_a_variable := "a_bnds"; hybrid_b_variable := "b_bnds";
     sigma_variable := "sigma_bnds"; surface_p_variable := "ps";
     p_top_variable := "ptop";
     using_hybrid := 1;
     p_top_override_value := 0;
     integration_variable := "q";
     output_variable_name := "q_int" |}.

(** The 1 x 1 x 4 mesh of S4 over a surface pressure [p]. *)
Definition column (p : float) : mesh :=
  {| extent := [0; 0; 0; 0; 0; 3]%Z;
     whole_extent := [0; 0; 0; 0; 0; 3]%Z;
     bounds := [0; 0; 0; 0; 0; 3];
     z_coordinates := [0; 1; 2; 3];
     point_arrays := [("q", [1; 1; 1; 1]); ("ptop", [100])];
     information_arrays :=
       [("a_bnds", [0; 0.25; 0.5; 0.75; 1]);
        ("b_bnds", [0; 0; 0; 0; 0]);
        ("ps", [p])] |}.

(** [-(1/9.81) * 1 * 100] and the tolerance 1e-6, as doubles. *)
Definition expected : float := - (1 / 0x1.39eb851eb851fp+3) * 1 * 100.
Definition tolerance : float := 0x1.0c6f7a0b5ed8dp-20.

(** What both stages store in [q_int]. *)
Definition integral : float :=
  rd (vertical_integral [1; 1; 1; 1] 1 1 4 1 [0; 0.25; 0.5; 0.75; 1]
        [0; 0; 0; 0; 0] [101325] 100) 0.

(** The kernel on the column does not see a finite surface pressure. *)
Lemma vertical_integral_column (p : float) :
  is_finite p = true ->
  vertical_integral [1; 1; 1; 1] 1 1 4 1 [0; 0.25; 0.5; 0.75; 1]
    [0; 0; 0; 0; 0] [p] 100
  = [integral].
Proof.
  intros Hp. pose proof (finite_mul_zero p Hp) as Hz.
  vm_compute. vm_compute in Hz.
  destruct Hz as [E|E]; rewrite E; vm_compute; reflexivity.
Qed.

(** C8.  On the 1 x 1 x 4 hybrid column of S4, with the model top
    pressure 100 given by the override property or read from the mesh,
    the stage returns a mesh whose output variable holds one value, the
    same for every finite surface pressure, within 1e-6 of
    [-(1/9.81) * 1 * 100]. *)
Theorem execute_integrates_column (p : float) :
  is_finite p = true ->
  (exists out,
     execute stage (column p) = (Some out, [])
     /\ get_array (point_arrays out) "q_int" = Some [integral])
  /\ (exists out,
        execute stage_p_top_from_mesh (column p) = (Some out, [])
        /\ get_array (point_arrays out) "q_int" = Some [integral])
  /\ (abs (integral - expected) <=? tolerance) = true.
Proof.
  intros Hp. pose proof (finite_mul_zero p Hp) as Hz. vm_compute in Hz.
  split; [|split].
  - eexists. split; [vm_compute; reflexivity|].
    vm_compute. destruct Hz as [E|E]; rewrite E; vm_compute; reflexivity.
  - eexists. split; [vm_compute; reflexivity|].
    vm_compute. destruct Hz as [E|E]; rewrite E; vm_compute; reflexivity.
  - vm_compute. reflexivity.
Qed.

(** A surface pressure of one atmosphere. *)
Lemma execute_integrates_column_witness :
  exists out,
    execute stage (column 101325) = (Some out, [])
    /\ get_array (point_arrays out) "q_int" = Some [integral].
Proof.
  exact (proj1 (execute_integrates_column 101325 eq_refl)).
Defined.

(** A surface pressure that is not a number is not absorbed: NaN times the
    zero [db] is NaN. *)
Lemma nan_pressure_poisons_integral :
  vertical_integral [1; 1; 1; 1] 1 1 4 1 [0; 0.25; 0.5; 0.75; 1]
    [0; 0; 0; 0; 0] [nan] 100
  = [nan].
Proof. vm_compute. reflexivity. Qed.

(** The stage as its constructor leaves it but for the variable names:
    the override is [-1.0], which [!p_top_override_value] takes for an
    override, so the model top pressure of the mesh is not read and the
    integral comes out with the other sign and a hundredth of the size. *)
Definition stage_default_override : teca_vertical_integral :=
  {| long_name := "integrated_var"; units := "unknown";
     hybrid_a_variable := "a_bnds"; hybrid_b_variable := "b_bnds";
     sigma_variable := "sigma_bnds"; surface_p_variable := "ps";
     p_top_variable := "ptop";
     using_hybrid := 1;
     p_top_override_value := -1;
     integration_variable := "q";
     output_variable_name := "q_int" |}.

Lemma default_override_hides_mesh_p_top :
  exists out v,
    execute stage_default_override (column 101325) = (Some out, [])
    /\ get_array (point_arrays out) "q_int" = Some [v]
    /\ (0 <? v) = true
    /\ (abs (v - expected) <=? tolerance) = false.
Proof.
  eexists. eexists. split; [vm_compute; reflexivity|].
  split; [vm_compute; reflexivity|]. split; vm_compute; reflexivity.
Qed.

End VerticalIntegralColumn.

Module DatasetDiffNull.
Import DatasetDiff.

Local Open Scope float_scope.

(** Whatever the comparison answers, [execute] hands back null. *)
Lemma compared_null (call : W Z) (msg : string) :
  fst (compared call msg) = None.
Proof.
  unfold compared. rewrite w_bind_fst.
  destruct (negb _); [rewrite w_bind_fst|]; reflexivity.
Qed.

(** Two inputs of the kinds [execute] compares with each other. *)
Definition same_kind (d0 d1 : teca_dataset) : bool :=
  match d0, d1 with
  | Table _, Table _
  | CartesianMesh _, CartesianMesh _
  | CurvilinearMesh _, CurvilinearMesh _
  | ArakawaCGrid _, ArakawaCGrid _
  | OtherDataset _, _ => true
  | _, _ => false
  end.

(** A reference table of one column, a copy of it within the tolerance
    and one that is off. *)
Module Tables.

Definition tolerance : float := 0x1.0c6f7a0b5ed8dp-20.

Definition reference : teca_dataset :=
  Table {| columns := [("x", Numbers 6 [1; 2; 3])] |}.
Definition close : teca_dataset :=
  Table {| columns := [("x", Numbers 6 [1; 2; 0x1.800001p+1])] |}.
Definition off : teca_dataset :=
  Table {| columns := [("x", Numbers 6 [1; 2; 4])] |}.

Definition dataset_empty (d : teca_dataset) : bool :=
  match d with
  | Table t => (get_number_of_columns t =? 0)%nat
  | _ => false
  end.

End Tables.

(** C9.  Whenever [execute] returns it returns null: for null inputs,
    empty inputs, an unsupported dataset type, inputs that differ and
    inputs that compare equal; it fails to return only for two inputs of
    different supported kinds, where it dereferences a null cast.  So the
    table that is close to the reference and the table that is off both
    give null; only the log tells them apart, which is silent for the
    first and holds error records for the second. *)
Theorem diff_execute_returns_null :
  (forall (tolerance : float) (verbose rank : Z)
          (dataset_empty : teca_dataset -> bool)
          (ds0 ds1 : option teca_dataset),
     match execute tolerance verbose rank dataset_empty ds0 ds1 with
     | Returns result => fst result = None
     | Undefined =>
         exists d0 d1,
           ds0 = Some d0 /\ ds1 = Some d1 /\ same_kind d0 d1 = false
           /\ dataset_empty d0 = false /\ dataset_empty d1 = false
     end)
  /\ execute Tables.tolerance 0 0 Tables.dataset_empty
       (Some Tables.reference) (Some Tables.close)
     = Returns (None, [])
  /\ exists log,
       execute Tables.tolerance 0 0 Tables.dataset_empty
         (Some Tables.reference) (Some Tables.off)
       = Returns (None, log)
       /\ existsb is_error log = true.
Proof.
  split; [|split].
  - intros tolerance verbose rank dataset_empty ds0 ds1. unfold execute.
    destruct ds0 as [d0|], ds1 as [d1|]; try reflexivity.
    destruct (dataset_empty d0) eqn:E0, (dataset_empty d1) eqn:E1; simpl;
      try reflexivity.
    + destruct (rank =? 0)%Z; reflexivity.
    + destruct d0, d1; try apply compared_null; try reflexivity;
        eexists; eexists; repeat split; eassumption.
  - vm_compute. reflexivity.
  - eexists. split; vm_compute; reflexivity.
Qed.

End DatasetDiffNull.

(** ** The files of the data set *)

Module ReportedFiles.
Import CfReader.

Section Files.

Variable file_util_path : string -> string.
Variable file_util_filename : string -> string.
Variable file_util_locate_files : string -> string -> option (list string).

Lemma use_file_name_fold (names : list string) :
  forall acc : string * list string,
    names <> [] ->
    fold_left (use_file_name file_util_path file_util_filename) names acc
    = (file_util_path (List.last names ""),
       snd acc ++ map file_util_filename names).
Proof.
  induction names as [|n rest IH]; intros acc Hne; [congruence|].
  destruct rest as [|n' rest'].
  - reflexivity.
  - change (fold_left ?F (n :: n' :: rest') acc)
      with (fold_left F (n' :: rest') (F acc n)).
    rewrite IH by discriminate.
    unfold use_file_name. cbn [snd map List.last].
    now rewrite <- app_assoc.
Qed.

(** X1.  With [file_names] set, the files of the data set are the file
    parts of the names, in order, and the data root is the directory of
    the last name alone: [files_regex] is not consulted, and files named
    in several directories are all looked for in the directory of the
    last one. *)
Theorem select_files_root_is_last_directory (r : teca_cf_reader) :
  file_names r <> [] ->
  select_files file_util_path file_util_filename file_util_locate_files r
  = ret (file_util_path (List.last (file_names r) ""),
         map file_util_filename (file_names r)).
Proof.
  intros Hne. unfold select_files.
  destruct (file_names r) as [|n rest] eqn:E; [congruence|].
  cbn [length Nat.eqb negb]. now rewrite use_file_name_fold.
Qed.

End Files.

(** Two files named in two directories; paths of the shape [dir/file]
    with names of four characters. *)
Module TwoDirectories.

Definition directory (f : string) : string := substring 0 4 f.
Definition file (f : string) : string := substring 5 4 f.
Definition locate_files (path regex : string) : option (list string) := None.

Definition reader : teca_cf_reader :=
  {| file_names := ["run1/a.nc"; "run2/b.nc"]; files_regex := "";
     metadata_cache_dir := "";
     x_axis_variable := "lon"; y_axis_variable := "lat";
     z_axis_variable := ""; t_axis_variable := "time";
     t_calendar := ""; t_units := ""; filename_time_template := "";
     t_values := [];
     periodic_in_x := 0; periodic_in_y := 0; periodic_in_z := 0;
     thread_pool_size := -1; cache_metadata := 1 |}.

End TwoDirectories.

Lemma select_files_root_is_last_directory_witness :
  select_files TwoDirectories.directory TwoDirectories.file
    TwoDirectories.locate_files TwoDirectories.reader
  = ret ("run2", ["a.nc"; "b.nc"]).
Proof.
  apply (select_files_root_is_last_directory TwoDirectories.directory
           TwoDirectories.file TwoDirectories.locate_files
           TwoDirectories.reader).
  discriminate.
Defined.

End ReportedFiles.

(** ** Writing the metadata cache, and finding it again *)

Module CacheWritten.
Import CfReader.
Local Open Scope Z_scope.

Section Write.

Variable TECA_VERSION_DESCR : string.
Variable SHA1 : list Byte.byte -> list Byte.byte.
Variable pack_string : string -> list Byte.byte.
Variable pack_strings : list string -> list Byte.byte.
Variable pack_doubles : list float -> list Byte.byte.
Variable pack_int : Z -> list Byte.byte.
Variable write_stream : string -> list Byte.byte -> bool.

(** The first file of a list of candidates that can be written. *)
Fixpoint first_writable (candidates : list string) (stream : list Byte.byte)
    : option string :=
  match candidates with
  | [] => None
  | f :: rest =>
      if write_stream f stream then Some f else first_writable rest stream
  end.

Lemma write_metadata_cache_first (dirs : list string) (key : string)
    (stream : list Byte.byte) (i : nat) :
  fst (write_metadata_cache write_stream dirs key stream i)
  = first_writable
      (map (fun dir => metadata_cache_file dir key)
         (CfReaderCache.probed dirs i)) stream.
Proof.
  induction i as [|i IH].
  - simpl. now destruct (write_stream _ _).
  - cbn [write_metadata_cache CfReaderCache.probed map first_writable].
    destruct (write_stream _ _); [reflexivity|exact IH].
Qed.

Lemma write_metadata_cache_quiet (dirs : list string) (key : string)
    (stream : list Byte.byte) (i : nat) :
  forall e, In e (snd (write_metadata_cache write_stream dirs key stream i))
            -> is_error e = false.
Proof.
  induction i as [|i IH]; cbn [write_metadata_cache];
    destruct (write_stream _ _); simpl; intros e H;
    try (destruct H as [<-|[]]; reflexivity); try contradiction.
  now apply IH.
Qed.

Lemma first_writable_writes (candidates : list string)
    (stream : list Byte.byte) (f : string) :
  first_writable candidates stream = Some f ->
  write_stream f stream = true.
Proof.
  induction candidates as [|c rest IH]; simpl; [discriminate|].
  destruct (write_stream c stream) eqn:E; [|exact IH].
  now intros [= <-].
Qed.

(** X2.  With metadata caching enabled, the generated metadata is written
    to [<dir>/.<key>.tmd] for the first directory that can be written
    among, in this order, the user's cache directory (only when one is
    set), the data root, the current directory and HOME; the error that no
    cache could be created is reported exactly when none of them can. *)
Theorem cache_metadata_on_disk_order
    (home : option string) (r : teca_cf_reader) (path : string)
    (files : list string) (stream : list Byte.byte) :
  cache_metadata r <> 0 ->
  let key := metadata_cache_key TECA_VERSION_DESCR SHA1 pack_string
               pack_strings pack_doubles pack_int r path files in
  let dirs :=
    if empty_string (metadata_cache_dir r)
    then [path; "."; default "." home]
    else [metadata_cache_dir r; path; "."; default "." home] in
  let run := cache_metadata_on_disk TECA_VERSION_DESCR SHA1 pack_string
               pack_strings pack_doubles pack_int write_stream
               home r path files stream in
  fst run
  = first_writable
      (map (fun dir => (dir ++ "/." ++ key ++ ".tmd")%string) dirs) stream
  /\ (fst run = None
      <-> In (Log (LogRecord ERROR cache_origin
                     "failed to create a metadata cache")) (snd run)).
Proof.
  intros Hon key dirs run.
  assert (fst run
          = first_writable
              (map (fun dir => (dir ++ "/." ++ key ++ ".tmd")%string) dirs)
              stream) as Hfst.
  { unfold run, cache_metadata_on_disk.
    destruct (Z.eqb_spec (cache_metadata r) 0) as [H0|_]; [contradiction|].
    rewrite w_bind_fst. fold key.
    destruct (fst (write_metadata_cache _ _ _ _ _)) as [f|] eqn:Hw;
      rewrite write_metadata_cache_first in Hw; cbn [fst w_ret];
      rewrite <- Hw; unfold n_metadata_cache_paths, metadata_cache_path, dirs;
      destruct (empty_string (metadata_cache_dir r)); reflexivity. }
  split; [exact Hfst|].
  unfold run, cache_metadata_on_disk.
  destruct (Z.eqb_spec (cache_metadata r) 0) as [H0|_]; [contradiction|].
  rewrite w_bind_fst, w_bind_snd. fold key.
  match goal with
  | |- context [write_metadata_cache ?w ?d ?k ?s ?i] =>
      pose proof (write_metadata_cache_quiet d k s i) as Hquiet;
      destruct (fst (write_metadata_cache w d k s i)) as [f|]
  end.
  - cbn [fst snd w_ret]. rewrite app_nil_r. split; [discriminate|].
    intros Hin. apply Hquiet in Hin. discriminate.
  - split; [intros _|reflexivity].
    apply in_or_app. right. simpl. now left.
Qed.

Section Found.

Variable file_exists file_exists' : string -> bool.
Variable read_stream read_stream' : string -> option (list Byte.byte).

Lemma written_is_first_readable (candidates : list string)
    (stream : list Byte.byte) (f : string) :
  first_readable file_exists read_stream candidates = None ->
  first_writable candidates stream = Some f ->
  file_exists' f = true ->
  read_stream' f = Some stream ->
  (forall p, p <> f ->
     file_exists' p = file_exists p /\ read_stream' p = read_stream p) ->
  first_readable file_exists' read_stream' candidates = Some (f, stream).
Proof.
  intros Hold Hw Hex Hrd Hsame.
  induction candidates as [|c rest IH]; simpl in *; [discriminate|].
  destruct (write_stream c stream) eqn:Ew.
  - injection Hw as ->. now rewrite Hex, Hrd.
  - assert (c <> f) as Hne.
    { intros ->. apply first_writable_writes in Hw. congruence. }
    destruct (Hsame c Hne) as [-> ->].
    destruct (file_exists c).
    + destruct (read_stream c); [discriminate|]. now apply IH.
    + now apply IH.
Qed.

(** X3.  A metadata cache that was written is the one found next time:
    when the lookup found no readable cache file and the write succeeded
    at a file, a lookup by the same reader configuration on the files as
    they are after the write (the written file exists and reads back as
    the stream, every other file is as before) loads that file. *)
Theorem cache_written_is_found
    (home : option string) (r : teca_cf_reader) (path : string)
    (files : list string) (stream : list Byte.byte) (f : string) :
  cache_metadata r <> 0 ->
  fst (find_metadata_cache TECA_VERSION_DESCR SHA1 pack_string
         pack_strings pack_doubles pack_int file_exists read_stream
         home r path files) = None ->
  fst (cache_metadata_on_disk TECA_VERSION_DESCR SHA1 pack_string
         pack_strings pack_doubles pack_int write_stream
         home r path files stream) = Some f ->
  file_exists' f = true ->
  read_stream' f = Some stream ->
  (forall p, p <> f ->
     file_exists' p = file_exists p /\ read_stream' p = read_stream p) ->
  fst (find_metadata_cache TECA_VERSION_DESCR SHA1 pack_string
         pack_strings pack_doubles pack_int file_exists' read_stream'
         home r path files) = Some (f, stream).
Proof.
  intros Hon Hold Hw Hex Hrd Hsame.
  unfold find_metadata_cache, cache_metadata_on_disk in *.
  destruct (Z.eqb_spec (cache_metadata r) 0) as [H0|_]; [contradiction|].
  rewrite CfReaderCache.probe_metadata_cache_first in *.
  rewrite w_bind_fst in Hw.
  destruct (fst (write_metadata_cache _ _ _ _ _)) as [g|] eqn:Hg;
    [|discriminate].
  cbn [fst w_ret] in Hw. injection Hw as ->.
  rewrite write_metadata_cache_first in Hg.
  eapply written_is_first_readable; eauto.
Qed.

End Found.

End Write.

(** A file system that holds no cache file and lets the reader write in
    the current directory only. *)
Module FreshCache.

Definition cwd_cache : string :=
  Eval vm_compute in ("./." ++ CfReaderCache.CachedTwice.key ++ ".tmd")%string.

Definition write_stream (f : string) (stream : list Byte.byte) : bool :=
  String.eqb f cwd_cache.

Definition file_exists (f : string) : bool := false.
Definition read_stream (f : string) : option (list Byte.byte) := None.

Definition stream : list Byte.byte := list_byte_of_string "metadata".

Definition file_exists' (f : string) : bool := String.eqb f cwd_cache.
Definition read_stream' (f : string) : option (list Byte.byte) :=
  if String.eqb f cwd_cache then Some stream else None.

End FreshCache.

Lemma cache_metadata_on_disk_order_witness :
  fst (cache_metadata_on_disk CfReaderCache.CachedTwice.version
         CfReaderCache.CachedTwice.digest
         CfReaderCache.CachedTwice.pack_string
         CfReaderCache.CachedTwice.pack_strings
         CfReaderCache.CachedTwice.pack_doubles
         CfReaderCache.CachedTwice.pack_int FreshCache.write_stream
         (Some "/home/u") CfReaderExecute.TwoFiles.reader "data"
         ["a.nc"; "b.nc"] FreshCache.stream)
  = Some FreshCache.cwd_cache.
Proof.
  destruct (cache_metadata_on_disk_order CfReaderCache.CachedTwice.version
              CfReaderCache.CachedTwice.digest
              CfReaderCache.CachedTwice.pack_string
              CfReaderCache.CachedTwice.pack_strings
              CfReaderCache.CachedTwice.pack_doubles
              CfReaderCache.CachedTwice.pack_int FreshCache.write_stream
              (Some "/home/u") CfReaderExecute.TwoFiles.reader "data"
              ["a.nc"; "b.nc"] FreshCache.stream) as [Hfst _].
  - simpl. lia.
  - rewrite Hfst. vm_compute. reflexivity.
Defined.

Lemma cache_written_is_found_witness :
  fst (find_metadata_cache CfReaderCache.CachedTwice.version
         CfReaderCache.CachedTwice.digest
         CfReaderCache.CachedTwice.pack_string
         CfReaderCache.CachedTwice.pack_strings
         CfReaderCache.CachedTwice.pack_doubles
         CfReaderCache.CachedTwice.pack_int
         FreshCache.file_exists' FreshCache.read_stream'
         (Some "/home/u") CfReaderExecute.TwoFiles.reader "data"
         ["a.nc"; "b.nc"])
  = Some (FreshCache.cwd_cache, FreshCache.stream).
Proof.
  apply (cache_written_is_found CfReaderCache.CachedTwice.version
           CfReaderCache.CachedTwice.digest
           CfReaderCache.CachedTwice.pack_string
           CfReaderCache.CachedTwice.pack_strings
           CfReaderCache.CachedTwice.pack_doubles
           CfReaderCache.CachedTwice.pack_int
           FreshCache.write_stream
           FreshCache.file_exists FreshCache.file_exists'
           FreshCache.read_stream FreshCache.read_stream'
           (Some "/home/u") CfReaderExecute.TwoFiles.reader "data"
           ["a.nc"; "b.nc"] FreshCache.stream FreshCache.cwd_cache).
  - simpl. lia.
  - vm_compute. reflexivity.
  - vm_compute. reflexivity.
  - vm_compute. reflexivity.
  - vm_compute. reflexivity.
  - intros p Hp. unfold FreshCache.file_exists', FreshCache.read_stream',
      FreshCache.file_exists, FreshCache.read_stream.
    destruct (String.eqb_spec p FreshCache.cwd_cache); [contradiction|].
    split; reflexivity.
Defined.

End CacheWritten.

(** ** Operations that may give up *)

Lemma bind_fst {A B} (m : M A) (k : A -> M B) :
  fst (bind m k) = match fst m with
                   | Some a => fst (k a)
                   | None => None
                   end.
Proof. destruct m as [[a|] l]; simpl; [now destruct (k a)|reflexivity]. Qed.

Lemma bind_snd {A B} (m : M A) (k : A -> M B) :
  snd (bind m k) = match fst m with
                   | Some a => snd m ++ snd (k a)
                   | None => snd m
                   end.
Proof. destruct m as [[a|] l]; simpl; [now destruct (k a)|reflexivity]. Qed.

(** ** The time axis the reader reports *)

Module ReportedTimeAxis.
Import CfReader CfReaderLocate.
Local Open Scope Z_scope.

Lemma sum_replicate_ones (n : nat) : sum_ulong (replicate n 1) = Z.of_nat n.
Proof. induction n as [|n IH]; simpl replicate; simpl sum_ulong; lia. Qed.

Lemma Forall_replicate_ones (n : nat) :
  Forall (fun c => 1 <= c) (replicate n 1).
Proof. induction n; simpl; constructor; [lia|assumption]. Qed.

Lemma positive_counts_sum (sc : list Z) :
  Forall (fun c => 1 <= c) sc -> 0 <= sum_ulong sc.
Proof. induction 1; simpl; lia. Qed.

Lemma positive_counts_are_ulong (sc : list Z) :
  Forall (fun c => 1 <= c) sc -> sum_ulong sc < 2 ^ 64 ->
  Forall is_ulong sc.
Proof.
  induction 1 as [|c sc Hc Hsc IH]; simpl; intros Hsum; constructor.
  - pose proof (positive_counts_sum sc Hsc). unfold is_ulong. lia.
  - apply IH. lia.
Qed.

Section Report.

Variable calcalcs_date : float -> string -> string -> option date_time.
Variable calcalcs_coordinate :
  date_time -> string -> string -> option float.
Variable read_variable_and_attributes :
  string -> string -> string
  -> option (list float) * option string * option string.
Variable get_time : string -> string -> option tm.
Variable strftime : string -> tm -> option string.

Lemma convert_times_length (base : time_base) (units_i : string) (i : nat)
    (p_ti : list float) : forall (j : nat) (out : list float),
  fst (convert_times calcalcs_date calcalcs_coordinate base units_i i j p_ti)
  = inr out ->
  length out = length p_ti.
Proof.
  induction p_ti as [|x rest IH]; intros j out; simpl.
  - now intros [= <-].
  - destruct (calcalcs_date _ _ _) as [d|]; [|discriminate].
    destruct (calcalcs_coordinate _ _ _) as [offs|]; [|discriminate].
    rewrite w_bind_fst.
    destruct (fst (convert_times _ _ _ _ _ _ rest)) as [e|out'] eqn:Hrest;
      simpl; [discriminate|].
    intros [= <-]. simpl. f_equal. eapply IH, Hrest.
Qed.

(** A file that is accepted adds at least one time value. *)
Lemma file_times_count (base : time_base) (i : nat) (e : time_read)
    (vals : list float) :
  fst (file_times calcalcs_date calcalcs_coordinate base i e) = inr vals ->
  (1 <= length vals)%nat.
Proof.
  unfold file_times.
  destruct (tr_values e) as [[|x tmp]|]; try discriminate.
  destruct (calendar_differs base _); [discriminate|].
  destruct (String.eqb _ _).
  - intros [= <-]. simpl. lia.
  - destruct (has_units base); cbn [negb]; [|discriminate].
    rewrite w_bind_fst. intros H. apply convert_times_length in H.
    rewrite H. simpl. lia.
Qed.

Lemma add_files_counts (base : time_base) (elems : list time_read) :
  forall (k : nat) (sc : list Z) (t : list float)
         (sc' : list Z) (t' : list float),
    fst (add_files calcalcs_date calcalcs_coordinate base k elems sc t)
    = inr (sc', t') ->
    exists counts,
      sc' = sc ++ counts
      /\ length counts = length elems
      /\ Forall (fun c => 1 <= c) counts
      /\ Z.of_nat (length t') = Z.of_nat (length t) + sum_ulong counts.
Proof.
  induction elems as [|e rest IH]; intros k sc t sc' t'; simpl.
  - intros [= <- <-]. exists []. rewrite app_nil_r. simpl.
    repeat split; [constructor|lia].
  - rewrite w_bind_fst.
    destruct (fst (file_times _ _ base k e)) as [err|vals] eqn:Hf;
      simpl; [discriminate|].
    intros H. apply IH in H. destruct H as (counts & -> & Hlen & Hpos & Hsum).
    exists (Z.of_nat (length vals) :: counts).
    rewrite <- app_assoc. simpl. rewrite length_app in Hsum.
    apply file_times_count in Hf.
    repeat split; [lia| |lia]. constructor; [lia|assumption].
Qed.

Lemma time_axis_from_files_counts (r : teca_cf_reader)
    (time_atts : option array_attributes) (elems : list time_read)
    (sc : list Z) (t : list float) :
  fst (time_axis_from_files calcalcs_date calcalcs_coordinate r time_atts
         elems) = inr (sc, t) ->
  length sc = length elems
  /\ Forall (fun c => 1 <= c) sc
  /\ sum_ulong sc = Z.of_nat (length t).
Proof.
  unfold time_axis_from_files. rewrite w_bind_fst.
  destruct elems as [|e0 rest]; [discriminate|].
  destruct (tr_values e0) as [v0|]; [|discriminate].
  rewrite w_bind_fst.
  destruct (fst (add_files _ _ _ 0 (e0 :: rest) [] []))
    as [err|[sc0 t0]] eqn:Ha; [discriminate|].
  apply add_files_counts in Ha.
  destruct Ha as (counts & -> & Hlen & Hpos & Hsum).
  cbn [app] in *. simpl length in Hsum.
  destruct (t_values r) as [|tv tvs] eqn:Htv.
  - intros [= <- <-]. repeat split; [exact Hlen|exact Hpos|lia].
  - rewrite w_bind_fst.
    destruct (length (tv :: tvs) =? length t0)%nat eqn:E; [|discriminate].
    intros [= <- <-]. apply Nat.eqb_eq in E.
    repeat split; [exact Hlen|exact Hpos|]. rewrite E. lia.
Qed.

Lemma infer_times_length (r : teca_cf_reader) (files : list string) :
  forall (t_units t_calendar : string) (i : nat)
         (units : string) (ts : list float),
    fst (infer_times calcalcs_coordinate get_time strftime r t_units
           t_calendar i files) = Some (units, ts) ->
    length ts = length files.
Proof.
  induction files as [|file rest IH]; intros t_units t_calendar i units ts;
    cbn [infer_times].
  - now intros [= _ <-].
  - destruct (get_time _ _) as [current_tm|]; [|discriminate].
    rewrite bind_fst.
    destruct ((i =? 0)%nat && empty_string t_units);
      [destruct (strftime _ _) as [tmp|]; [|discriminate]|];
      cbn [ret fail fst];
      (destruct (calcalcs_coordinate _ _ _) as [current_time|];
       [|discriminate]);
      rewrite bind_fst;
      (destruct (fst (infer_times _ _ _ _ _ _ _ rest)) as [[u' ts']|] eqn:Hrest;
       [|discriminate]);
      intros [= _ <-]; simpl; f_equal; eapply IH, Hrest.
Qed.

(** What every way to a time axis keeps. *)
Lemma report_time_axis_invariant (r : teca_cf_reader)
    (time_atts : option array_attributes) (path : string)
    (files : list string) (sc : list Z) (t : list float) (var : string) :
  fst (report_time_axis calcalcs_date calcalcs_coordinate
         read_variable_and_attributes get_time strftime
         r time_atts path files) = Some (sc, t, var) ->
  length sc = length files
  /\ Forall (fun c => 1 <= c) sc
  /\ sum_ulong sc = Z.of_nat (length t)
  /\ var = (if empty_string (t_axis_variable r) then "time"
            else t_axis_variable r).
Proof.
  unfold report_time_axis.
  destruct (empty_string (t_axis_variable r)); cbn [negb].
  - destruct (length (t_values r) =? 0)%nat; cbn [negb].
    + destruct (empty_string (filename_time_template r)); cbn [negb].
      * unfold dummy_time_axis. simpl. intros [= <- <- <-].
        rewrite length_replicate, length_map, length_seq, sum_replicate_ones.
        repeat split. apply Forall_replicate_ones.
      * rewrite bind_fst. unfold time_axis_from_filenames.
        rewrite bind_fst.
        destruct (fst (infer_times _ _ _ _ _ _ _ _)) as [[u ts]|] eqn:Hi;
          [|discriminate].
        apply infer_times_length in Hi. simpl. intros [= <- <- <-].
        rewrite length_replicate, sum_replicate_ones.
        repeat split; [exact Hi|apply Forall_replicate_ones].
    + rewrite bind_fst. unfold time_axis_from_values. rewrite bind_fst.
      cbn [lift fst TECA_STATUS emit].
      destruct (_ || _); [discriminate|].
      destruct (length (t_values r) =? length files)%nat eqn:E;
        cbn [negb]; [|discriminate].
      apply Nat.eqb_eq in E. simpl. intros [= <- <- <-].
      rewrite length_replicate, sum_replicate_ones.
      repeat split; [exact E|apply Forall_replicate_ones].
  - match goal with
    | |- context [time_axis_from_files ?a ?b ?c ?d ?e] =>
        destruct (time_axis_from_files a b c d e)
          as [[err|[sc0 t0]] log] eqn:Hf
    end; [discriminate|].
    intros [= <- <- <-].
    assert (fst (time_axis_from_files calcalcs_date calcalcs_coordinate r
                   time_atts
                   (map (fun file =>
                           let '(values, calendar, units) :=
                             read_variable_and_attributes path file
                               (t_axis_variable r) in
                           {| tr_file := file; tr_values := values;
                              tr_calendar := calendar; tr_units := units |})
                      files)) = inr (sc0, t0)) as Hf'
      by now rewrite Hf.
    apply time_axis_from_files_counts in Hf'.
    rewrite length_map in Hf'. destruct Hf' as (H1 & H2 & H3).
    repeat split; assumption.
Qed.

(** X4.  Whichever way the reader comes to its time axis (the time
    variable of the files, the [t_values] given, the dates in the file
    names, or one made-up step per file), the metadata it reports has one
    step count per file, every count at least 1, and the counts add up to
    the number of time values; the axis is reported under
    [t_axis_variable], or under the name [time] when that is empty. *)
Theorem report_time_axis_counts_steps (r : teca_cf_reader)
    (time_atts : option array_attributes) (path : string)
    (files : list string) (sc : list Z) (t : list float) (var : string) :
  fst (report_time_axis calcalcs_date calcalcs_coordinate
         read_variable_and_attributes get_time strftime
         r time_atts path files) = Some (sc, t, var) ->
  length sc = length files
  /\ Forall (fun c => 1 <= c) sc
  /\ sum_ulong sc = Z.of_nat (length t)
  /\ var = (if empty_string (t_axis_variable r) then "time"
            else t_axis_variable r).
Proof. apply report_time_axis_invariant. Qed.

(** X5.  Every step of a reported time axis is found in a file: for the
    step counts the reader reports and a time step [i] below the number of
    time values, the file search of [execute] ends at a file [f] of the
    data set with an offset [o] below the step count of that file, and
    [i] is the [o]th step after the steps of the files before [f]. *)
Theorem reported_step_is_located (r : teca_cf_reader)
    (time_atts : option array_attributes) (path : string)
    (files : list string) (sc : list Z) (t : list float) (var : string)
    (i : Z) :
  fst (report_time_axis calcalcs_date calcalcs_coordinate
         read_variable_and_attributes get_time strftime
         r time_atts path files) = Some (sc, t, var) ->
  Z.of_nat (length files) < 2 ^ 32 ->
  Z.of_nat (length t) < 2 ^ 64 ->
  0 <= i < Z.of_nat (length t) ->
  exists (f : nat) (o : Z),
    locate_file sc i = Some (Z.of_nat f, o)
    /\ (f < length files)%nat
    /\ 0 <= o < nth f sc 0
    /\ i = steps_before f sc + o.
Proof.
  intros Hrep Hfiles Ht Hi.
  apply report_time_axis_invariant in Hrep.
  destruct Hrep as (Hlen & Hpos & Hsum & _).
  assert (Forall is_ulong sc) as Hul
    by (apply positive_counts_are_ulong; [assumption|lia]).
  destruct (CfReaderExecute.locate_file_finds sc i Hul ltac:(lia)
              ltac:(lia) ltac:(lia)) as (f & Hloc & Hf & Hint).
  exists f, (i - steps_before f sc).
  rewrite (steps_before_S f sc Hf) in Hint.
  repeat split; [exact Hloc|lia|lia|lia|lia].
Qed.

End Report.

(** Two files read for their time variable, two steps in the first and
    one in the second. *)
Module ThreeSteps.

Definition read_variable_and_attributes (path file var : string)
    : option (list float) * option string * option string :=
  if String.eqb file "a.nc"
  then (Some [0; 1]%float, None, Some "days since 2000-01-01")
  else (Some [2]%float, None, Some "days since 2000-01-01").

Definition get_time (file template : string) : option tm := None.
Definition strftime (format : string) (t : tm) : option string := None.

End ThreeSteps.

Lemma report_time_axis_counts_steps_witness :
  length [2; 1] = length ["a.nc"; "b.nc"]
  /\ Forall (fun c => 1 <= c) [2; 1]
  /\ sum_ulong [2; 1] = Z.of_nat (length [0; 1; 2]%float)
  /\ "time" = "time".
Proof.
  apply (report_time_axis_counts_steps
           CfReaderTimeAxis.MixedCalendars.no_date
           CfReaderTimeAxis.MixedCalendars.no_coordinate
           ThreeSteps.read_variable_and_attributes
           ThreeSteps.get_time ThreeSteps.strftime
           CfReaderExecute.TwoFiles.reader
           (Some CfReaderTimeAxis.MixedCalendars.time_atts)
           "data" ["a.nc"; "b.nc"] [2; 1] [0; 1; 2]%float "time").
  vm_compute. reflexivity.
Defined.

Lemma reported_step_is_located_witness :
  exists (f : nat) (o : Z),
    locate_file [2; 1] 2 = Some (Z.of_nat f, o)
    /\ (f < length ["a.nc"; "b.nc"])%nat
    /\ 0 <= o < nth f [2; 1] 0
    /\ 2 = steps_before f [2; 1] + o.
Proof.
  apply (reported_step_is_located
           CfReaderTimeAxis.MixedCalendars.no_date
           CfReaderTimeAxis.MixedCalendars.no_coordinate
           ThreeSteps.read_variable_and_attributes
           ThreeSteps.get_time ThreeSteps.strftime
           CfReaderExecute.TwoFiles.reader
           (Some CfReaderTimeAxis.MixedCalendars.time_atts)
           "data" ["a.nc"; "b.nc"] [2; 1] [0; 1; 2]%float "time" 2).
  - vm_compute. reflexivity.
  - simpl. lia.
  - simpl. lia.
  - simpl. lia.
Defined.

End ReportedTimeAxis.

(** ** Requests the reader does not check *)

Module UncheckedRequests.
Import CfReader CfReaderLocate.
Local Open Scope Z_scope.




Section ExtentKey.

Variable index_of : list float -> float -> option Z.
Variable bounds_to_extent :
  list float -> list float -> list float -> list float -> option (list Z).
Variable nc_open : string -> bool.
Variable nc_get_vara :
  string -> Z -> Z -> list Z -> list Z -> option variant_array.
Variable nc_dispatch : Z -> bool.


End ExtentKey.



End UncheckedRequests.

(** ** Binary64 comparisons *)

Module FloatCompare.
Import FloatFacts.

Local Open Scope float_scope.

(** There is one NaN. *)
Lemma is_nan_eq (x : float) : is_nan x = true -> x = nan.
Proof.
  unfold is_nan. rewrite FloatAxioms.eqb_spec. intros H.
  apply Prim2SF_inj. change (Prim2SF nan) with S754_nan.
  destruct (Prim2SF x) as [s|s| |s m e]; try reflexivity; exfalso; revert H.
  - discriminate.
  - destruct s; discriminate.
  - unfold SFeqb, SFcompare. rewrite Z.compare_refl.
    change PosDef.Pos.compare_cont with Pos.compare_cont.
    rewrite Pos.compare_cont_refl. destruct s; discriminate.
Qed.

Lemma nan_sub (x : float) : nan - x = nan.
Proof.
  apply Prim2SF_inj. rewrite FloatAxioms.sub_spec.
  change (Prim2SF nan) with S754_nan. reflexivity.
Qed.

Lemma nan_div (x : float) : nan / x = nan.
Proof.
  apply Prim2SF_inj. rewrite FloatAxioms.div_spec.
  change (Prim2SF nan) with S754_nan. reflexivity.
Qed.

Lemma div_nan (x : float) : x / nan = nan.
Proof.
  apply Prim2SF_inj. rewrite FloatAxioms.div_spec.
  change (Prim2SF nan) with S754_nan.
  unfold SF64div, SFdiv. now destruct (Prim2SF x).
Qed.

Lemma eqb_nan_l (x : float) : (nan =? x) = false.
Proof.
  rewrite FloatAxioms.eqb_spec. change (Prim2SF nan) with S754_nan.
  reflexivity.
Qed.

(** Nothing is below a NaN. *)
Lemma ltb_nan_r (t : float) : (t <? nan) = false.
Proof.
  rewrite FloatAxioms.ltb_spec. change (Prim2SF nan) with S754_nan.
  unfold SFltb, SFcompare. now destruct (Prim2SF t).
Qed.

End FloatCompare.

(** ** What the diff takes for equal *)

Module DatasetDiffCompare.
Import DatasetDiff FloatFacts FloatCompare.
Local Open Scope Z_scope.

(** The relative difference to or of a NaN is a NaN. *)
Lemma rel_diff_nan (ref_val comp_val : float) :
  is_nan ref_val = true \/ is_nan comp_val = true ->
  rel_diff ref_val comp_val = nan.
Proof.
  intros [H|H]; apply is_nan_eq in H; subst; unfold rel_diff.
  - rewrite eqb_nan_l. cbn [negb]. rewrite sub_nan.
    change (abs nan) with nan. apply nan_div.
  - destruct (ref_val =? 0)%float; cbn [negb].
    + rewrite eqb_nan_l. cbn [negb]. rewrite nan_sub.
      change (abs nan) with nan. apply nan_div.
    + rewrite nan_sub. change (abs nan) with nan. apply nan_div.
Qed.

(** The relative difference of a value to itself is 0, or a NaN for an
    infinity and for a NaN. *)
Lemma rel_diff_self (x : float) :
  rel_diff x x = 0%float \/ rel_diff x x = nan.
Proof.
  destruct (Prim2SF x) as [s|s| |s m e] eqn:E.
  - left. unfold rel_diff.
    assert ((x =? 0)%float = true) as ->
      by (rewrite FloatAxioms.eqb_spec, E; reflexivity).
    reflexivity.
  - right. unfold rel_diff.
    assert ((x =? 0)%float = false) as ->
      by (rewrite FloatAxioms.eqb_spec, E; destruct s; reflexivity).
    cbn [negb].
    assert ((x - x)%float = nan) as ->
      by (apply Prim2SF_inj; rewrite FloatAxioms.sub_spec, E;
          destruct s; reflexivity).
    change (abs nan) with nan. apply nan_div.
  - right. apply rel_diff_nan. left. unfold is_nan.
    rewrite FloatAxioms.eqb_spec, E. reflexivity.
  - left. unfold rel_diff.
    assert ((x =? 0)%float = false) as ->
      by (rewrite FloatAxioms.eqb_spec, E; destruct s; reflexivity).
    cbn [negb].
    assert ((x - x)%float = 0%float) as ->.
    { apply Prim2SF_inj. rewrite FloatAxioms.sub_spec, E.
      unfold SF64sub, SFsub. rewrite Z.sub_diag. reflexivity. }
    change (abs 0) with 0%float.
    apply Prim2SF_inj.
    rewrite FloatAxioms.div_spec, FloatAxioms.abs_spec, E. reflexivity.
Qed.

Section Compare.

Variable tolerance : float.
Variable verbose : Z.
Variable rank : Z.

(** X8.  A NaN is never a difference: two arrays of numbers of the same
    type and length compare equal, without an error record and whatever
    the tolerance, when at every index the reference value or the
    computed value is a NaN. *)
Theorem nan_is_never_a_difference (t : Z) (pa1 pa2 : list float) :
  Forall2 (fun ref_val comp_val =>
             is_nan ref_val = true \/ is_nan comp_val = true) pa1 pa2 ->
  compare_arrays tolerance (Numbers t pa1) (Numbers t pa2) = (0, []).
Proof.
  intros H. unfold compare_arrays. cbn [array_size].
  rewrite (Forall2_length _ _ _ H), Nat.eqb_refl, Z.eqb_refl. cbn [negb].
  induction H as [|r c pa1 pa2 Hrc _ IH]; [reflexivity|].
  cbn [compare_numbers]. rewrite (rel_diff_nan _ _ Hrc), ltb_nan_r.
  exact IH.
Qed.

(** Arrays the diff has a case for, collections without a repeated
    name, and datasets made of them. *)
Definition plain_array (a : diff_array) : bool :=
  match a with
  | Opaque _ => false
  | _ => true
  end.

Fixpoint unique_names (c : array_collection) : bool :=
  match c with
  | [] => true
  | (name, _) :: rest => negb (collection_has rest name) && unique_names rest
  end.

Definition plain_arrays (c : array_collection) : bool :=
  forallb (fun na => plain_array (snd na)) c.

Definition plain_collection (c : array_collection) : bool :=
  unique_names c && plain_arrays c.

Definition plain_mesh (m : teca_mesh) : bool :=
  plain_collection (point_arrays m)
  && plain_collection (cell_arrays m)
  && plain_collection (x_edge_arrays m)
  && plain_collection (y_edge_arrays m)
  && plain_collection (z_edge_arrays m)
  && plain_collection (x_face_arrays m)
  && plain_collection (y_face_arrays m)
  && plain_collection (z_face_arrays m)
  && plain_collection (information_arrays m).

Definition plain_dataset (d : teca_dataset) : bool :=
  match d with
  | Table t => plain_arrays (columns t)
  | CartesianMesh m =>
      plain_mesh (cartesian_mesh m)
      && plain_array (x_coordinates m) && plain_array (y_coordinates m)
      && plain_array (z_coordinates m)
  | CurvilinearMesh m =>
      plain_mesh (curvilinear_mesh m)
      && plain_array (cx_coordinates m) && plain_array (cy_coordinates m)
      && plain_array (cz_coordinates m)
  | ArakawaCGrid m =>
      plain_mesh (arakawa_mesh m)
      && plain_array (m_x_coordinates m) && plain_array (m_y_coordinates m)
      && plain_array (u_x_coordinates m) && plain_array (u_y_coordinates m)
      && plain_array (v_x_coordinates m) && plain_array (v_y_coordinates m)
      && plain_array (m_z_coordinates m) && plain_array (w_z_coordinates m)
  | OtherDataset _ => false
  end.

(** A comparison that found no difference: it returns 0 and has logged no
    error. *)
Definition passes (run : W Z) : Prop :=
  fst run = 0 /\ existsb is_error (snd run) = false.

(** A comparison whose return code and log agree. *)
Definition coherent (run : W Z) : Prop :=
  passes run \/ (fst run = -1 /\ existsb is_error (snd run) = true).

Lemma passes_ret : passes (w_ret 0).
Proof. split; reflexivity. Qed.

Lemma passes_status (enabled : bool) (msg : string) (k : unit -> W Z) :
  passes (k tt) -> passes (w_bind (status verbose rank enabled msg) k).
Proof.
  intros [H0 Hq]. unfold passes. rewrite w_bind_fst, w_bind_snd.
  unfold status.
  destruct (negb (verbose =? 0) && (rank =? 0) && enabled); cbn [fst snd];
    (split; [exact H0|]); [|exact Hq].
  cbn [TECA_STATUS emit snd app existsb is_error orb]. exact Hq.
Qed.

Lemma passes_check (call : W Z) (msg : string) (rest : W Z) :
  passes call -> passes rest -> passes (check call msg rest).
Proof.
  intros [Hc Hcq] [Hr Hrq]. unfold passes, check.
  rewrite w_bind_fst, w_bind_snd, Hc. cbn [Z.eqb negb].
  rewrite existsb_app, Hcq, Hrq. now split.
Qed.

Lemma coherent_error (msg : string) :
  coherent (w_bind (TECA_ERROR origin msg) (fun _ => w_ret (-1))).
Proof. right. split; reflexivity. Qed.

Lemma coherent_status (enabled : bool) (msg : string) (k : unit -> W Z) :
  coherent (k tt) -> coherent (w_bind (status verbose rank enabled msg) k).
Proof.
  intros [H|[H0 Hq]]; [left; now apply passes_status|right].
  rewrite w_bind_fst, w_bind_snd. unfold status.
  destruct (negb (verbose =? 0) && (rank =? 0) && enabled); cbn [fst snd];
    (split; [exact H0|]); [|exact Hq].
  cbn [TECA_STATUS emit snd app existsb is_error orb]. exact Hq.
Qed.

Lemma coherent_check (call : W Z) (msg : string) (rest : W Z) :
  coherent call -> coherent rest -> coherent (check call msg rest).
Proof.
  intros [Hc|[Hc Hcq]] Hrest.
  - destruct Hrest as [Hr|[Hr Hrq]]; [left; now apply passes_check|right].
    destruct Hc as [Hc Hcq]. unfold check.
    rewrite w_bind_fst, w_bind_snd, Hc. cbn [Z.eqb negb].
    rewrite existsb_app, Hrq, orb_true_r. now split.
  - right. unfold check. rewrite w_bind_fst, w_bind_snd, Hc.
    cbn [Z.eqb negb]. rewrite existsb_app, Hcq. now split.
Qed.

Lemma compare_numbers_coherent (pa1 pa2 : list float) :
  coherent (compare_numbers tolerance pa1 pa2).
Proof.
  revert pa2. induction pa1 as [|x pa1 IH]; intros [|y pa2];
    try (left; apply passes_ret).
  cbn [compare_numbers].
  destruct (tolerance <? rel_diff x y)%float; [apply coherent_error|apply IH].
Qed.

Lemma compare_strings_coherent (a1 a2 : list string) :
  coherent (compare_strings a1 a2).
Proof.
  revert a2. induction a1 as [|x a1 IH]; intros [|y a2];
    try (left; apply passes_ret).
  cbn [compare_strings].
  destruct (negb (String.eqb x y)); [apply coherent_error|apply IH].
Qed.

Lemma compare_arrays_coherent (array1 array2 : diff_array) :
  coherent (compare_arrays tolerance array1 array2).
Proof.
  unfold compare_arrays.
  destruct (negb (array_size array1 =? array_size array2)%nat);
    [apply coherent_error|].
  destruct array1 as [t1 pa1|a1|n1], array2 as [t2 pa2|a2|n2];
    try apply coherent_error.
  - destruct (t1 =? t2); [apply compare_numbers_coherent|apply coherent_error].
  - apply compare_strings_coherent.
Qed.

Lemma compare_columns_coherent (cols1 cols2 : array_collection) :
  forall col : nat,
    coherent (compare_columns tolerance verbose rank col cols1 cols2).
Proof.
  revert cols2. induction cols1 as [|[n1 c1] cols1 IH];
    intros [|[n2 c2] cols2] col; try (left; apply passes_ret).
  cbn [compare_columns]. apply coherent_status, coherent_check;
    [apply compare_arrays_coherent|apply IH].
Qed.

Lemma compare_tables_coherent (table1 table2 : teca_table) :
  coherent (compare_tables tolerance verbose rank table1 table2).
Proof.
  unfold compare_tables. apply coherent_status.
  destruct (negb (_ =? _)%nat); [apply coherent_error|].
  destruct (negb (_ =? _)%nat); [apply coherent_error|].
  apply compare_columns_coherent.
Qed.

(** The first loop over the reference arrays either finds them all, or
    reports the first that is missing. *)
Lemma has_all_cases (reference_arrays data_arrays : array_collection) :
  (has_all reference_arrays data_arrays = (0, [])
   /\ forallb (fun na => collection_has data_arrays (fst na))
        reference_arrays = true)
  \/ (fst (has_all reference_arrays data_arrays) = -1
      /\ existsb is_error (snd (has_all reference_arrays data_arrays))
         = true).
Proof.
  induction reference_arrays as [|[name a] rest IH]; [now left|].
  cbn [has_all forallb fst].
  destruct (collection_has data_arrays name); cbn [negb andb].
  - exact IH.
  - right. split; reflexivity.
Qed.

Lemma diff_contents_coherent (reference_arrays data_arrays : array_collection) :
  coherent (diff_contents tolerance verbose rank reference_arrays data_arrays).
Proof.
  induction reference_arrays as [|[name a1] rest IH];
    [left; apply passes_ret|].
  cbn [diff_contents]. destruct (collection_get data_arrays name); [|exact IH].
  apply coherent_status, coherent_check;
    [apply compare_arrays_coherent|exact IH].
Qed.

Lemma compare_array_collections_coherent
    (reference_arrays data_arrays : array_collection) :
  coherent (compare_array_collections tolerance verbose rank
              reference_arrays data_arrays).
Proof.
  unfold compare_array_collections.
  destruct (has_all_cases reference_arrays data_arrays) as [[-> _]|[H0 Hq]].
  - cbn [w_bind w_ret]. cbn [Z.eqb negb].
    destruct (diff_contents _ _ _ _ _) as [r l] eqn:E.
    pose proof (diff_contents_coherent reference_arrays data_arrays) as H.
    rewrite E in H. exact H.
  - right. rewrite w_bind_fst, w_bind_snd, H0. cbn [Z.eqb negb w_ret fst snd].
    rewrite app_nil_r. now split.
Qed.

Lemma compare_meshes_coherent (reference_mesh data_mesh : teca_mesh) :
  coherent (compare_meshes tolerance verbose rank reference_mesh data_mesh).
Proof.
  unfold compare_meshes.
  repeat (apply coherent_status, coherent_check;
          [apply compare_array_collections_coherent|]).
  left. apply passes_ret.
Qed.

Lemma compare_coordinates_coherent (enabled : bool) (what msg : string)
    (coord1 coord2 : diff_array) (rest : W Z) :
  coherent rest ->
  coherent (compare_coordinates tolerance verbose rank enabled what msg
              coord1 coord2 rest).
Proof.
  intros H. unfold compare_coordinates.
  apply coherent_status, coherent_check;
    [apply compare_arrays_coherent|exact H].
Qed.

(** X9.  The return code of a comparison and its log agree: a comparison
    of two tables, or of two meshes of a kind, returns 0 and has logged no
    error record, or returns -1 and has logged one.  ([execute] returns
    null either way, so the log is where a difference shows.) *)
Theorem comparison_code_agrees_with_log :
  (forall table1 table2,
     coherent (compare_tables tolerance verbose rank table1 table2))
  /\ (forall mesh1 mesh2,
        coherent (compare_cartesian_meshes tolerance verbose rank
                    mesh1 mesh2))
  /\ (forall mesh1 mesh2,
        coherent (compare_curvilinear_meshes tolerance verbose rank
                    mesh1 mesh2))
  /\ (forall mesh1 mesh2,
        coherent (compare_arakawa_c_grids tolerance verbose rank
                    mesh1 mesh2)).
Proof.
  split; [exact compare_tables_coherent|].
  split; [|split]; intros mesh1 mesh2;
    [unfold compare_cartesian_meshes
    |unfold compare_curvilinear_meshes
    |unfold compare_arakawa_c_grids];
    (apply coherent_status, coherent_check;
     [apply compare_meshes_coherent|]);
    repeat apply compare_coordinates_coherent; left; apply passes_ret.
Qed.

Lemma collection_has_app (data extra : array_collection) (name : string) :
  collection_has data name = true ->
  collection_has (data ++ extra) name = true
  /\ collection_get (data ++ extra) name = collection_get data name.
Proof.
  induction data as [|[n a] data IH]; cbn [collection_has existsb app fst];
    [discriminate|].
  cbn [collection_get]. destruct (String.eqb n name); cbn [orb].
  - now split.
  - intros H. apply IH in H. cbn [collection_has] in H.
    destruct H as [H1 H2]. now split.
Qed.

(** X10.  Arrays the data has beyond those of the reference play no part:
    a comparison of two array collections that finds no difference finds
    none, and logs the same, when further arrays are appended to the
    data collection. *)
Theorem extra_data_arrays_are_ignored
    (reference_arrays data_arrays extra : array_collection)
    (log : list event) :
  compare_array_collections tolerance verbose rank
    reference_arrays data_arrays = (0, log) ->
  compare_array_collections tolerance verbose rank
    reference_arrays (data_arrays ++ extra) = (0, log).
Proof.
  unfold compare_array_collections.
  destruct (has_all_cases reference_arrays data_arrays) as [[E Hall]|[H0 _]].
  - rewrite E. cbn [w_bind w_ret Z.eqb negb].
    assert (has_all reference_arrays (data_arrays ++ extra) = (0, [])
            /\ diff_contents tolerance verbose rank reference_arrays
                 (data_arrays ++ extra)
               = diff_contents tolerance verbose rank reference_arrays
                   data_arrays) as [-> ->]; [|easy].
    clear E. induction reference_arrays as [|[name a1] rest IH];
      [now split|].
    cbn [forallb fst] in Hall. apply andb_prop in Hall.
    destruct Hall as [Hname Hrest].
    destruct (collection_has_app data_arrays extra name Hname) as [Hh Hg].
    destruct (IH Hrest) as [IH1 IH2].
    cbn [has_all diff_contents]. rewrite Hh, Hg, IH1, IH2. now split.
  - rewrite (surjective_pairing (has_all reference_arrays data_arrays)).
    cbn [w_bind]. rewrite H0. cbn [Z.eqb negb w_ret]. discriminate.
Qed.

Hypothesis tolerance_not_negative : (tolerance <? 0)%float = false.

Lemma compare_numbers_self (pa : list float) :
  compare_numbers tolerance pa pa = (0, []).
Proof.
  induction pa as [|x pa IH]; [reflexivity|]. cbn [compare_numbers].
  destruct (rel_diff_self x) as [-> | ->].
  - now rewrite tolerance_not_negative.
  - now rewrite ltb_nan_r.
Qed.

Lemma compare_strings_self (a : list string) :
  compare_strings a a = (0, []).
Proof.
  induction a as [|v a IH]; [reflexivity|]. cbn [compare_strings].
  now rewrite String.eqb_refl.
Qed.

Lemma compare_arrays_self (a : diff_array) :
  plain_array a = true -> passes (compare_arrays tolerance a a).
Proof.
  intros Hp. unfold compare_arrays. rewrite Nat.eqb_refl. cbn [negb].
  destruct a as [t pa|a|n]; [| |discriminate].
  - rewrite Z.eqb_refl, compare_numbers_self. apply passes_ret.
  - rewrite compare_strings_self. apply passes_ret.
Qed.

Lemma compare_columns_self (cols : array_collection) :
  plain_arrays cols = true ->
  forall col : nat,
    passes (compare_columns tolerance verbose rank col cols cols).
Proof.
  induction cols as [|[n c] cols IH]; intros Hp col; [apply passes_ret|].
  cbn [plain_arrays forallb snd] in Hp. apply andb_prop in Hp.
  destruct Hp as [Hc Hcols].
  cbn [compare_columns]. apply passes_status, passes_check;
    [now apply compare_arrays_self|now apply IH].
Qed.

Lemma has_all_found (reference_arrays data_arrays : array_collection) :
  forallb (fun na => collection_has data_arrays (fst na)) reference_arrays
  = true ->
  has_all reference_arrays data_arrays = (0, []).
Proof.
  induction reference_arrays as [|[name a] rest IH]; [reflexivity|].
  cbn [forallb fst has_all]. intros H. apply andb_prop in H.
  destruct H as [-> Hrest]. cbn [negb]. now apply IH.
Qed.

Lemma diff_contents_same (reference_arrays data_arrays : array_collection) :
  (forall name a, In (name, a) reference_arrays ->
     collection_get data_arrays name = Some a /\ plain_array a = true) ->
  passes (diff_contents tolerance verbose rank reference_arrays data_arrays).
Proof.
  induction reference_arrays as [|[name a1] rest IH]; intros H;
    [apply passes_ret|].
  cbn [diff_contents].
  destruct (H name a1 (or_introl eq_refl)) as [-> Hp].
  apply passes_status, passes_check; [now apply compare_arrays_self|].
  apply IH. intros n a Hin. apply H. now right.
Qed.

Lemma collection_get_has (c : array_collection) (name : string) :
  collection_has c name = false -> collection_get c name = None.
Proof.
  induction c as [|[n a] c IH]; [reflexivity|].
  cbn [collection_has existsb fst collection_get].
  destruct (String.eqb n name); [discriminate|exact IH].
Qed.

Lemma unique_names_get (c : array_collection) (name : string)
    (a : diff_array) :
  unique_names c = true -> In (name, a) c ->
  collection_get c name = Some a /\ collection_has c name = true.
Proof.
  induction c as [|[n a0] c IH]; intros Hu Hin; [destruct Hin|].
  cbn [unique_names] in Hu. apply andb_prop in Hu. destruct Hu as [Hn Hu].
  cbn [collection_get collection_has existsb fst].
  destruct Hin as [[= -> ->]|Hin].
  - rewrite String.eqb_refl. now split.
  - destruct (String.eqb_spec n name) as [->|Hne].
    + destruct (IH Hu Hin) as [_ Hhas]. rewrite Hhas in Hn. discriminate.
    + cbn [orb]. destruct (IH Hu Hin) as [Hg Hh]. now split.
Qed.

Lemma compare_array_collections_self (c : array_collection) :
  plain_collection c = true ->
  passes (compare_array_collections tolerance verbose rank c c).
Proof.
  intros Hp. apply andb_prop in Hp. destruct Hp as [Hu Hplain].
  unfold compare_array_collections.
  rewrite has_all_found.
  - cbn [w_bind w_ret Z.eqb negb].
    destruct (diff_contents _ _ _ c c) as [r l] eqn:E.
    cbn [app]. rewrite <- E. apply diff_contents_same.
    intros name a Hin. split; [now apply unique_names_get|].
    unfold plain_arrays in Hplain. rewrite forallb_forall in Hplain.
    apply (Hplain (name, a) Hin).
  - apply forallb_forall. intros [name a] Hin.
    now apply (unique_names_get c name a).
Qed.

Lemma compare_meshes_self (m : teca_mesh) :
  plain_mesh m = true ->
  passes (compare_meshes tolerance verbose rank m m).
Proof.
  unfold plain_mesh. intros H.
  do 8 (apply andb_prop in H; destruct H as [H ?]).
  unfold compare_meshes.
  repeat (apply passes_status, passes_check;
          [now apply compare_array_collections_self|]).
  apply passes_ret.
Qed.

Lemma compare_coordinates_self (enabled : bool) (what msg : string)
    (coord : diff_array) (rest : W Z) :
  plain_array coord = true -> passes rest ->
  passes (compare_coordinates tolerance verbose rank enabled what msg
            coord coord rest).
Proof.
  intros Hp Hr. unfold compare_coordinates.
  apply passes_status, passes_check; [now apply compare_arrays_self|exact Hr].
Qed.

Lemma compared_passes (call : W Z) (msg : string) :
  passes call ->
  exists log, compared call msg = (None, log)
              /\ existsb is_error log = false.
Proof.
  intros [H0 Hq]. exists (snd call). unfold compared.
  destruct call as [r l]. cbn [fst snd] in *. subst r.
  cbn [w_bind Z.eqb negb w_ret]. rewrite app_nil_r. now split.
Qed.

(** X11.  A dataset equals itself: for a tolerance that is not negative,
    the diff of a dataset against itself logs no error record, also where
    its arrays hold infinities or NaNs.  The dataset is a table or a mesh
    of one of the three kinds, not empty, its arrays are arrays of numbers
    or of strings, and no array collection of a mesh holds a name
    twice. *)
Theorem dataset_equals_itself (dataset_empty : teca_dataset -> bool)
    (d : teca_dataset) :
  dataset_empty d = false ->
  plain_dataset d = true ->
  exists log,
    execute tolerance verbose rank dataset_empty (Some d) (Some d)
    = Returns (None, log)
    /\ existsb is_error log = false.
Proof.
  intros He Hp. unfold execute. rewrite He. cbn [andb negb].
  destruct d as [t|m|m|m|c]; [| | | |discriminate]; cbn [plain_dataset] in Hp.
  - destruct (compared_passes (compare_tables tolerance verbose rank t t)
                "Failed to compare tables.") as (log & -> & Hq).
    + unfold compare_tables. apply passes_status.
      rewrite !Nat.eqb_refl. cbn [negb]. now apply compare_columns_self.
    + eauto.
  - do 3 (apply andb_prop in Hp; destruct Hp as [Hp ?]).
    destruct (compared_passes
                (compare_cartesian_meshes tolerance verbose rank m m)
                "Failed to compare cartesian_meshes.") as (log & -> & Hq).
    + unfold compare_cartesian_meshes.
      apply passes_status, passes_check; [now apply compare_meshes_self|].
      repeat (apply compare_coordinates_self; [assumption|]).
      apply passes_ret.
    + eauto.
  - do 3 (apply andb_prop in Hp; destruct Hp as [Hp ?]).
    destruct (compared_passes
                (compare_curvilinear_meshes tolerance verbose rank m m)
                "Failed to compare curvilinear_meshes.") as (log & -> & Hq).
    + unfold compare_curvilinear_meshes.
      apply passes_status, passes_check; [now apply compare_meshes_self|].
      repeat (apply compare_coordinates_self; [assumption|]).
      apply passes_ret.
    + eauto.
  - do 8 (apply andb_prop in Hp; destruct Hp as [Hp ?]).
    destruct (compared_passes
                (compare_arakawa_c_grids tolerance verbose rank m m)
                "Failed to compare arakawa_c_grids.") as (log & -> & Hq).
    + unfold compare_arakawa_c_grids.
      apply passes_status, passes_check; [now apply compare_meshes_self|].
      repeat (apply compare_coordinates_self; [assumption|]).
      apply passes_ret.
    + eauto.
Qed.

End Compare.

(** A column that holds an infinity and a NaN, and one of strings. *)
Definition odd_table : teca_dataset :=
  Table {| columns := [("x", Numbers 6 [1; infinity; nan]%float);
                       ("name", Strings ["a"; "b"; "c"])] |}.

Definition never_empty (d : teca_dataset) : bool := false.

Lemma nan_is_never_a_difference_witness :
  compare_arrays 0%float (Numbers 6 [1; 2]%float)
    (Numbers 6 [nan; nan]%float) = (0, []).
Proof.
  apply (nan_is_never_a_difference 0%float 6 [1; 2]%float [nan; nan]%float).
  repeat constructor; right; reflexivity.
Defined.

Lemma extra_data_arrays_are_ignored_witness :
  compare_array_collections DatasetDiffNull.Tables.tolerance 0 0
    [("q", Numbers 6 [1; 2]%float)]
    ([("q", Numbers 6 [1; 2]%float)] ++ [("extra", Strings ["s"])])
  = (0, []).
Proof.
  apply (extra_data_arrays_are_ignored DatasetDiffNull.Tables.tolerance 0 0
           [("q", Numbers 6 [1; 2]%float)] [("q", Numbers 6 [1; 2]%float)]
           [("extra", Strings ["s"])] []).
  vm_compute. reflexivity.
Defined.

Lemma dataset_equals_itself_witness :
  exists log,
    execute DatasetDiffNull.Tables.tolerance 1 0 never_empty
      (Some odd_table) (Some odd_table) = Returns (None, log)
    /\ existsb is_error log = false.
Proof.
  apply (dataset_equals_itself DatasetDiffNull.Tables.tolerance 1 0
           eq_refl never_empty odd_table); reflexivity.
Defined.

End DatasetDiffCompare.

(** ** The index of the tests of the diff *)

Module DatasetDiffIndex.
Import DatasetDiff.
Local Open Scope Z_scope.

(** X12.  The diff runs one test for each index of its reference input:
    where input 0 names its index initializer and holds a count under it,
    the reported metadata names [number_of_tests] as the initializer,
    holds that count under it, names [test_id] as the request key, and
    agrees with the metadata of input 0 on every other key.  The metadata
    of input 1 plays no part. *)
Theorem output_metadata_counts_reference_indices
    (input_md_0 : teca_metadata) (initializer_key : string) (n : Z) :
  md_get_string input_md_0 "index_initializer_key" = Some initializer_key ->
  md_get_ulong input_md_0 initializer_key = Some n ->
  exists omd,
    get_output_metadata input_md_0 = (Some omd, [])
    /\ md_get_string omd "index_initializer_key" = Some "number_of_tests"
    /\ md_get_ulong omd "number_of_tests" = Some n
    /\ md_get_string omd "index_request_key" = Some "test_id"
    /\ forall key : string,
         key <> "index_initializer_key" -> key <> "index_request_key" ->
         key <> "number_of_tests" ->
         omd !! key = input_md_0 !! key.
Proof.
  intros Hkey Hn. unfold get_output_metadata. rewrite Hkey, Hn.
  eexists. split; [reflexivity|].
  unfold md_get_string, md_get_ulong.
  rewrite lookup_insert_eq.
  rewrite (lookup_insert_ne _ "number_of_tests" "index_initializer_key")
    by discriminate.
  rewrite (lookup_insert_ne _ "index_request_key" "index_initializer_key")
    by discriminate.
  rewrite lookup_insert_eq.
  rewrite (lookup_insert_ne _ "number_of_tests" "index_request_key")
    by discriminate.
  rewrite lookup_insert_eq.
  repeat split.
  intros key H1 H2 H3. now rewrite !lookup_insert_ne by congruence.
Qed.

(** What an upstream request holds for the input that indexes its data
    with [request_key]. *)
Definition carries (request req : teca_metadata) (request_key : string)
    (test_id : Z) : Prop :=
  req !! "test_id" = None
  /\ (request_key <> "test_id" ->
      md_get_ulong req request_key = Some test_id)
  /\ (request_key <> "test_id" -> request_key <> "index_request_key" ->
      md_get_string req "index_request_key" = Some request_key)
  /\ (forall key : string,
        key <> "test_id" -> key <> request_key ->
        key <> "index_request_key" ->
        req !! key = request !! key).

Lemma make_request_carries (request : teca_metadata) (request_key : string)
    (test_id : Z) :
  carries request (make_request request request_key test_id) request_key
    test_id.
Proof.
  unfold carries, make_request. split; [apply lookup_delete_eq|].
  split; [|split].
  - intros Hne. unfold md_get_ulong.
    rewrite lookup_delete_ne by congruence. now rewrite lookup_insert_eq.
  - intros Hne Hne'. unfold md_get_string.
    rewrite lookup_delete_ne by discriminate.
    rewrite lookup_insert_ne by congruence. now rewrite lookup_insert_eq.
  - intros key H1 H2 H3. rewrite lookup_delete_ne by congruence.
    now rewrite !lookup_insert_ne by congruence.
Qed.

(** X13.  A request for test [test_id] is sent to both inputs with the
    test id under the key each input indexes its data with, the key
    [test_id] removed and every other key as it was.  An input that
    indexes its data with the key [test_id] itself, as a diff stage does,
    gets a request without any index: the key is set and then removed. *)
Theorem upstream_requests_carry_the_test_id
    (input_md_0 input_md_1 request : teca_metadata) (test_id : Z)
    (request_key_0 request_key_1 : string) :
  md_get_ulong request "test_id" = Some test_id ->
  md_get_string input_md_0 "index_request_key" = Some request_key_0 ->
  md_get_string input_md_1 "index_request_key" = Some request_key_1 ->
  exists req_0 req_1,
    get_upstream_request input_md_0 input_md_1 request = ([req_0; req_1], [])
    /\ carries request req_0 request_key_0 test_id
    /\ carries request req_1 request_key_1 test_id
    /\ (request_key_0 = "test_id" -> md_get_ulong req_0 request_key_0 = None)
    /\ (request_key_1 = "test_id" -> md_get_ulong req_1 request_key_1 = None).
Proof.
  intros Hid H0 H1. unfold get_upstream_request. rewrite Hid, H0, H1.
  eexists. eexists. split; [reflexivity|].
  split; [apply make_request_carries|].
  split; [apply make_request_carries|].
  split; intros ->; unfold md_get_ulong, make_request;
    now rewrite lookup_delete_eq.
Qed.

(** The metadata of a reader that indexes its data by time step, and a
    request for the third test. *)
Definition reader_md : teca_metadata :=
  {[ "index_initializer_key" := StringArray ["number_of_time_steps"];
     "index_request_key" := StringArray ["time_step"];
     "number_of_time_steps" := ULongArray [5] ]}.

Definition test_request : teca_metadata :=
  {[ "test_id" := ULongArray [2]; "arrays" := StringArray ["T"] ]}.

Lemma output_metadata_counts_reference_indices_witness :
  exists omd,
    get_output_metadata reader_md = (Some omd, [])
    /\ md_get_string omd "index_initializer_key" = Some "number_of_tests"
    /\ md_get_ulong omd "number_of_tests" = Some 5
    /\ md_get_string omd "index_request_key" = Some "test_id"
    /\ forall key : string,
         key <> "index_initializer_key" -> key <> "index_request_key" ->
         key <> "number_of_tests" ->
         omd !! key = reader_md !! key.
Proof.
  apply (output_metadata_counts_reference_indices reader_md
           "number_of_time_steps" 5); reflexivity.
Defined.

Lemma upstream_requests_carry_the_test_id_witness :
  exists req_0 req_1,
    get_upstream_request reader_md reader_md test_request
    = ([req_0; req_1], [])
    /\ md_get_ulong req_0 "time_step" = Some 2
    /\ md_get_ulong req_1 "time_step" = Some 2
    /\ req_0 !! "test_id" = None.
Proof.
  destruct (upstream_requests_carry_the_test_id reader_md reader_md
              test_request 2 "time_step" "time_step"
              eq_refl eq_refl eq_refl)
    as (req_0 & req_1 & Hrun & (Hno & Hid0 & _) & (_ & Hid1 & _) & _).
  exists req_0, req_1. split; [exact Hrun|].
  split; [apply Hid0; discriminate|].
  split; [apply Hid1; discriminate|exact Hno].
Defined.

End DatasetDiffIndex.

(** ** The vertical integral, cell by cell *)

Module VerticalIntegralKernel.
Import VerticalIntegral.

(** A loop that stores [f j] at [j + base] for [j] from [a] to
    [a + n - 1]. *)
Lemma column_row_lookup {A} (f : nat -> A) (base : nat) :
  forall (n a : nat) (w : list A) (k : nat),
    k < length w ->
    fold_left (fun w j => <[j + base := f j]> w) (seq a n) w !! k
    = if decide (a + base <= k < a + n + base)
      then Some (f (k - base))
      else w !! k.
Proof.
  induction n as [|n IH]; intros a w k Hk; simpl.
  - destruct (decide _); [lia|reflexivity].
  - rewrite IH by now rewrite length_insert.
    destruct (decide (S a + base <= k < S a + n + base)) as [H|H].
    + destruct (decide _); [reflexivity|lia].
    + destruct (decide (k = a + base)) as [->|Hne].
      * rewrite list_lookup_insert_eq by exact Hk.
        destruct (decide _); [|lia]. f_equal. f_equal. lia.
      * rewrite list_lookup_insert_ne by lia.
        destruct (decide _); [lia|reflexivity].
Qed.

(** The two loops over the horizontal dimensions, over the columns
    [b .. b + m - 1] in x. *)
Lemma grid_lookup {A} (cell : nat -> nat -> A) (ny : nat) :
  forall (m b : nat) (w : list A) (i j : nat),
    j < ny -> j + ny * i < length w ->
    fold_left
      (fun w i =>
         fold_left (fun w j => <[j + ny * i := cell i j]> w) (seq 0 ny) w)
      (seq b m) w !! (j + ny * i)
    = if decide (b <= i < b + m)
      then Some (cell i j)
      else w !! (j + ny * i).
Proof.
  induction m as [|m IH]; intros b w i j Hj Hk; simpl.
  - destruct (decide _); [lia|reflexivity].
  - rewrite IH;
      [|exact Hj
       |now rewrite (VorticityKernel.fold_insert_length
                       (fun j => j + ny * b) (cell b))].
    destruct (decide (S b <= i < S b + m)) as [H|H].
    + destruct (decide _); [reflexivity|lia].
    + rewrite (column_row_lookup (cell b) (ny * b)) by exact Hk.
      destruct (Nat.lt_trichotomy i b) as [Hib|[->|Hib]].
      * assert (ny * S i <= ny * b) by (apply Nat.mul_le_mono_l; lia).
        rewrite Nat.mul_succ_r in *.
        destruct (decide (0 + ny * b <= _ < _)); [lia|].
        destruct (decide _); [lia|reflexivity].
      * destruct (decide (0 + ny * b <= _ < _)) as [Hin|Hin];
          destruct (decide _) as [Hc|Hc]; try lia.
        f_equal. f_equal. lia.
      * assert (ny * S b <= ny * i) by (apply Nat.mul_le_mono_l; lia).
        rewrite Nat.mul_succ_r in *.
        destruct (decide (0 + ny * b <= _ < _)); [lia|].
        destruct (decide _); [lia|reflexivity].
Qed.

Lemma grid_length {A} (cell : nat -> nat -> A) (ny : nat) (js : list nat) :
  forall (cols : list nat) (w : list A),
    length
      (fold_left
         (fun w i =>
            fold_left (fun w j => <[j + ny * i := cell i j]> w) js w)
         cols w)
    = length w.
Proof.
  induction cols as [|i cols IH]; intros w; simpl; [reflexivity|].
  rewrite IH.
  apply (VorticityKernel.fold_insert_length (fun j => j + ny * i) (cell i)).
Qed.

Local Open Scope float_scope.

(** X14.  The kernel fills [nx * ny] output values, and the value at
    index [c = j + ny * i] is the sum, level by level from 0, of
    [-1/g * array[k + nz * c] * dp] over the [nz] consecutive input
    values that start at [nz * c], with the pressure differential [dp] of
    level [k] over the surface pressure [ps[c]]: each output value is the
    integral of its own run of [nz] input values and of no other. *)
Theorem vertical_integral_cell (array : list float) (nx ny nz : nat)
    (csystem : Z) (a_or_sigma b ps : list float) (p_top : float)
    (i j : nat) :
  (i < nx)%nat -> (j < ny)%nat ->
  let out := vertical_integral array nx ny nz csystem a_or_sigma b ps
               p_top in
  let c := (j + ny * i)%nat in
  length out = (nx * ny)%nat
  /\ (c < nx * ny)%nat
  /\ rd out c
     = fold_left
         (fun tmp_int k =>
            tmp_int
            + neg_one_over_g * rd array (k + nz * c)
              * pressure_differential csystem a_or_sigma b ps p_top c k)
         (seq 0 nz) 0.
Proof.
  intros Hi Hj out c.
  assert (c < nx * ny)%nat as Hc.
  { unfold c. assert (ny * S i <= ny * nx)%nat
      by (apply Nat.mul_le_mono_l; lia).
    rewrite Nat.mul_succ_r in *. lia. }
  split; [|split; [exact Hc|]].
  - unfold out, vertical_integral.
    now rewrite grid_length, length_replicate.
  - unfold out, rd at 1, vertical_integral. rewrite nth_lookup.
    unfold c.
    rewrite (grid_lookup
               (column_integral array ny nz csystem a_or_sigma b ps p_top)
               ny nx 0); [|exact Hj|rewrite length_replicate; exact Hc].
    destruct (decide (0 <= i < 0 + nx)%nat); [reflexivity|lia].
Qed.

(** One column of four levels in hybrid coordinates. *)
Lemma vertical_integral_cell_witness :
  let out := vertical_integral [1; 1; 1; 1] 1 1 4 1
               [0; 0.25; 0.5; 0.75; 1] [0; 0; 0; 0; 0] [101325] 100 in
  length out = 1%nat
  /\ (0 < 1)%nat
  /\ rd out 0
     = fold_left
         (fun tmp_int k =>
            tmp_int
            + neg_one_over_g * rd [1; 1; 1; 1] (k + 4 * 0)
              * pressure_differential 1 [0; 0.25; 0.5; 0.75; 1]
                  [0; 0; 0; 0; 0] [101325] 100 0 k)
         (seq 0 4) 0.
Proof.
  apply (vertical_integral_cell [1; 1; 1; 1] 1 1 4 1
           [0; 0.25; 0.5; 0.75; 1] [0; 0; 0; 0; 0] [101325] 100 0 0); lia.
Defined.

End VerticalIntegralKernel.

(** ** What the vertical integral asks of its input *)

Module VerticalIntegralRequest.
Import VerticalIntegral.

(** The arrays the stage reads in [execute]. *)
Definition needed (self : teca_vertical_integral) : list string :=
  (if negb (using_hybrid self =? 0)%Z
   then [hybrid_a_variable self; hybrid_b_variable self]
   else [sigma_variable self])
  ++ [surface_p_variable self]
  ++ (if (p_top_override_value self =? 0)%float
      then [p_top_variable self] else [])
  ++ [integration_variable self].

Lemma request_var_named (mesh_var expected_var : string)
    (arrays : gset string) :
  mesh_var <> "" ->
  request_var mesh_var expected_var arrays = ret (arrays ∪ {[ mesh_var ]}).
Proof.
  intros H. unfold request_var.
  now rewrite (CfReaderExecute.empty_string_false _ H).
Qed.

Lemma request_var_unnamed (expected_var : string) (arrays : gset string) :
  fst (request_var "" expected_var arrays) = None
  /\ existsb is_error (snd (request_var "" expected_var arrays)) = true.
Proof. split; reflexivity. Qed.

(** X15.  With every array it reads named, the stage sends one request
    upstream: the incoming request without its [bounds], [extent] and
    [whole_extent] keys (a subset asked for downstream is dropped), with
    every other key as it was, and with [arrays] holding the arrays
    already requested and the arrays the stage reads, except the array it
    produces.  The model top pressure is among them only when the
    override value is zero. *)
Theorem upstream_request_of_vertical_integral
    (self : teca_vertical_integral) (request : teca_metadata) :
  Forall (fun v => v <> "") (needed self) ->
  exists up arrays,
    get_upstream_request self request = ([up], [])
    /\ up !! "bounds" = None
    /\ up !! "extent" = None
    /\ up !! "whole_extent" = None
    /\ md_get_strings up "arrays" = Some arrays
    /\ (forall a : string,
          In a arrays
          <-> a <> output_variable_name self
              /\ (In a (needed self)
                  \/ In a (default [] (md_get_strings request "arrays"))))
    /\ (forall key : string,
          key <> "bounds" -> key <> "extent" -> key <> "whole_extent" ->
          key <> "arrays" ->
          up !! key = request !! key).
Proof.
  intros Hnamed.
  assert (exists S : gset string,
            requested_arrays self request = (Some S, [])
            /\ forall a : string,
                 a ∈ S
                 <-> a <> output_variable_name self
                     /\ (In a (needed self)
                         \/ In a (default []
                                    (md_get_strings request "arrays"))))
    as (S & HS & Hmem).
  { unfold requested_arrays, needed in *.
    assert ((if md_has request "arrays"
             then list_to_set (default [] (md_get_strings request "arrays"))
             else ∅)
            = (list_to_set (default [] (md_get_strings request "arrays"))
               : gset string)) as ->.
    { unfold md_has, md_get_strings.
      destruct (request !! "arrays") as [[]|]; reflexivity. }
    destruct (negb (using_hybrid self =? 0)%Z),
             (p_top_override_value self =? 0)%float;
      cbn [app] in Hnamed;
      repeat match goal with
             | H : Forall _ (_ :: _) |- _ =>
                 apply Forall_cons_iff in H; destruct H as [? H]
             end;
      rewrite ?request_var_named by assumption;
      cbn [bind ret app];
      repeat (rewrite request_var_named by assumption; cbn [bind ret app]);
      (eexists; split; [reflexivity|]);
      intros a; cbn [In app];
      rewrite elem_of_difference, !elem_of_union, elem_of_list_to_set,
        !elem_of_singleton, list_elem_of_In;
      intuition congruence. }
  unfold get_upstream_request. rewrite HS.
  eexists. exists (elements S). split; [reflexivity|].
  split; [|split; [|split; [|split; [|split]]]].
  - rewrite lookup_insert_ne by discriminate.
    rewrite !lookup_delete_ne by discriminate. apply lookup_delete_eq.
  - rewrite lookup_insert_ne by discriminate.
    rewrite lookup_delete_ne by discriminate. apply lookup_delete_eq.
  - rewrite lookup_insert_ne by discriminate. apply lookup_delete_eq.
  - unfold md_get_strings. now rewrite lookup_insert_eq.
  - intros a. rewrite <- list_elem_of_In, elem_of_elements. apply Hmem.
  - intros key H1 H2 H3 H4. rewrite lookup_insert_ne by congruence.
    now rewrite !lookup_delete_ne by congruence.
Qed.

Lemma empty_string_named (v : string) : empty_string v = false -> v <> "".
Proof. destruct v; [discriminate|congruence]. Qed.

(** X16.  The stage sends no request upstream, and reports an error,
    when one of the arrays it reads is not named: the hybrid or sigma
    coordinate, the surface pressure, the integration variable, or the
    model top pressure when the override value is zero. *)
Theorem upstream_request_needs_names (self : teca_vertical_integral)
    (request : teca_metadata) :
  Exists (fun v => v = "") (needed self) ->
  fst (get_upstream_request self request) = []
  /\ existsb is_error (snd (get_upstream_request self request)) = true.
Proof.
  unfold get_upstream_request, requested_arrays, needed, request_var.
  intros Hex.
  destruct (negb (using_hybrid self =? 0)%Z),
           (p_top_override_value self =? 0)%float;
    cbn [app] in Hex;
    repeat match goal with
           | |- context [empty_string ?v] =>
               let E := fresh "E" in
               destruct (empty_string v) eqn:E;
               [|apply empty_string_named in E]
           end;
    cbn [bind ret fail fst snd existsb is_error orb];
    try (split; reflexivity);
    exfalso;
    repeat match goal with
           | H : Exists _ (_ :: _) |- _ =>
               apply Exists_cons in H; destruct H as [H|H];
               [congruence|]
           end;
    now apply Exists_nil in Hex.
Qed.

(** The stage of the specification with the model top pressure read from
    the mesh, and a request for a subset. *)
Definition stage : teca_vertical_integral :=
  {| long_name := "integrated_var"; units := "unknown";
     hybrid_a_variable := "a_bnds"; hybrid_b_variable := "b_bnds";
     sigma_variable := "sigma_bnds"; surface_p_variable := "ps";
     p_top_variable := "ptop";
     using_hybrid := 1;
     p_top_override_value := 0;
     integration_variable := "q";
     output_variable_name := "q_int" |}.

Definition unnamed : teca_vertical_integral :=
  {| long_name := "integrated_var"; units := "unknown";
     hybrid_a_variable := "a_bnds"; hybrid_b_variable := "b_bnds";
     sigma_variable := "sigma_bnds"; surface_p_variable := "ps";
     p_top_variable := "ptop";
     using_hybrid := 1;
     p_top_override_value := 0;
     integration_variable := "";
     output_variable_name := "q_int" |}.

Definition subset_request : teca_metadata :=
  {[ "arrays" := StringArray ["q_int"; "T"];
     "extent" := ULongArray [0; 1; 0; 1; 0; 3]%Z;
     "time_step" := ULongArray [0%Z] ]}.

Lemma upstream_request_of_vertical_integral_witness :
  exists up arrays,
    get_upstream_request stage subset_request = ([up], [])
    /\ up !! "extent" = None
    /\ md_get_strings up "arrays" = Some arrays
    /\ In "ptop" arrays /\ In "T" arrays /\ ~ In "q_int" arrays
    /\ up !! "time_step" = subset_request !! "time_step".
Proof.
  destruct (upstream_request_of_vertical_integral stage subset_request)
    as (up & arrays & Hrun & _ & Hext & _ & Harrays & Hmem & Hkeys).
  - repeat constructor; discriminate.
  - exists up, arrays. split; [exact Hrun|]. split; [exact Hext|].
    split; [exact Harrays|].
    split; [apply Hmem; split; [discriminate|left; vm_compute; tauto]|].
    split; [apply Hmem; split; [discriminate|right; vm_compute; tauto]|].
    split; [intros Hin; apply Hmem in Hin; now destruct Hin|].
    apply Hkeys; discriminate.
Defined.

Lemma upstream_request_needs_names_witness :
  fst (get_upstream_request unnamed subset_request) = []
  /\ existsb is_error (snd (get_upstream_request unnamed subset_request))
     = true.
Proof.
  apply (upstream_request_needs_names unnamed subset_request).
  unfold needed. change (p_top_override_value unnamed =? 0)%float with true.
  simpl. do 4 (apply Exists_cons; right). apply Exists_cons. now left.
Defined.

End VerticalIntegralRequest.

(** ** The subset stage asks for the extent it reported *)

Module MeshSubsetExtent.
Import MeshSubset.

Section Subset.

Variable bounds_to_extent :
  list float -> list float -> list float -> list float -> bool
  -> option (list Z).

(** X17.  When the subset stage reports metadata, it reports the input's
    metadata with [whole_extent] replaced by the extent found for its
    bounds, keeps that extent, and from then on asks upstream for
    exactly that extent, whatever extent the request came with, leaving
    the other keys of the request alone.  When the report fails the stage
    is as it was before, so its requests still carry the extent of the
    last report that succeeded. *)
Theorem subset_requests_the_extent_it_reported
    (self self' : teca_cartesian_mesh_subset) (input_md_0 : metadata)
    (run : M metadata) :
  get_output_metadata bounds_to_extent self input_md_0
  = DatasetDiff.Returns (self', run) ->
  match fst run with
  | Some out =>
      md_entries out !! "whole_extent" = Some (ULongArray (extent self'))
      /\ md_coordinates out = md_coordinates input_md_0
      /\ (forall key : string,
            key <> "whole_extent" ->
            md_entries out !! key = md_entries input_md_0 !! key)
      /\ forall request : teca_metadata,
           exists up,
             get_upstream_request self' request = [up]
             /\ up !! "extent" = Some (ULongArray (extent self'))
             /\ forall key : string,
                  key <> "extent" -> up !! key = request !! key
  | None => self' = self /\ existsb is_error (snd run) = true
  end.
Proof.
  unfold get_output_metadata.
  destruct (md_coordinates input_md_0) as [coords|] eqn:Hc;
    [|intros [= <- <-]; now split].
  destruct (coords !! "x") as [x|]; [|intros [= <- <-]; now split].
  destruct (coords !! "y") as [y|]; [|intros [= <- <-]; now split].
  destruct (coords !! "z") as [z|]; [|intros [= <- <-]; now split].
  destruct x as [| |p_x]; try (intros [= <- <-]; now split).
  destruct y as [| |p_y]; try discriminate.
  destruct z as [| |p_z]; try discriminate.
  destruct (bounds_to_extent _ _ _ _ _) as [ext|];
    [|intros [= <- <-]; now split].
  intros [= <- <-]. cbn [fst ret md_entries md_coordinates extent].
  split; [apply lookup_insert_eq|]. split; [reflexivity|].
  split; [intros key Hkey; now rewrite lookup_insert_ne by congruence|].
  intros request. eexists. split; [reflexivity|].
  cbn [extent]. split; [apply lookup_insert_eq|].
  intros key Hkey. now rewrite lookup_insert_ne by congruence.
Qed.

End Subset.

(** A stage for the lower left cell of a 3 x 3 mesh, and a stand-in for
    [bounds_to_extent] that finds the extent of that cell. *)
Definition lower_left : teca_cartesian_mesh_subset :=
  {| bounds := [0; 1; 0; 1; 0; 0]%float; cover_bounds := false;
     extent := [] |}.

Definition mesh_md : metadata :=
  {| md_coordinates :=
       Some {[ "x" := DoubleArray [0; 1; 2]%float;
               "y" := DoubleArray [0; 1; 2]%float;
               "z" := DoubleArray [0]%float ]};
     md_entries := {[ "whole_extent" := ULongArray [0; 2; 0; 2; 0; 0]%Z ]} |}.

Definition to_extent (b x y z : list float) (cover : bool)
    : option (list Z) := Some [0; 1; 0; 1; 0; 0]%Z.

Lemma subset_requests_the_extent_it_reported_witness :
  exists self' out,
    get_output_metadata to_extent lower_left mesh_md
    = DatasetDiff.Returns (self', (Some out, []))
    /\ md_entries out !! "whole_extent"
       = Some (ULongArray [0; 1; 0; 1; 0; 0]%Z)
    /\ get_upstream_request self'
         {[ "extent" := ULongArray [0; 2; 0; 2; 0; 0]%Z ]}
       = [ {[ "extent" := ULongArray [0; 1; 0; 1; 0; 0]%Z ]} ].
Proof.
  eexists. eexists. split; [vm_compute; reflexivity|].
  pose proof (subset_requests_the_extent_it_reported to_extent lower_left
                _ mesh_md _ eq_refl) as H.
  cbn [fst] in H. destruct H as (Hwhole & _).
  split; [exact Hwhole|]. vm_compute. reflexivity.
Defined.

End MeshSubsetExtent.

(** ** The vorticity stage on a mesh *)

Module VorticityExecute.
Import Vorticity.

Section Stage.

Local Open Scope float_scope.

Variable cos : float -> float.

Lemma vorticity_length (lat lon comp_0 comp_1 : list float) (nx ny : nat) :
  length (vorticity cos lat lon comp_0 comp_1 nx ny) = (nx * ny)%nat.
Proof.
  unfold vorticity.
  generalize (seq 1 (ny - 1 - 1)) as rows.
  assert (forall (rows : list nat) (w : list float),
            length
              (fold_left
                 (fun w j =>
                    fold_left
                      (fun w i =>
                         <[(j * nx + i)%nat :=
                             vorticity_at (compute_dx cos lat lon nx)
                               (compute_dy lat ny) comp_0 comp_1 nx j i]> w)
                      (seq 1 (nx - 1 - 1)) w)
                 rows w)
            = length w) as H.
  { induction rows as [|j rows IH]; intros w; simpl; [reflexivity|].
    rewrite IH.
    apply (VorticityKernel.fold_insert_length (fun i => (j * nx + i)%nat)
             (vorticity_at (compute_dx cos lat lon nx) (compute_dy lat ny)
                comp_0 comp_1 nx j)). }
  intros rows. now rewrite H, length_replicate.
Qed.

Lemma rd_resize (l : list float) (n k : nat) :
  (length l <= n)%nat ->
  rd (resize n 0 l) k = if decide (k < length l)%nat then rd l k else 0.
Proof.
  intros Hn. unfold rd. rewrite !nth_lookup.
  destruct (decide (k < length l)%nat) as [Hk|Hk].
  - now rewrite lookup_resize by lia.
  - destruct (decide (k < n)%nat) as [Hkn|Hkn].
    + now rewrite lookup_resize_new by lia.
    + rewrite lookup_ge_None_2; [reflexivity|]. rewrite length_resize. lia.
Qed.

(** X18.  On a mesh of [nx] longitudes and [ny] latitudes,
    [2 <= nx <= ny], that holds both wind components with at least
    [nx * ny] values, [execute] returns the mesh with one array added
    after the others, under the name of the vorticity variable and of the
    size of component 0.  Its value at an interior point [(j, i)] of the
    first level is the centred difference
    [0.5 * ((v[j][i+1] - v[j][i-1]) / dx[i] - (u[j-1][i] - u[j+1][i]) / dy[j])],
    at the boundary points it is 0, and where component 0 holds more than
    [nx * ny] values (further levels) every value past the first level is
    0: the vorticity is computed on the first level only. *)
Theorem execute_appends_vorticity (self : teca_vorticity) (m : mesh)
    (request : teca_metadata) (comp_0 comp_1 lon lat : list float) :
  let comp_0_var := get_component_0_variable self request in
  let comp_1_var := get_component_1_variable self request in
  let nx := length lon in
  let ny := length lat in
  comp_0_var <> "" -> comp_1_var <> "" ->
  get_array (point_arrays m) comp_0_var = Some comp_0 ->
  get_array (point_arrays m) comp_1_var = Some comp_1 ->
  x_coordinates m = Some lon -> y_coordinates m = Some lat ->
  (2 <= nx)%nat -> (nx <= ny)%nat ->
  (nx * ny <= length comp_0)%nat -> (nx * ny <= length comp_1)%nat ->
  exists w : list float,
    execute cos self (Some m) request
    = ret {| x_coordinates := Some lon; y_coordinates := Some lat;
             point_arrays :=
               point_arrays m ++ [(get_vorticity_variable self request, w)] |}
    /\ length w = length comp_0
    /\ (forall j i : nat, (j < ny)%nat -> (i < nx)%nat ->
          rd w (j * nx + i)
          = if decide (1 <= j < ny - 1 /\ 1 <= i < nx - 1)%nat
            then vorticity_at (compute_dx cos lat lon nx) (compute_dy lat ny)
                   comp_0 comp_1 nx j i
            else 0)
    /\ (forall k : nat, (nx * ny <= k)%nat -> rd w k = 0).
Proof.
  intros comp_0_var comp_1_var nx ny H0 H1 Hc0 Hc1 Hx Hy Hnx Hny Hl0 Hl1.
  exists (resize (length comp_0) 0 (execute_kernel cos lon lat comp_0 comp_1)).
  assert (length (execute_kernel cos lon lat comp_0 comp_1) = (nx * ny)%nat)
    as Hlen by apply vorticity_length.
  split; [|split; [|split]].
  - unfold execute. fold comp_0_var comp_1_var.
    rewrite (CfReaderExecute.empty_string_false _ H0), Hc0,
      (CfReaderExecute.empty_string_false _ H1), Hc1, Hx, Hy.
    reflexivity.
  - apply length_resize.
  - intros j i Hj Hi. rewrite rd_resize by lia.
    assert (j * nx + i < nx * ny)%nat as Hk.
    { assert (S j * nx <= ny * nx)%nat by (apply Nat.mul_le_mono_r; lia).
      rewrite Nat.mul_succ_l in *. lia. }
    destruct (decide _) as [_|Hn]; [|lia].
    unfold execute_kernel. fold nx ny.
    now apply VorticityKernel.vorticity_lookup.
  - intros k Hk. rewrite rd_resize by lia.
    destruct (decide _); [lia|reflexivity].
Qed.

End Stage.

(** Two levels of the 3 x 3 mesh of the specification, with winds that
    vary from point to point. *)
Definition wind : teca_vorticity :=
  {| component_0_variable := "U"; component_1_variable := "V";
     vorticity_variable := "vorticity" |}.

Definition U : list float :=
  [1; 2; 3; 4; 5; 6; 7; 8; 9; 1; 2; 3; 4; 5; 6; 7; 8; 9]%float.
Definition V : list float :=
  [9; 8; 7; 6; 5; 4; 3; 2; 1; 9; 8; 7; 6; 5; 4; 3; 2; 1]%float.

Definition two_levels : mesh :=
  {| x_coordinates := Some [0; 10; 20]%float;
     y_coordinates := Some [10; 0; -10]%float;
     point_arrays := [("U", U); ("V", V)] |}.

Lemma execute_appends_vorticity_witness :
  exists w : list float,
    execute VorticityKernel.cos_taylor wind (Some two_levels) ∅
    = ret {| x_coordinates := Some [0; 10; 20]%float;
             y_coordinates := Some [10; 0; -10]%float;
             point_arrays := [("U", U); ("V", V); ("vorticity", w)] |}
    /\ length w = 18%nat
    /\ rd w 0 = 0%float
    /\ rd w 13 = 0%float.
Proof.
  destruct (execute_appends_vorticity VorticityKernel.cos_taylor wind
              two_levels ∅ U V [0; 10; 20]%float [10; 0; -10]%float)
    as (w & Hrun & Hlen & Hin & Hout);
    try reflexivity; try discriminate; try (simpl; lia).
  exists w. split; [exact Hrun|]. split; [exact Hlen|].
  split; [apply (Hin 0%nat 0%nat); simpl; lia|apply Hout; simpl; lia].
Defined.

End VorticityExecute.

(** ** The arrays of the mesh the reader returns *)

Module ReturnedArrays.
Import CfReader.
Local Open Scope Z_scope.

Section Reads.

Variable index_of : list float -> float -> option Z.
Variable bounds_to_extent :
  list float -> list float -> list float -> list float -> option (list Z).
Variable nc_open : string -> bool.
Variable nc_get_vara :
  string -> Z -> Z -> list Z -> list Z -> option variant_array.
Variable nc_dispatch : Z -> bool.

Variable r : teca_cf_reader.
Variable atrs : gmap string array_attributes.
Variable file_path : string.
Variable layout : mesh_layout.
Variable offs : Z.






End Reads.

Section Execute.

Variable index_of : list float -> float -> option Z.
Variable bounds_to_extent :
  list float -> list float -> list float -> list float -> option (list Z).
Variable nc_open : string -> bool.
Variable nc_get_vara :
  string -> Z -> Z -> list Z -> list Z -> option variant_array.
Variable nc_dispatch : Z -> bool.


End Execute.


End ReturnedArrays.

(** ** The pipeline of teca_bayesian_ar_detect *)

Module ArDetectPipeline.
Import ArDetect.
Local Open Scope Z_scope.

Lemma nonempty_file_name (v : string) : empty_string v = false -> v <> "".
Proof. destruct v; [discriminate|congruence]. Qed.

Section Main.

Variable rank : Z.
Variable cf_reader_new : reader.
Variable mcf_reader_new : reader.
Variable ar_detect_new : teca_bayesian_ar_detect.
Variable ar_tag_new : teca_binary_segmentation.
Variable cf_writer_new : teca_cf_writer.
Variable exec_new_verbose : Z.
Variable cf_reader_set_properties : reader -> reader.
Variable mcf_reader_set_properties : reader -> reader.
Variable l2_norm_set_properties : teca_l2_norm -> teca_l2_norm.
Variable ivt_int_set_properties :
  teca_integrated_vapor_transport -> teca_integrated_vapor_transport.
Variable ar_detect_set_properties :
  teca_bayesian_ar_detect -> teca_bayesian_ar_detect.
Variable cf_writer_set_properties : teca_cf_writer -> teca_cf_writer.
Variable update_metadata : stage -> pipeline -> CfReader.reader_metadata.
Variable time_step_of :
  list float -> bool -> bool -> string -> string -> string -> option Z.
Variable to_string : float -> string.

Local Abbreviation main :=
  (ArDetect.main rank cf_reader_new mcf_reader_new ar_detect_new ar_tag_new
     cf_writer_new exec_new_verbose cf_reader_set_properties
     mcf_reader_set_properties l2_norm_set_properties ivt_int_set_properties
     ar_detect_set_properties cf_writer_set_properties update_metadata
     time_step_of to_string).

(** Whether the run is configured: [main] does not end at a help
    option. *)
Definition configured (opts : options) : bool :=
  negb ((rank =? 0) && (help opts || advanced_help opts || full_help opts)).

(** The record of a usage error: on rank 0 only. *)
Definition usage_log (msg : string) : list event :=
  if rank =? 0 then [Log (LogRecord ERROR origin msg)] else [].

Definition one_input_message : string :=
  "Extacly one of --input_file or --input_regex can be specified. Use --input_file to activate the multi_cf_reader (HighResMIP datasets) and --input_regex to activate the cf_reader (CAM like datasets)".

(** X20.  Without an input option, [main] reports that exactly one of
    --input_file and --input_regex is to be given (on rank 0) and returns
    -1, unless --compute_ivt or --compute_ivt_magnitude is given: then it
    connects the IVT stages to the null [head] before it comes to that
    check.  With both input options it reports the same error and
    returns -1. *)
Theorem main_without_one_input (opts : options) :
  configured opts = true ->
  (input_file opts = None -> input_regex opts = None ->
   if compute_ivt opts || compute_ivt_magnitude opts
   then main (Some opts) = (NullHead, [])
   else exists p,
          main (Some opts) = (Exit (-1) p, usage_log one_input_message))
  /\ (forall file regex,
        input_file opts = Some file -> input_regex opts = Some regex ->
        exists p,
          main (Some opts) = (Exit (-1) p, usage_log one_input_message)).
Proof.
  unfold configured, usage_log. intros Hc. apply negb_true_iff in Hc.
  unfold ArDetect.main. rewrite Hc. unfold configure.
  split.
  - intros Hf Hr. unfold configure_reader. rewrite Hf, Hr.
    unfold add_ivt_stages.
    destruct (compute_ivt opts); cbn [orb]; [reflexivity|].
    destruct (compute_ivt_magnitude opts); [reflexivity|].
    cbn. unfold usage_error. destruct (rank =? 0); eexists; reflexivity.
  - intros file regex Hf Hr. unfold configure_reader. rewrite Hf, Hr.
    unfold add_ivt_stages.
    destruct (compute_ivt opts);
      [|destruct (compute_ivt_magnitude opts)];
      cbn; unfold usage_error; destruct (rank =? 0); eexists; reflexivity.
Qed.

(** What the steps after the wiring leave alone. *)
Definition same_wiring (p p' : pipeline) : Prop :=
  connections p' = connections p
  /\ l2_norm p' = l2_norm p
  /\ ivt_int p' = ivt_int p
  /\ ivt_variable (ar_detect p') = ivt_variable (ar_detect p)
  /\ threshold_variable (ar_tag p') = threshold_variable (ar_tag p)
  /\ segmentation_variable (ar_tag p') = segmentation_variable (ar_tag p)
  /\ w_point_arrays (cf_writer p') = w_point_arrays (cf_writer p)
  /\ w_file_name (cf_writer p') = w_file_name (cf_writer p).

Lemma run_exit (opts : options) (p p' : pipeline) (code : Z)
    (log : list event) :
  run to_string opts p = (Exit code p', log) ->
  code = 0 /\ log = [] /\ same_wiring p p' /\ cf_writer p' = cf_writer p.
Proof.
  unfold run. destruct (binary_ar_threshold opts); [|discriminate].
  intros [= <- <- <-]. repeat split.
Qed.

(** The time axis the metadata holds under the name "time". *)
Definition time_axis_of (md : CfReader.reader_metadata) (time : list float)
    (calendar units : string) : Prop :=
  exists atrs time_atts coords,
    CfReader.md_attributes md = Some atrs
    /\ atrs !! "time" = Some time_atts
    /\ CfReader.att_calendar time_atts = Some calendar
    /\ CfReader.att_units time_atts = Some units
    /\ CfReader.md_coordinates md = Some coords
    /\ CfReader.coord_t coords = Some time.

(** The steps of the writer after the dates. *)
Definition steps_of_dates (opts : options) (p p' : pipeline)
    (reader : stage) : Prop :=
  match start_date opts, end_date opts with
  | None, None => cf_writer p' = cf_writer p
  | _, _ =>
      exists time calendar units,
        time_axis_of (update_metadata reader p) time calendar units
        /\ match start_date opts with
           | Some d =>
               time_step_of time true true calendar units d
               = Some (w_first_step (cf_writer p'))
           | None => w_first_step (cf_writer p') = w_first_step (cf_writer p)
           end
        /\ match end_date opts with
           | Some d =>
               time_step_of time false true calendar units d
               = Some (w_last_step (cf_writer p'))
           | None => w_last_step (cf_writer p') = w_last_step (cf_writer p)
           end
  end.

Lemma requested_dates_exit (opts : options) (p p' : pipeline)
    (reader : stage) (log : list event) :
  requested_dates update_metadata time_step_of to_string opts p reader
  = (Exit 0 p', log) ->
  log = [] /\ same_wiring p p' /\ steps_of_dates opts p p' reader.
Proof.
  assert (forall q, same_wiring p q ->
            run to_string opts q = (Exit 0 p', log) ->
            log = [] /\ same_wiring p p' /\ cf_writer p' = cf_writer q)
    as Hrun.
  { intros q Hq H. apply run_exit in H. destruct H as (_ & -> & Hs & Hw).
    split; [reflexivity|]. split; [|exact Hw]. unfold same_wiring in *.
    repeat match goal with H : _ /\ _ |- _ => destruct H end.
    repeat split; congruence. }
  assert (same_wiring p p) as Hpp by (repeat split).
  unfold requested_dates, error, steps_of_dates, time_axis_of.
  destruct (start_date opts) as [sd|], (end_date opts) as [ed|];
    try (now apply Hrun);
    (destruct (CfReader.md_attributes _) as [atrs|]; [|discriminate]);
    (destruct (atrs !! "time") as [[c1 c2 c3 c4 [calendar|] [units|]]|] eqn:Ht;
     try discriminate);
    (destruct (CfReader.md_coordinates _) as [[x1 x2 x3 x4 x5 x6 x7 [time|]]|];
     try discriminate);
    repeat match goal with
           | |- context [time_step_of ?a ?b ?c ?d ?e ?f] =>
               let H := fresh "Hstep" in
               destruct (time_step_of a b c d e f) eqn:H; try discriminate
           end;
    intros Hr; apply Hrun in Hr; try (repeat split; fail);
    destruct Hr as (-> & Hs & Hw);
    (split; [reflexivity|]); (split; [exact Hs|]);
    exists time, calendar, units;
    (split; [do 3 eexists; repeat split; eauto|]);
    rewrite Hw; cbn; rewrite ?Hstep, ?Hstep0; split; reflexivity.
Qed.

Lemma configure_names_wiring (opts : options) (p : pipeline) :
  connections (configure_names opts p) = connections p
  /\ cf_writer (configure_names opts p) = cf_writer p
  /\ ar_tag (configure_names opts p) = ar_tag p.
Proof.
  unfold configure_names, when_given.
  destruct (periodic_in_x opts), (x_axis opts), (y_axis opts),
           (wind_u opts), (wind_v opts), (specific_humidity opts),
           (ivt_u opts), (ivt_v opts), (ivt opts); repeat split.
Qed.

Lemma configure_writer_wiring (opts : options) (p : pipeline) :
  connections (configure_writer opts p) = connections p
  /\ l2_norm (configure_writer opts p) = l2_norm p
  /\ ivt_int (configure_writer opts p) = ivt_int p
  /\ ivt_variable (ar_detect (configure_writer opts p))
     = ivt_variable (ar_detect p)
  /\ ar_tag (configure_writer opts p) = ar_tag p
  /\ w_point_arrays (cf_writer (configure_writer opts p))
     = written_point_arrays opts p
  /\ (forall n, first_step opts = Some n ->
        w_first_step (cf_writer (configure_writer opts p)) = n)
  /\ (forall n, last_step opts = Some n ->
        w_last_step (cf_writer (configure_writer opts p)) = n).
Proof.
  unfold configure_writer, when_given.
  destruct (output_file opts), (steps_per_file opts), (first_step opts),
           (last_step opts), (verbose opts), (n_threads opts);
    repeat split; intros; cbn; congruence.
Qed.

(** The names the basic options give override what the stages had. *)
Lemma configure_names_fields (opts : options) (p : pipeline) :
  (forall v, ivt opts = Some v ->
     l2_norm_variable (l2_norm (configure_names opts p)) = v
     /\ ivt_variable (ar_detect (configure_names opts p)) = v)
  /\ (forall v, ivt_u opts = Some v ->
        ivt_u_variable (ivt_int (configure_names opts p)) = v
        /\ component_0_variable (l2_norm (configure_names opts p)) = v)
  /\ (forall v, ivt_v opts = Some v ->
        ivt_v_variable (ivt_int (configure_names opts p)) = v
        /\ component_1_variable (l2_norm (configure_names opts p)) = v)
  /\ (forall v, wind_u opts = Some v ->
        wind_u_variable (ivt_int (configure_names opts p)) = v)
  /\ (forall v, wind_v opts = Some v ->
        wind_v_variable (ivt_int (configure_names opts p)) = v)
  /\ (forall v, specific_humidity opts = Some v ->
        specific_humidity_variable (ivt_int (configure_names opts p)) = v).
Proof.
  unfold configure_names, when_given.
  destruct (periodic_in_x opts), (x_axis opts), (y_axis opts),
           (wind_u opts), (wind_v opts), (specific_humidity opts),
           (ivt_u opts), (ivt_v opts), (ivt opts);
    repeat split; intros; cbn; congruence.
Qed.

(** The reader the options select, and the wiring of a run. *)
Definition source (opts : options) : stage :=
  match input_file opts with
  | Some _ => mcf_reader_stage
  | None => cf_reader_stage
  end.

Definition wiring (opts : options) : list (stage * nat * stage) :=
  (if compute_ivt opts
   then [(ivt_int_stage, 0%nat, source opts);
         (l2_norm_stage, 0%nat, ivt_int_stage)]
   else if compute_ivt_magnitude opts
   then [(l2_norm_stage, 0%nat, source opts)]
   else [])
  ++ [(norm_coords_stage, 0%nat,
       if compute_ivt opts || compute_ivt_magnitude opts
       then l2_norm_stage else source opts);
      (ar_detect_stage, 0%nat, params_stage);
      (ar_detect_stage, 1%nat, norm_coords_stage);
      (ar_tag_stage, 0%nat, ar_detect_stage);
      (cf_writer_stage, 0%nat, ar_tag_stage)].

(** The pipeline when the names have been passed to the stages. *)
Definition named (opts : options) : pipeline :=
  configure_names opts
    (fst (configure_reader opts
            (set_properties cf_reader_set_properties
               mcf_reader_set_properties l2_norm_set_properties
               ivt_int_set_properties ar_detect_set_properties
               cf_writer_set_properties
               (construct cf_reader_new mcf_reader_new ar_detect_new
                  ar_tag_new cf_writer_new exec_new_verbose)))).

Lemma named_wiring (opts : options) :
  connections (named opts) = []
  /\ threshold_variable (ar_tag (named opts)) = "ar_probability"
  /\ segmentation_variable (ar_tag (named opts)) = "ar_binary_tag".
Proof.
  unfold named.
  destruct (configure_names_wiring opts
              (fst (configure_reader opts
                      (set_properties cf_reader_set_properties
                         mcf_reader_set_properties l2_norm_set_properties
                         ivt_int_set_properties ar_detect_set_properties
                         cf_writer_set_properties
                         (construct cf_reader_new mcf_reader_new
                            ar_detect_new ar_tag_new cf_writer_new
                            exec_new_verbose)))))
    as (-> & _ & ->).
  unfold configure_reader.
  destruct (input_file opts), (input_regex opts); repeat split.
Qed.

Lemma add_ivt_stages_wiring (opts : options) (p p' : pipeline)
    (h : stage) (head' : option stage) :
  add_ivt_stages opts p (Some h) = Some (p', head') ->
  connections p'
  = connections p
    ++ (if compute_ivt opts
        then [(ivt_int_stage, 0%nat, h); (l2_norm_stage, 0%nat, ivt_int_stage)]
        else if compute_ivt_magnitude opts
        then [(l2_norm_stage, 0%nat, h)]
        else [])
  /\ head' = Some (if compute_ivt opts || compute_ivt_magnitude opts
                   then l2_norm_stage else h)
  /\ l2_norm p' = l2_norm p /\ ivt_int p' = ivt_int p
  /\ ar_detect p' = ar_detect p /\ ar_tag p' = ar_tag p
  /\ cf_writer p' = cf_writer p.
Proof.
  unfold add_ivt_stages.
  destruct (compute_ivt opts); [|destruct (compute_ivt_magnitude opts)];
    intros [= <- <-]; cbn; rewrite <- ?app_assoc, ?app_nil_r; repeat split.
Qed.

Lemma written_point_arrays_names (opts : options) (p q : pipeline) :
  l2_norm p = l2_norm q -> ivt_int p = ivt_int q ->
  written_point_arrays opts p = written_point_arrays opts q.
Proof. unfold written_point_arrays. now intros -> ->. Qed.

(** What [main] has done when it returns 0: the pipeline [q] it had
    wired when it came to the dates. *)
Lemma main_exit (opts : options) (p : pipeline) (log : list event) :
  main (Some opts) = (Exit 0 p, log) ->
  log = []
  /\ (input_file opts = None <-> input_regex opts <> None)
  /\ compute_ivt opts && compute_ivt_magnitude opts = false
  /\ exists q,
       connections q = wiring opts
       /\ l2_norm q = l2_norm (named opts)
       /\ ivt_int q = ivt_int (named opts)
       /\ ivt_variable (ar_detect q) = ivt_variable (ar_detect (named opts))
       /\ threshold_variable (ar_tag q) = "ar_probability"
       /\ segmentation_variable (ar_tag q) = "ar_binary_tag"
       /\ w_point_arrays (cf_writer q) = written_point_arrays opts q
       /\ w_file_name (cf_writer q) <> ""
       /\ (forall n, first_step opts = Some n -> w_first_step (cf_writer q) = n)
       /\ (forall n, last_step opts = Some n -> w_last_step (cf_writer q) = n)
       /\ same_wiring q p
       /\ steps_of_dates opts q p (source opts).
Proof.
  unfold ArDetect.main.
  destruct ((rank =? 0) && _); [discriminate|].
  unfold configure.
  pose proof (named_wiring opts) as (Hc0 & Ht0 & Hs0).
  unfold named in *.
  destruct (configure_reader opts _) as [p1 head] eqn:Hreader.
  cbn [fst] in *.
  assert (head = match input_file opts, input_regex opts with
                 | None, None => None
                 | _, _ => Some (source opts)
                 end) as Hhead.
  { revert Hreader. unfold configure_reader, source.
    destruct (input_file opts), (input_regex opts); now intros [= <- <-]. }
  set (p2 := configure_names opts p1) in *.
  destruct (add_ivt_stages opts p2 head) as [[p3 head3]|] eqn:Hivt;
    [|discriminate].
  destruct (input_file opts) as [file|] eqn:Hfile,
           (input_regex opts) as [regex|] eqn:Hregex;
    cbn [bool_decide decide_rel is_Some andb orb negb];
    try (unfold usage_error; destruct (rank =? 0); discriminate);
    rewrite ?bool_decide_eq_true_2 by eauto;
    rewrite ?bool_decide_eq_false_2 by (intros [? ?]; discriminate);
    cbn [andb orb negb];
    try (unfold usage_error; destruct (rank =? 0); discriminate).
  all: subst head;
    apply add_ivt_stages_wiring in Hivt;
    destruct Hivt as (Hc3 & -> & Hl3 & Hi3 & Ha3 & Ht3 & Hw3);
    destruct (configure_writer_wiring opts p3)
      as (Hc4 & Hl4 & Hi4 & Ha4 & Ht4 & Hp4 & Hfirst & Hlast);
    set (p4 := configure_writer opts p3) in *;
    destruct (compute_ivt opts && compute_ivt_magnitude opts) eqn:Hboth;
    [unfold usage_error; destruct (rank =? 0); discriminate|];
    destruct (empty_string (w_file_name (cf_writer p4))) eqn:Hname;
    [unfold usage_error; destruct (rank =? 0); discriminate|];
    intros Hrun; apply requested_dates_exit in Hrun;
    destruct Hrun as (-> & Hsame & Hsteps);
    (split; [reflexivity|]);
    (split; [split; [discriminate || congruence
                    |intros; congruence || reflexivity]|]);
    (split; [reflexivity|]);
    eexists;
    (split; [|split; [|split; [|split; [|split; [|split; [|split; [|split;
       [|split; [|split; [|split; [exact Hsame|exact Hsteps]]]]]]]]]]]);
    cbn.
  all: try (rewrite Hc4, Hc3, Hc0; unfold wiring, source; rewrite Hfile;
            cbn [app]; now rewrite <- !app_assoc).
  all: try congruence.
  all: try (rewrite Hp4; apply written_point_arrays_names; cbn; congruence).
  all: try (fold p4; now apply nonempty_file_name).
  all: assumption.
Qed.


(** X22.  When [main] returns 0, each name a basic option gives is the
    one the stages use, whatever the advanced options set: --ivt names
    the output of the norm and the input of the detector, --ivt_u and
    --ivt_v the outputs of the IVT integral and the inputs of the norm,
    --wind_u, --wind_v and --specific_humidity the inputs of the
    integral; and the writer is given ar_probability, ar_binary_tag and,
    as the write flags ask, the names the norm and the integral have for
    their outputs. *)
Theorem basic_options_name_the_arrays (opts : options) (p : pipeline)
    (log : list event) :
  main (Some opts) = (Exit 0 p, log) ->
  (forall v, ivt opts = Some v ->
     l2_norm_variable (l2_norm p) = v /\ ivt_variable (ar_detect p) = v)
  /\ (forall v, ivt_u opts = Some v ->
        ivt_u_variable (ivt_int p) = v
        /\ component_0_variable (l2_norm p) = v)
  /\ (forall v, ivt_v opts = Some v ->
        ivt_v_variable (ivt_int p) = v
        /\ component_1_variable (l2_norm p) = v)
  /\ (forall v, wind_u opts = Some v -> wind_u_variable (ivt_int p) = v)
  /\ (forall v, wind_v opts = Some v -> wind_v_variable (ivt_int p) = v)
  /\ (forall v, specific_humidity opts = Some v ->
        specific_humidity_variable (ivt_int p) = v)
  /\ w_point_arrays (cf_writer p)
     = ["ar_probability"; "ar_binary_tag"]
       ++ (if (compute_ivt opts || compute_ivt_magnitude opts)
              && write_ivt_magnitude opts
           then [l2_norm_variable (l2_norm p)] else [])
       ++ (if compute_ivt opts && write_ivt opts
           then [ivt_u_variable (ivt_int p); ivt_v_variable (ivt_int p)]
           else []).
Proof.
  intros H. apply main_exit in H.
  destruct H as (_ & _ & _ & q & _ & Hl & Hi & Ha & _ & _ & Hp & _
                 & _ & _ & Hsame & _).
  destruct Hsame as (_ & Hl' & Hi' & Ha' & _ & _ & Hp' & _).
  rewrite Hl', Hi', Ha', Hp', Hp, Hl, Hi, Ha.
  unfold named.
  destruct (configure_names_fields opts
              (fst (configure_reader opts
                      (set_properties cf_reader_set_properties
                         mcf_reader_set_properties l2_norm_set_properties
                         ivt_int_set_properties ar_detect_set_properties
                         cf_writer_set_properties
                         (construct cf_reader_new mcf_reader_new
                            ar_detect_new ar_tag_new cf_writer_new
                            exec_new_verbose)))))
    as (H1 & H2 & H3 & H4 & H5 & H6).
  repeat (split; [assumption|]).
  unfold written_point_arrays. rewrite Hl, Hi. unfold named.
  destruct ((compute_ivt opts || compute_ivt_magnitude opts)
            && write_ivt_magnitude opts),
           (compute_ivt opts && write_ivt opts); reflexivity.
Qed.

(** X23.  When [main] returns 0 and --start_date or --end_date is given,
    the metadata of the reader holds the attributes of a variable named
    time with a calendar and units, and a time coordinate; the first
    step of the writer is the step [time_step_of] finds for the start
    date and the last step the one it finds for the end date, whatever
    --first_step and --last_step say.  Without a date the steps are the
    ones of --first_step and --last_step. *)
Theorem dates_select_the_steps (opts : options) (p : pipeline)
    (log : list event) :
  main (Some opts) = (Exit 0 p, log) ->
  exists q,
    connections q = wiring opts
    /\ (forall n, first_step opts = Some n -> w_first_step (cf_writer q) = n)
    /\ (forall n, last_step opts = Some n -> w_last_step (cf_writer q) = n)
    /\ match start_date opts, end_date opts with
       | None, None => cf_writer p = cf_writer q
       | _, _ =>
           exists time calendar units,
             time_axis_of (update_metadata (source opts) q)
               time calendar units
             /\ match start_date opts with
                | Some d =>
                    time_step_of time true true calendar units d
                    = Some (w_first_step (cf_writer p))
                | None =>
                    w_first_step (cf_writer p) = w_first_step (cf_writer q)
                end
             /\ match end_date opts with
                | Some d =>
                    time_step_of time false true calendar units d
                    = Some (w_last_step (cf_writer p))
                | None =>
                    w_last_step (cf_writer p) = w_last_step (cf_writer q)
                end
       end.
Proof.
  intros H. apply main_exit in H.
  destruct H as (_ & _ & _ & q & Hc & _ & _ & _ & _ & _ & _ & _
                 & Hfirst & Hlast & _ & Hsteps).
  exists q. repeat (split; [assumption|]). exact Hsteps.
Qed.

End Main.

(** A run on CAM like files: the IVT is computed and written, the
    advanced options name the inputs of the norm otherwise than --ivt_u
    and --ivt_v do, and the steps are given both by number and by date. *)
Module CamRun.

Definition new_reader : reader :=
  {| input := ""; r_periodic_in_x := 0; x_axis_variable := "lon";
     y_axis_variable := "lat"; z_axis_variable := "" |}.

Definition new_ar_detect : teca_bayesian_ar_detect :=
  {| ivt_variable := ""; ar_verbose := 0; ar_thread_pool_size := 1 |}.

Definition new_ar_tag : teca_binary_segmentation :=
  {| threshold_variable := ""; segmentation_variable := "";
     low_threshold_value := 0; segmentation_variable_attributes := [] |}.

Definition new_cf_writer : teca_cf_writer :=
  {| w_thread_pool_size := -1; w_verbose := 0; w_information_arrays := [];
     w_point_arrays := []; w_file_name := ""; w_steps_per_file := 1;
     w_first_step := 0; w_last_step := -1 |}.

Definition advanced_l2_norm (n : teca_l2_norm) : teca_l2_norm :=
  set_component_1_variable "ADV_V" (set_component_0_variable "ADV_U" n).

Definition time_attributes : CfReader.array_attributes :=
  {| CfReader.cf_type_code := Some 6; CfReader.cf_id := Some 0;
     CfReader.cf_dims := Some [8]; CfReader.cf_dim_names := Some ["time"];
     CfReader.att_calendar := Some "noleap";
     CfReader.att_units := Some "days since 1990-01-01 00:00:00" |}.

Definition reported (_ : stage) (_ : pipeline) : CfReader.reader_metadata :=
  {| CfReader.md_coordinates :=
       Some {| CfReader.x_variable := Some "lon";
               CfReader.y_variable := Some "lat";
               CfReader.z_variable := Some "plev";
               CfReader.t_variable := Some "time";
               CfReader.coord_x := Some [0; 1]%float;
               CfReader.coord_y := Some [0; 1]%float;
               CfReader.coord_z := Some [0]%float;
               CfReader.coord_t := Some [0; 1; 2; 3; 4; 5; 6; 7]%float |};
     CfReader.md_whole_extent := Some [0; 1; 0; 1; 0; 0];
     CfReader.md_step_count := Some [8];
     CfReader.md_root := Some "/data";
     CfReader.md_files := Some ["cam.nc"];
     CfReader.md_attributes := Some {[ "time" := time_attributes ]} |}.

(** The step of a date: the lower bound for a start date, the upper bound
    for an end date. *)
Definition step_of_date (time : list float) (lower clamp : bool)
    (calendar units date : string) : option Z :=
  if lower then Some 2 else Some 5.

Definition opts : options :=
  {| input_file := None; input_regex := Some "cam\.h2\..*\.nc$";
     ivt := None; compute_ivt_magnitude := false;
     ivt_u := Some "IVT_X"; ivt_v := Some "IVT_Y";
     write_ivt_magnitude := true; compute_ivt := true;
     specific_humidity := None; wind_u := Some "U"; wind_v := Some "V";
     write_ivt := true; x_axis := None; y_axis := None; z_axis := None;
     binary_ar_threshold := Some 0.5%float;
     output_file := Some "bayesian_ar_detect_%t%.nc";
     first_step := Some 0; last_step := Some 7; steps_per_file := None;
     start_date := Some "1990-01-03 00:00:00";
     end_date := Some "1990-01-06 00:00:00";
     n_threads := None; periodic_in_x := Some 1; verbose := false;
     help := false; advanced_help := false; full_help := false |}.

(** The same without an input. *)
Definition no_input : options :=
  {| input_file := None; input_regex := None;
     ivt := None; compute_ivt_magnitude := false;
     ivt_u := Some "IVT_X"; ivt_v := Some "IVT_Y";
     write_ivt_magnitude := true; compute_ivt := true;
     specific_humidity := None; wind_u := Some "U"; wind_v := Some "V";
     write_ivt := true; x_axis := None; y_axis := None; z_axis := None;
     binary_ar_threshold := Some 0.5%float;
     output_file := Some "bayesian_ar_detect_%t%.nc";
     first_step := Some 0; last_step := Some 7; steps_per_file := None;
     start_date := Some "1990-01-03 00:00:00";
     end_date := Some "1990-01-06 00:00:00";
     n_threads := None; periodic_in_x := Some 1; verbose := false;
     help := false; advanced_help := false; full_help := false |}.

Definition invocation (parsed : option options) : W ending :=
  ArDetect.main 0 new_reader new_reader new_ar_detect new_ar_tag
    new_cf_writer 0 id id advanced_l2_norm id id id reported step_of_date
    (fun _ => "0.500000") parsed.

(** The pipeline [main] leaves. *)
Definition result : pipeline :=
  match fst (invocation (Some opts)) with
  | Exit _ p => p
  | _ => construct new_reader new_reader new_ar_detect new_ar_tag
           new_cf_writer 0
  end.

Lemma invocation_returns : invocation (Some opts) = (Exit 0 result, []).
Proof. vm_compute. reflexivity. Defined.

End CamRun.

Lemma main_without_one_input_witness :
  CamRun.invocation (Some CamRun.no_input) = (NullHead, []).
Proof.
  exact (proj1 (main_without_one_input 0 CamRun.new_reader CamRun.new_reader
                  CamRun.new_ar_detect CamRun.new_ar_tag CamRun.new_cf_writer
                  0 id id CamRun.advanced_l2_norm id id id CamRun.reported
                  CamRun.step_of_date (fun _ => "0.500000") CamRun.no_input
                  eq_refl) eq_refl eq_refl).
Defined.


Lemma basic_options_name_the_arrays_witness :
  CamRun.invocation (Some CamRun.opts) = (Exit 0 CamRun.result, [])
  /\ component_0_variable (l2_norm CamRun.result) = "IVT_X"
  /\ w_point_arrays (cf_writer CamRun.result)
     = ["ar_probability"; "ar_binary_tag"; "IVT"; "IVT_X"; "IVT_Y"].
Proof.
  split; [exact CamRun.invocation_returns|].
  destruct (basic_options_name_the_arrays 0 CamRun.new_reader
              CamRun.new_reader CamRun.new_ar_detect CamRun.new_ar_tag
              CamRun.new_cf_writer 0 id id CamRun.advanced_l2_norm id id id
              CamRun.reported CamRun.step_of_date (fun _ => "0.500000")
              CamRun.opts CamRun.result [] CamRun.invocation_returns)
    as (_ & Hu & _ & _ & _ & _ & Hp).
  split; [exact (proj2 (Hu "IVT_X" eq_refl))|exact Hp].
Defined.

Lemma dates_select_the_steps_witness :
  CamRun.invocation (Some CamRun.opts) = (Exit 0 CamRun.result, [])
  /\ first_step CamRun.opts = Some 0
  /\ w_first_step (cf_writer CamRun.result) = 2
  /\ last_step CamRun.opts = Some 7
  /\ w_last_step (cf_writer CamRun.result) = 5.
Proof.
  split; [exact CamRun.invocation_returns|].
  destruct (dates_select_the_steps 0 CamRun.new_reader CamRun.new_reader
              CamRun.new_ar_detect CamRun.new_ar_tag CamRun.new_cf_writer
              0 id id CamRun.advanced_l2_norm id id id CamRun.reported
              CamRun.step_of_date (fun _ => "0.500000") CamRun.opts
              CamRun.result [] CamRun.invocation_returns)
    as (q & _ & _ & _ & time & calendar & units & _ & Hs & He).
  unfold CamRun.step_of_date in Hs, He.
  repeat split; congruence.
Defined.

End ArDetectPipeline.

(** ** The metadata of the vertical integral *)

Module VerticalIntegralMetadata.
Import VerticalIntegral VerticalIntegralReport.
Local Open Scope Z_scope.

Section Report.

Variable append : variant_array -> string -> variant_array.
Variable teca_array_attributes :
  Z -> Z -> Z -> string -> string -> string -> teca_metadata.
Variable double_code : Z.
Variable point_centering : Z.

Local Abbreviation get_output_metadata :=
  (get_output_metadata append teca_array_attributes double_code
     point_centering).

Lemma get_6_ulongs_values (md : teca_metadata) (name : string)
    (vals : list Z) :
  md_get_ulongs md name 6 = Some vals ->
  get_6_ulongs md name
  = [nth 0 vals 0; nth 1 vals 0; nth 2 vals 0; nth 3 vals 0;
     nth 4 vals 0; nth 5 vals 0].
Proof. unfold get_6_ulongs. now intros ->. Qed.

Lemma get_6_ulongs_absent (md : teca_metadata) (name : string) :
  md_get_ulongs md name 6 = None ->
  get_6_ulongs md name = [0; 0; 0; 0; 0; 0].
Proof. unfold get_6_ulongs. now intros ->. Qed.

(** X24.  On an input with a z coordinate of numbers and a whole extent
    of more than one level, the stage reports, without an error, a mesh
    of one level: the whole extent of the input with its two z entries
    set to 0, the coordinates of the input with z replaced by the single
    value 0, the attributes of the input with those of the output
    variable added, and the entries of the input otherwise, but for
    [variables], and for [extent] and [bounds], which stay absent where
    they were and have their z entries set to 0 where they were there. *)
Theorem report_of_vertical_integral_is_one_level
    (self : teca_vertical_integral) (input_md_0 : metadata)
    (coords : teca_metadata) (z z0 : variant_array) (we : list Z) :
  md_coordinates input_md_0 = Some coords ->
  coords !! "z" = Some z ->
  new_z z = Some z0 ->
  md_get_ulongs (md_entries input_md_0) "whole_extent" 6 = Some we ->
  ulong (nth 5 we 0 - nth 4 we 0 + 1) <> 1 ->
  exists out,
    get_output_metadata self input_md_0 = DatasetDiff.Returns (out, [])
    /\ md_entries out !! "whole_extent"
       = Some (ULongArray [nth 0 we 0; nth 1 we 0; nth 2 we 0; nth 3 we 0;
                           0; 0])
    /\ md_coordinates out = Some (<["z" := z0]> coords)
    /\ (exists atts,
          md_attributes out = Some atts
          /\ atts !! output_variable_name self
             = Some (teca_array_attributes double_code point_centering 0
                       "unset" "unset" "unset")
          /\ forall name, name <> output_variable_name self ->
               atts !! name = md_attributes input_md_0 ≫= (.!! name))
    /\ (md_entries out !! "extent"
        = match md_entries input_md_0 !! "extent" with
          | Some _ =>
              Some (ULongArray
                      (flatten_z 0 (get_6_ulongs (md_entries input_md_0)
                                      "extent")))
          | None => None
          end)
    /\ (md_entries out !! "bounds"
        = match md_entries input_md_0 !! "bounds" with
          | Some _ =>
              Some (DoubleArray
                      (flatten_z 0%float
                         (get_6_doubles (md_entries input_md_0) "bounds")))
          | None => None
          end)
    /\ forall key : string,
         key <> "whole_extent" -> key <> "extent" -> key <> "bounds" ->
         key <> "variables" ->
         md_entries out !! key = md_entries input_md_0 !! key.
Proof.
  intros Hc Hz Hz0 Hwe Hnz.
  unfold VerticalIntegralReport.get_output_metadata.
  rewrite Hc. cbn [default from_option id]. rewrite Hz.
  cbn [mbind option_bind].
  rewrite Hz0.
  rewrite (get_6_ulongs_values _ _ _ Hwe).
  cbn [nth].
  destruct (ulong (nth 5 we 0 - nth 4 we 0 + 1) =? 1) eqn:E;
    [apply Z.eqb_eq in E; contradiction|].
  eexists. split; [reflexivity|].
  cbn [md_entries md_coordinates md_attributes].
  set (entries1 := match md_entries input_md_0 !! "variables" with
                   | Some variables => _
                   | None => _
                   end).
  assert (forall key : string, key <> "variables" ->
            entries1 !! key = md_entries input_md_0 !! key) as H1.
  { intros key Hk. subst entries1.
    destruct (md_entries input_md_0 !! "variables");
      now rewrite lookup_insert_ne by congruence. }
  set (entries2 := <["whole_extent" := _]> entries1).
  assert (forall key : string, key <> "variables" -> key <> "whole_extent" ->
            entries2 !! key = md_entries input_md_0 !! key) as H2.
  { intros key Hk Hk'. subst entries2.
    rewrite lookup_insert_ne by congruence. now apply H1. }
  assert (md_has entries2 "extent"
          = md_has (md_entries input_md_0) "extent") as He.
  { unfold md_has. now rewrite H2 by discriminate. }
  set (entries3 := if md_has entries2 "extent" then _ else entries2).
  assert (forall key : string, key <> "extent" ->
            entries3 !! key = entries2 !! key) as H3.
  { intros key Hk. subst entries3.
    destruct (md_has entries2 "extent");
      [now rewrite lookup_insert_ne by congruence|reflexivity]. }
  assert (md_has entries3 "bounds"
          = md_has (md_entries input_md_0) "bounds") as Hb.
  { unfold md_has. rewrite H3 by discriminate.
    now rewrite H2 by discriminate. }
  set (entries4 := if md_has entries3 "bounds" then _ else entries3).
  assert (forall key : string, key <> "bounds" ->
            entries4 !! key = entries3 !! key) as H4.
  { intros key Hk. subst entries4.
    destruct (md_has entries3 "bounds");
      [now rewrite lookup_insert_ne by congruence|reflexivity]. }
  split.
  { rewrite H4, H3 by discriminate. subst entries2.
    now rewrite lookup_insert_eq. }
  split; [reflexivity|].
  split.
  { eexists. split; [reflexivity|]. split.
    - now rewrite lookup_insert_eq.
    - intros name Hn. rewrite lookup_insert_ne by congruence.
      destruct (md_attributes input_md_0); [reflexivity|].
      cbn. apply lookup_empty. }
  split.
  { rewrite H4 by discriminate. subst entries3. rewrite He.
    unfold md_has.
    destruct (md_entries input_md_0 !! "extent") eqn:Ee.
    - now rewrite lookup_insert_eq.
    - rewrite H2 by discriminate. exact Ee. }
  split.
  { subst entries4. rewrite Hb. unfold md_has.
    destruct (md_entries input_md_0 !! "bounds") eqn:Eb.
    - now rewrite lookup_insert_eq.
    - rewrite H3, H2 by discriminate. exact Eb. }
  intros key K1 K2 K3 K4.
  rewrite H4, H3, H2 by assumption. reflexivity.
Qed.

(** X25.  On an input with a z coordinate of numbers whose whole extent
    has one level, or that has no whole extent at all (the six values
    stay 0), the stage reports the error that it requires 3D data and
    returns the metadata of the input as it is: the output variable is
    not reported. *)
Theorem report_of_flat_mesh_is_the_input
    (self : teca_vertical_integral) (input_md_0 : metadata)
    (coords : teca_metadata) (z z0 : variant_array) :
  md_coordinates input_md_0 = Some coords ->
  coords !! "z" = Some z ->
  new_z z = Some z0 ->
  match md_get_ulongs (md_entries input_md_0) "whole_extent" 6 with
  | Some we => ulong (nth 5 we 0 - nth 4 we 0 + 1) = 1
  | None => True
  end ->
  get_output_metadata self input_md_0
  = DatasetDiff.Returns
      (input_md_0,
       [Log (LogRecord ERROR origin
               "This calculation requires 3D data. The current dataset whole_extents are [, , , , , ]")]).
Proof.
  intros Hc Hz Hz0 Hwe.
  unfold VerticalIntegralReport.get_output_metadata.
  rewrite Hc. cbn [default from_option id]. rewrite Hz.
  cbn [mbind option_bind].
  rewrite Hz0.
  destruct (md_get_ulongs (md_entries input_md_0) "whole_extent" 6)
    as [we|] eqn:E.
  - rewrite (get_6_ulongs_values _ _ _ E). cbn [nth].
    rewrite Hwe. reflexivity.
  - rewrite (get_6_ulongs_absent _ _ E). reflexivity.
Qed.

End Report.

(** The metadata of a mesh of 4 by 2 points on 10 levels, and the same
    without its whole extent. *)
Module TenLevels.

Definition append_string (a : variant_array) (s : string) : variant_array :=
  match a with
  | StringArray v => StringArray (v ++ [s])
  | _ => a
  end.

Definition attributes_of (type_code centering size : Z)
    (units long_name description : string) : teca_metadata :=
  {[ "type_code" := ULongArray [type_code];
     "centering" := ULongArray [centering];
     "size" := ULongArray [size];
     "units" := StringArray [units];
     "long_name" := StringArray [long_name];
     "description" := StringArray [description] ]}.

Definition ivt_u_integral : teca_vertical_integral :=
  {| long_name := "integrated vapor transport"; units := "kg m-1 s-1";
     hybrid_a_variable := "a_bnds"; hybrid_b_variable := "b_bnds";
     sigma_variable := ""; surface_p_variable := "PS";
     p_top_variable := "ptop"; using_hybrid := 1;
     p_top_override_value := 0; integration_variable := "UQ";
     output_variable_name := "IVT_U" |}.

Definition mesh_coordinates : teca_metadata :=
  {[ "x" := DoubleArray [0; 1; 2; 3]%float;
     "y" := DoubleArray [0; 1]%float;
     "z" := DoubleArray [1; 2; 3; 4; 5; 6; 7; 8; 9; 10]%float ]}.

Definition levels : metadata :=
  {| md_coordinates := Some mesh_coordinates;
     md_attributes := None;
     md_entries :=
       {[ "whole_extent" := ULongArray [0; 3; 0; 1; 0; 9];
          "variables" := StringArray ["UQ"; "PS"] ]} |}.

Definition no_extent : metadata :=
  {| md_coordinates := Some mesh_coordinates;
     md_attributes := None;
     md_entries := {[ "variables" := StringArray ["UQ"; "PS"] ]} |}.

End TenLevels.

Lemma report_of_vertical_integral_is_one_level_witness :
  exists out,
    get_output_metadata TenLevels.append_string TenLevels.attributes_of 12 1
      TenLevels.ivt_u_integral TenLevels.levels
    = DatasetDiff.Returns (out, [])
    /\ md_entries out !! "whole_extent"
       = Some (ULongArray [0; 3; 0; 1; 0; 0])
    /\ md_coordinates out
       = Some (<["z" := DoubleArray [0%float]]> TenLevels.mesh_coordinates).
Proof.
  destruct (report_of_vertical_integral_is_one_level
              TenLevels.append_string TenLevels.attributes_of 12 1
              TenLevels.ivt_u_integral TenLevels.levels TenLevels.mesh_coordinates
              (DoubleArray [1; 2; 3; 4; 5; 6; 7; 8; 9; 10]%float)
              (DoubleArray [0%float]) [0; 3; 0; 1; 0; 9]
              eq_refl eq_refl eq_refl eq_refl)
    as (out & Hr & Hw & Hc & _).
  - vm_compute. discriminate.
  - exists out. repeat split; assumption.
Defined.

Lemma report_of_flat_mesh_is_the_input_witness :
  get_output_metadata TenLevels.append_string TenLevels.attributes_of 12 1
    TenLevels.ivt_u_integral TenLevels.no_extent
  = DatasetDiff.Returns
      (TenLevels.no_extent,
       [Log (LogRecord ERROR origin
               "This calculation requires 3D data. The current dataset whole_extents are [, , , , , ]")]).
Proof.
  apply (report_of_flat_mesh_is_the_input
           TenLevels.append_string TenLevels.attributes_of 12 1
           TenLevels.ivt_u_integral TenLevels.no_extent TenLevels.mesh_coordinates
           (DoubleArray [1; 2; 3; 4; 5; 6; 7; 8; 9; 10]%float)
           (DoubleArray [0%float]) eq_refl eq_refl eq_refl).
  exact I.
Defined.

End VerticalIntegralMetadata.
